(** * StorageMaterializedView: a shallow embedding and its properties

    The development follows src/Storages/StorageMaterializedView.cpp.
    Pure helpers (inner-table names, header pruning) are plain functions;
    methods that call external collaborators (catalog, DDL interpreters,
    table engines, query analysis) run in a small state-and-exception monad
    over an abstract world, and record every outward call in an event log. *)

From stdpp Require Import base option list gmap strings pretty.
From Stdlib Require Import NArith.

(** ** Blocks (headers) *)

(** Modelled from the spec: [ColumnWithTypeAndName] and [Block] are declared
    outside src/. A header column is its name and the name of its data type;
    a block is the sequence of its columns. *)
Record ColumnWithTypeAndName := mkColumn {
  name : string;
  type : string;
}.

#[global] Instance ColumnWithTypeAndName_eq_dec : EqDecision ColumnWithTypeAndName.
Proof. solve_decision. Defined.

Abbreviation Block := (list ColumnWithTypeAndName).

(** [Block::getNames]. *)
Definition getNames (b : Block) : list string := name <$> b.

(** [Block::has]: is there a column with that name. *)
Definition has (b : Block) (n : string) : bool := bool_decide (n ∈ getNames b).

(** [Block::getPositionByName]: the position of the first column with that
    name; [None] stands for the exception it throws when there is none. *)
Definition getPositionByName (b : Block) (n : string) : option nat :=
  fst <$> list_find (λ c, name c = n) b.

(** [Block::erase(const std::set<size_t> &)]: drop the columns at the given
    positions, keep the others in order. [i] is the position of the head. *)
Fixpoint erase_from (i : nat) (positions : gset nat) (b : Block) : Block :=
  match b with
  | [] => []
  | c :: b' =>
      if decide (i ∈ positions) then erase_from (S i) positions b'
      else c :: erase_from (S i) positions b'
  end.

Definition erase (positions : gset nat) (b : Block) : Block :=
  erase_from 0 positions b.

(** [blocksHaveEqualStructure]: same columns (name and type) in the same
    order. *)
Definition blocksHaveEqualStructure (a b : Block) : bool := bool_decide (a = b).

(** The loop of [removeNonCommonColumns] over the columns of
    [target_header], filling [target_only_positions]. *)
Fixpoint target_only_loop (src_header target_header : Block)
    (columns : list ColumnWithTypeAndName) (target_only_positions : gset nat)
    : option (gset nat) :=
  match columns with
  | [] => Some target_only_positions
  | column :: rest =>
      if has src_header (name column)
      then target_only_loop src_header target_header rest target_only_positions
      else
        p ← getPositionByName target_header (name column);
        target_only_loop src_header target_header rest ({[p]} ∪ target_only_positions)
  end.

(** [removeNonCommonColumns(src_header, target_header)]: the new value of
    [target_header]. *)
Definition removeNonCommonColumns (src_header target_header : Block) : option Block :=
  target_only_positions ← target_only_loop src_header target_header target_header ∅;
  Some (erase target_only_positions target_header).

(** The reconciliation of [StorageMaterializedView::read]: prune the target
    header by the view's header, then the view's header by the pruned target
    header. The result is (mv_header, target_header). *)
Definition reconcile_headers (mv_header target_header : Block) : option (Block * Block) :=
  target_header' ← removeNonCommonColumns mv_header target_header;
  mv_header' ← removeNonCommonColumns target_header' mv_header;
  Some (mv_header', target_header').

(** The same two prunings in the other order. *)
Definition reconcile_headers_rev (mv_header target_header : Block) : option (Block * Block) :=
  mv_header' ← removeNonCommonColumns target_header mv_header;
  target_header' ← removeNonCommonColumns mv_header' target_header;
  Some (mv_header', target_header').

(** ** Identities *)

(** A UUID is a 128-bit number; [UUIDHelpers::Nil] is zero. *)
Abbreviation UUID := N.
Definition Nil : UUID := 0%N.

Module StorageID.
Record t := mk {
  database_name : string;
  table_name : string;
  uuid : UUID;
}.

(** [StorageID(database, table)]: the UUID is left [Nil]. *)
Definition make (database table : string) : t := mk database table Nil.

Definition createEmpty : t := mk "" "" Nil.

Definition hasUUID (id : t) : bool := negb (uuid id =? Nil)%N.

Definition getTableName (id : t) : string := table_name id.

(** Modelled from the spec: [StorageID::empty] is declared outside src/;
    an identity is empty when it has neither a table name nor a UUID
    ("if source is non-empty"). *)
Definition empty (id : t) : bool :=
  bool_decide (table_name id = "") && negb (hasUUID id).

(** The assignment [id.uuid = u]. *)
Definition set_uuid (id : t) (u : UUID) : t :=
  mk (database_name id) (table_name id) u.

(** Modelled from the spec: [getQualifiedName() < getQualifiedName()],
    declared outside src/, compares (database, table) lexicographically
    ("view.qualified_name < inner.qualified_name"). *)
Definition qualified_name_lt (a b : t) : bool :=
  match String.compare (database_name a) (database_name b) with
  | Lt => true
  | Gt => false
  | Eq => String.ltb (table_name a) (table_name b)
  end.
End StorageID.

(** ** Errors *)

(** The error codes the file declares, and [OTHER] for the codes that only
    collaborators raise. *)
Inductive ErrorCode :=
  | BAD_ARGUMENTS
  | NOT_IMPLEMENTED
  | INCORRECT_QUERY
  | TOO_MANY_MATERIALIZED_VIEWS
  | LOGICAL_ERROR
  | UNKNOWN_STORAGE
  | OTHER (n : N).

(** An exception: its code and its message (for the exceptions of this file,
    the format string, arguments not substituted). *)
Record Exception := mkException {
  code : ErrorCode;
  message : string;
}.

Inductive Result (A : Type) :=
  | Ok (a : A)
  | Throw (e : Exception).
Arguments Ok {A} a.
Arguments Throw {A} e.

(** ** Syntax trees *)

(** A syntax tree the view never looks into (a SELECT, a column list, an
    expression) is kept as its text. *)
Definition ASTPtr := string.

Module ASTRefreshStrategy.
Record t := mk { append : bool }.
End ASTRefreshStrategy.

Module ASTStorage.
(** [engine] is the name of the engine function, when there is one. *)
Record t := mk {
  engine : option string;
  partition_by : option ASTPtr;
}.
End ASTStorage.

Module ASTCreateQuery.
Record t := mk {
  select : option ASTPtr;
  storage : option ASTStorage.t;
  columns_list : option ASTPtr;
  refresh_strategy : option ASTRefreshStrategy.t;
  to_table_id : StorageID.t;
  to_inner_uuid : list UUID;
  is_create_empty : bool;
  is_dictionary : bool;
  is_ordinary_view : bool;
  is_materialized_view : bool;
  is_live_view : bool;
  is_window_view : bool;
  database : string;
  table : string;
  uuid : UUID;
}.

(** [std::make_shared<ASTCreateQuery>()]. *)
Definition make_shared : t :=
  mk None None None None StorageID.createEmpty [] false
     false false false false false "" "" Nil.

Definition set_columns_list_and_storage
    (q : t) (c : option ASTPtr) (s : option ASTStorage.t) : t :=
  mk (select q) s c (refresh_strategy q) (to_table_id q) (to_inner_uuid q)
     (is_create_empty q) (is_dictionary q) (is_ordinary_view q)
     (is_materialized_view q) (is_live_view q) (is_window_view q)
     (database q) (table q) (uuid q).

(** [setDatabase], [setTable] and the assignment of [uuid]. *)
Definition set_identity (q : t) (id : StorageID.t) : t :=
  mk (select q) (storage q) (columns_list q) (refresh_strategy q)
     (to_table_id q) (to_inner_uuid q)
     (is_create_empty q) (is_dictionary q) (is_ordinary_view q)
     (is_materialized_view q) (is_live_view q) (is_window_view q)
     (StorageID.database_name id) (StorageID.table_name id) (StorageID.uuid id).
End ASTCreateQuery.

Module ASTInsertQuery.
(** [columns] holds the names of the identifiers of the column list. *)
Record t := mk {
  select : ASTPtr;
  database : string;
  table : string;
  table_id : StorageID.t;
  columns : list string;
}.
End ASTInsertQuery.

Module SelectQueryDescription.
Record t := mk {
  select_table_id : StorageID.t;
  select_query : ASTPtr;
}.
End SelectQueryDescription.

Module StorageInMemoryMetadata.
Record t := mk {
  columns : Block;
  select : SelectQueryDescription.t;
  comment : string;
  refresh : option ASTRefreshStrategy.t;
}.
End StorageInMemoryMetadata.

Module StorageFeatures.
Record t := mk {
  supports_moving_data_between_tables : bool;
  supports_replication : bool;
}.
End StorageFeatures.

(** Modelled from the spec: [AlterCommand::Type] is declared outside src/.
    The kinds the source and the spec name, and [OTHER_TYPE] for the rest
    of the enumeration. *)
Inductive AlterCommandType :=
  | ADD_COLUMN
  | MODIFY_QUERY
  | MODIFY_REFRESH
  | OTHER_TYPE (n : N).

#[global] Instance AlterCommandType_eq_dec : EqDecision AlterCommandType.
Proof. solve_decision. Defined.

Module AlterCommand.
(** [refresh] is read for MODIFY REFRESH commands only, where the parser
    always sets it. *)
Record t := mk {
  type : AlterCommandType;
  refresh : ASTRefreshStrategy.t;
}.
End AlterCommand.

Module Context.
(** The parts of a query context [prepareRefresh] reads. *)
Record t := mk {
  getCurrentQueryId : string;
  lock_acquire_timeout : N;
  allow_experimental_analyzer : bool;
}.
End Context.

(** ** The view object *)

(** A table of the catalog ([StoragePtr]) is a handle. *)
Abbreviation StoragePtr := N.

(** The refresh task is owned by the view; here it is its parameters. *)
Definition RefreshTaskHolder := option ASTRefreshStrategy.t.

Record StorageMaterializedView := mkView {
  getStorageID : StorageID.t;
  getInMemoryMetadata : StorageInMemoryMetadata.t;
  has_inner_target_table : bool;
  has_scratch_table : bool;
  target_table_id : StorageID.t;
  scratch_table_id : StorageID.t;
  scratch_table_is_known_to_be_empty : bool;
  refresher : RefreshTaskHolder;
  refresh_on_start : bool;
}.

(** Modelled from the spec: the default member initialisers are in the
    class declaration, outside src/. The scratch identity starts empty and
    the flags start false (the scratch-empty flag "is set true at
    construction (scratch just created)"). *)
Definition default_scratch_table_id : StorageID.t := StorageID.createEmpty.
Definition default_scratch_table_is_known_to_be_empty : bool := false.
Definition default_refresh_on_start : bool := false.

Definition set_scratch_table_is_known_to_be_empty
    (this : StorageMaterializedView) (b : bool) : StorageMaterializedView :=
  mkView (getStorageID this) (getInMemoryMetadata this)
         (has_inner_target_table this) (has_scratch_table this)
         (target_table_id this) (scratch_table_id this) b
         (refresher this) (refresh_on_start this).

(** ** Outward calls *)

Inductive DropKind := Drop | Truncate.

(** Every call that asks a collaborator to act on a table or to analyse a
    query is recorded, at the moment it is issued, with the arguments the
    source passes; catalog and registry lookups are not. In [EvExecuteDropQuery] the
    last two flags are [ignore_sync_setting] and the DDL-guard flag; [None]
    is an argument the call leaves to its declared default. *)
Inductive Event :=
  | EvCreate (create_query : ASTCreateQuery.t)
  | EvExecuteDropQuery (kind : DropKind) (id : StorageID.t) (sync : bool)
      (ignore_sync_setting may_lock_ddl_guard : option bool)
  | EvLog (text : string) (e : Exception)
  | EvLockExclusively (table : StoragePtr) (query_id : string) (timeout : N)
  | EvTruncate (table : StoragePtr)
  | EvGetSampleBlock (analyzer : bool) (select : ASTPtr)
  | EvTransferAllDataFrom (destination source : StoragePtr)
      (remove_from_source replace_at_destination : bool).

(** Declarations of the repository that live outside src/ and that the
    code calls as pure functions. *)
Class Decls := {
  (** [toString(UUID)]. *)
  toString : UUID → string;
  (** [ASTCreateQuery::needsInnerTargetTable], [needsScratchTable] and
      [needsInnerTables]. *)
  needsInnerTargetTable : ASTCreateQuery.t → bool;
  needsScratchTable : ASTCreateQuery.t → bool;
  needsInnerTables : ASTCreateQuery.t → nat;
  (** [AlterCommand::isCommentAlter]. *)
  isCommentAlter : AlterCommand.t → bool;
}.

(** The collaborators (catalog, storage factory, DDL interpreters, table
    engines, query analysis) over a world [W]: a lookup reads the world, an
    action may change it, and either may throw. *)
Class Env (W : Type) := {
  ext_getSelectQueryFromASTForMatView :
    ASTPtr → bool → W → Result SelectQueryDescription.t;
  ext_getDependentViews : StorageID.t → W → list StorageID.t;
  ext_max_materialized_views_count_for_table : W → N;
  (** [getDatabase(database)->getCreateTableQuery(table)]. *)
  ext_getCreateTableQuery : string → string → W → Result ASTCreateQuery.t;
  ext_tryGetFeatures : string → W → option StorageFeatures.t;
  ext_InterpreterCreateQuery_execute : ASTCreateQuery.t → W → Result unit * W;
  ext_getTable : StorageID.t → W → Result StoragePtr;
  ext_tryGetTable : StorageID.t → W → option StoragePtr;
  ext_getStorageID : StoragePtr → W → StorageID.t;
  ext_executeDropQuery :
    DropKind → StorageID.t → bool → option bool → option bool → W → Result unit * W;
  ext_lockExclusively : StoragePtr → string → N → W → Result unit * W;
  ext_truncate : StoragePtr → W → Result unit * W;
  ext_getSampleBlock : bool → ASTPtr → W → Result Block;
  ext_transferAllDataFrom :
    StoragePtr → StoragePtr → bool → bool → W → Result unit * W;
  ext_totalRows : StoragePtr → W → option N;
  ext_totalBytes : StoragePtr → W → option N;
  ext_totalBytesUncompressed : StoragePtr → W → option N;
}.

(** ** Inner-table names *)

Definition generateInnerTableName {decls : Decls} (view_id : StorageID.t) (scratch : bool) : string :=
  let res := ".inner" in
  let res := if scratch then res +:+ "_scratch" else res in
  if StorageID.hasUUID view_id
  then res +:+ "_id." +:+ toString (StorageID.uuid view_id)
  else res +:+ "." +:+ StorageID.getTableName view_id.

(** ** The monad of the methods *)

(** A state is the world, the log of the outward calls issued so far (in the
    order they were issued) and the mutable data [L] local to the running
    code: the journal of created tables for the constructor, the fields of
    the object for a method. *)
Record State (W L : Type) := mkState {
  world : W;
  log : list Event;
  local : L;
}.
Arguments mkState {W L} world log local.
Arguments world {W L} s.
Arguments log {W L} s.
Arguments local {W L} s.

Section monad.
Context {W : Type}.

(** A computation returns or throws, and leaves a state either way. *)
Definition M (L A : Type) : Type := State W L → Result A * State W L.

#[global] Instance M_ret L : MRet (M L) := λ A a st, (Ok a, st).

#[global] Instance M_bind L : MBind (M L) := λ A B f m st,
  match m st with
  | (Ok a, st') => f a st'
  | (Throw e, st') => (Throw e, st')
  end.

Definition throw {L A} (e : Exception) : M L A := λ st, (Throw e, st).

Definition throw_if {L} (cond : bool) (e : Exception) : M L unit :=
  if cond then throw e else mret tt.

(** [try { body } catch (...) { handler }]. *)
Definition try_catch {L A} (body : M L A) (handler : Exception → M L A) : M L A :=
  λ st,
    match body st with
    | (Ok a, st') => (Ok a, st')
    | (Throw e, st') => handler e st'
    end.

Definition get_local {L} : M L L := λ st, (Ok (local st), st).

Definition set_local {L} (l : L) : M L unit :=
  λ st, (Ok tt, mkState (world st) (log st) l).

(** A lookup that cannot throw, and one that can. *)
Definition read {L A} (f : W → A) : M L A := λ st, (Ok (f (world st)), st).

Definition read_or_throw {L A} (f : W → Result A) : M L A :=
  λ st, (f (world st), st).

(** An outward call: recorded, then run on the world. *)
Definition call {L A} (ev : Event) (f : W → Result A * W) : M L A :=
  λ st,
    let '(r, w) := f (world st) in
    (r, mkState w (log st ++ [ev]) (local st)).

Definition emit {L} (ev : Event) : M L unit :=
  λ st, (Ok tt, mkState (world st) (log st ++ [ev]) (local st)).

(** [for (const auto & x : l) body(x)]. *)
Fixpoint for_each {L A} (l : list A) (body : A → M L unit) : M L unit :=
  match l with
  | [] => mret tt
  | x :: l' => body x ;; for_each l' body
  end.
End monad.

(** ** The constructor *)

Section constructor.
Context {decls : Decls} {W : Type} {env : Env W}.

(** The constructor's local that the rollback reads is
    [created_inner_tables]. *)
Abbreviation Ctor := (M (W := W) (list StorageID.t)).

(** Lines 90-128: the checks on the query, on the number of views of the
    source table and on self-reference. Returns the SELECT description. *)
Definition ctor_validate (table_id_ : StorageID.t) (query : ASTCreateQuery.t)
    : Ctor SelectQueryDescription.t :=
  query_select ←
    match ASTCreateQuery.select query return Ctor ASTPtr with
    | None => throw (mkException INCORRECT_QUERY "SELECT query is not specified for {}")
    | Some s => mret s
    end;
  let has_inner_target_table := needsInnerTargetTable query in
  throw_if (has_inner_target_table && bool_decide (ASTCreateQuery.storage query = None))
    (mkException INCORRECT_QUERY
       "You must specify where to save results of a MaterializedView query: either ENGINE or an existing table in a TO clause");;
  select ← read_or_throw
    (ext_getSelectQueryFromASTForMatView query_select
       (bool_decide (is_Some (ASTCreateQuery.refresh_strategy query))));
  (if negb (StorageID.empty (SelectQueryDescription.select_table_id select))
      return Ctor unit
   then
     select_table_dependent_views ←
       read (ext_getDependentViews (SelectQueryDescription.select_table_id select));
     max_materialized_views_count_for_table ←
       read ext_max_materialized_views_count_for_table;
     throw_if (negb (max_materialized_views_count_for_table =? 0)%N
               && (max_materialized_views_count_for_table
                     <=? N.of_nat (length select_table_dependent_views))%N)
       (mkException TOO_MANY_MATERIALIZED_VIEWS "Too many materialized views, maximum: {}")
   else mret tt);;
  let point_to_itself_by_uuid :=
    existsb (λ uuid, (uuid =? StorageID.uuid table_id_)%N)
            (ASTCreateQuery.to_inner_uuid query) in
  let point_to_itself_by_name :=
    bool_decide (StorageID.database_name (ASTCreateQuery.to_table_id query)
                 = StorageID.database_name table_id_)
    && bool_decide (StorageID.table_name (ASTCreateQuery.to_table_id query)
                    = StorageID.table_name table_id_) in
  throw_if (point_to_itself_by_uuid || point_to_itself_by_name)
    (mkException BAD_ARGUMENTS "Materialized view {} cannot point to itself");;
  mret select.

(** Lines 130-138: the identities of the target and of the scratch table
    before the TO INNER UUIDs are applied. *)
Definition ctor_minted_ids (table_id_ : StorageID.t) (query : ASTCreateQuery.t)
    : StorageID.t * StorageID.t :=
  let has_inner_target_table := needsInnerTargetTable query in
  let has_scratch_table := needsScratchTable query in
  let mv_storage_id := table_id_ in
  let target_table_id :=
    if has_inner_target_table
    then StorageID.make (StorageID.database_name mv_storage_id)
                        (generateInnerTableName mv_storage_id false)
    else ASTCreateQuery.to_table_id query in
  let scratch_table_id :=
    if has_scratch_table
    then StorageID.make (StorageID.database_name mv_storage_id)
                        (generateInnerTableName mv_storage_id true)
    else default_scratch_table_id in
  (target_table_id, scratch_table_id).

(** Lines 130-149: the identities of the target and of the scratch table,
    from the minted names and the TO INNER UUIDs. *)
Definition ctor_bind_inner_table_ids (table_id_ : StorageID.t) (query : ASTCreateQuery.t)
    : Ctor (StorageID.t * StorageID.t) :=
  let has_inner_target_table := needsInnerTargetTable query in
  let has_scratch_table := needsScratchTable query in
  let '(target_table_id, scratch_table_id) := ctor_minted_ids table_id_ query in
  match ASTCreateQuery.to_inner_uuid query with
  | [] => mret (target_table_id, scratch_table_id)
  | front :: _ =>
      throw_if (negb (length (ASTCreateQuery.to_inner_uuid query) =? needsInnerTables query))
        (mkException INCORRECT_QUERY
           "Materialized view needs {} inner tables, but TO INNER UUID contains {} uuids");;
      let target_table_id :=
        if has_inner_target_table
        then StorageID.set_uuid target_table_id front
        else target_table_id in
      let scratch_table_id :=
        if has_scratch_table
        then StorageID.set_uuid scratch_table_id
               (default front (last (ASTCreateQuery.to_inner_uuid query)))
        else scratch_table_id in
      mret (target_table_id, scratch_table_id)
  end.

(** Lines 168-209, after the scratch create query has been derived: the
    checks on it. *)
Definition ctor_check_scratch_create_query (scratch_create_query : ASTCreateQuery.t)
    : Ctor unit :=
  throw_if (ASTCreateQuery.is_dictionary scratch_create_query
            || ASTCreateQuery.is_ordinary_view scratch_create_query
            || ASTCreateQuery.is_materialized_view scratch_create_query
            || ASTCreateQuery.is_live_view scratch_create_query
            || ASTCreateQuery.is_window_view scratch_create_query)
    (mkException BAD_ARGUMENTS
       "Materialized view can only write to a regular table, not dictionary or view");;
  match ASTCreateQuery.storage scratch_create_query with
  | None => throw (mkException LOGICAL_ERROR "Target table create query missing ENGINE")
  | Some storage =>
      match ASTStorage.engine storage with
      | None => throw (mkException LOGICAL_ERROR "Target table create query missing ENGINE")
      | Some engine_name =>
          features ← read (ext_tryGetFeatures engine_name);
          match features with
          | None =>
              throw (mkException UNKNOWN_STORAGE "Unknown engine for target table: {}")
          | Some features =>
              throw_if (negb (StorageFeatures.supports_moving_data_between_tables features))
                (mkException NOT_IMPLEMENTED
                   "Engine {} doesn't support moving data between tables as required by refreshable materialized view (without APPEND). Only the following engines support it: {}");;
              throw_if (bool_decide (is_Some (ASTStorage.partition_by storage)))
                (mkException NOT_IMPLEMENTED
                   "Refreshable materialized views (without APPEND) don't support partitioned tables.");;
              throw_if (StorageFeatures.supports_replication features)
                (mkException NOT_IMPLEMENTED
                   "Refreshable materialized views (without APPEND) don't support replicated tables yet.")
          end
      end
  end.

(** Lines 157-166: the create query of the inner target table. *)
Definition ctor_inner_target_create_query (query : ASTCreateQuery.t)
    : option ASTCreateQuery.t :=
  if needsInnerTargetTable query
  then Some (ASTCreateQuery.set_columns_list_and_storage ASTCreateQuery.make_shared
               (ASTCreateQuery.columns_list query) (ASTCreateQuery.storage query))
  else None.

(** Lines 171-180: the scratch create query is a clone of the inner
    target's, or else the create query of the existing target table. *)
Definition ctor_derive_scratch_create_query
    (inner_target_create_query : option ASTCreateQuery.t) (target_table_id : StorageID.t)
    : Ctor ASTCreateQuery.t :=
  match inner_target_create_query with
  | Some q => mret q
  | None =>
      read_or_throw
        (ext_getCreateTableQuery (StorageID.database_name target_table_id)
                                 (StorageID.table_name target_table_id))
  end.

(** Lines 151-210: the create queries of the inner tables, and the value
    of [scratch_table_is_known_to_be_empty]. On attach there is none. *)
Definition ctor_prepare_inner_create_queries
    (query : ASTCreateQuery.t) (target_table_id : StorageID.t) (attach_ : bool)
    : Ctor (option ASTCreateQuery.t * option ASTCreateQuery.t * bool) :=
  let has_scratch_table := needsScratchTable query in
  if negb attach_ then
    let inner_target_create_query := ctor_inner_target_create_query query in
    if has_scratch_table then
      scratch_create_query ←
        ctor_derive_scratch_create_query inner_target_create_query target_table_id;
      ctor_check_scratch_create_query scratch_create_query;;
      mret (inner_target_create_query, Some scratch_create_query, true)
    else mret (inner_target_create_query, None,
               default_scratch_table_is_known_to_be_empty)
  else mret (None, None, default_scratch_table_is_known_to_be_empty).

(** The lambda [execute_inner_create]; returns the new value of [id]. *)
Definition execute_inner_create
    (create_query : option ASTCreateQuery.t) (id : StorageID.t) : Ctor StorageID.t :=
  match create_query with
  | None => mret id
  | Some create_query =>
      let create_query := ASTCreateQuery.set_identity create_query id in
      call (EvCreate create_query) (ext_InterpreterCreateQuery_execute create_query);;
      table ← read_or_throw (ext_getTable id);
      id ← read (ext_getStorageID table);
      created_inner_tables ← get_local;
      set_local (created_inner_tables ++ [id]);;
      mret id
  end.

(** Lines 245-259: the loop of the catch block. *)
Definition ctor_un_create_inner_tables (mv_storage_id : StorageID.t) : Ctor unit :=
  created_inner_tables ← get_local;
  for_each created_inner_tables (λ id,
    try_catch
      (let may_lock_ddl_guard := StorageID.qualified_name_lt mv_storage_id id in
       call (EvExecuteDropQuery Drop id false (Some true) (Some may_lock_ddl_guard))
            (ext_executeDropQuery Drop id false (Some true) (Some may_lock_ddl_guard)))
      (λ e, emit (EvLog "Failed to un-create inner table" e))).

(** Lines 219-261: create the inner tables, undo on failure. Returns the
    final [target_table_id] and [scratch_table_id]. *)
Definition ctor_create_inner_tables (mv_storage_id : StorageID.t)
    (inner_target_create_query scratch_create_query : option ASTCreateQuery.t)
    (target_table_id scratch_table_id : StorageID.t)
    : Ctor (StorageID.t * StorageID.t) :=
  set_local [];;
  try_catch
    (target_table_id ← execute_inner_create inner_target_create_query target_table_id;
     scratch_table_id ← execute_inner_create scratch_create_query scratch_table_id;
     mret (target_table_id, scratch_table_id))
    (λ e, ctor_un_create_inner_tables mv_storage_id;; throw e).

(** [StorageMaterializedView::StorageMaterializedView]. The debug-only
    [chassert] of line 214 has no effect and is left out; creating the
    refresh task is taken not to throw. *)
Definition StorageMaterializedView_ctor
    (table_id_ : StorageID.t) (query : ASTCreateQuery.t) (columns_ : Block)
    (attach_ : bool) (comment : string) : Ctor StorageMaterializedView :=
  select ← ctor_validate table_id_ query;
  let storage_metadata :=
    StorageInMemoryMetadata.mk columns_ select comment
      (ASTCreateQuery.refresh_strategy query) in
  ids ← ctor_bind_inner_table_ids table_id_ query;
  let '(target_table_id, scratch_table_id) := ids in
  prepared ← ctor_prepare_inner_create_queries query target_table_id attach_;
  let '(inner_target_create_query, scratch_create_query,
        scratch_table_is_known_to_be_empty) := prepared in
  let refresher := ASTCreateQuery.refresh_strategy query in
  let refresh_on_start :=
    if bool_decide (is_Some (ASTCreateQuery.refresh_strategy query))
    then negb attach_ && negb (ASTCreateQuery.is_create_empty query)
    else default_refresh_on_start in
  ids ← ctor_create_inner_tables table_id_
           inner_target_create_query scratch_create_query
           target_table_id scratch_table_id;
  let '(target_table_id, scratch_table_id) := ids in
  mret (mkView table_id_ storage_metadata
          (needsInnerTargetTable query) (needsScratchTable query)
          target_table_id scratch_table_id
          scratch_table_is_known_to_be_empty refresher refresh_on_start).
End constructor.

(** ** The methods *)

Section methods.
Context {decls : Decls} {W : Type} {env : Env W}.

(** A method runs on the fields of the object. *)
Abbreviation Method := (M (W := W) StorageMaterializedView).

Definition getTargetTableId (this : StorageMaterializedView) : StorageID.t :=
  target_table_id this.

Definition getScratchTableId (this : StorageMaterializedView) : StorageID.t :=
  scratch_table_id this.

Definition getTargetTable : Method StoragePtr :=
  this ← get_local;
  read_or_throw (ext_getTable (getTargetTableId this)).

Definition getScratchTable : Method StoragePtr :=
  this ← get_local;
  read_or_throw (ext_getTable (getScratchTableId this)).

Definition tryGetTargetTable (this : StorageMaterializedView) (w : W) : option StoragePtr :=
  ext_tryGetTable (getTargetTableId this) w.

(** [StorageMaterializedView::truncate]. *)
Definition truncate : Method unit :=
  this ← get_local;
  if has_inner_target_table this
  then call (EvExecuteDropQuery Truncate (getTargetTableId this) true None None)
            (ext_executeDropQuery Truncate (getTargetTableId this) true None None)
  else mret tt.

(** [StorageMaterializedView::prepareRefresh]. *)
Definition prepareRefresh (refresh_context : Context.t) : Method ASTInsertQuery.t :=
  this ← get_local;
  let target :=
    if has_scratch_table this then getScratchTableId this else getTargetTableId this in
  (if has_scratch_table this && negb (scratch_table_is_known_to_be_empty this)
      return Method unit
   then
     scratch ← getScratchTable;
     call (EvLockExclusively scratch
             (Context.getCurrentQueryId refresh_context)
             (Context.lock_acquire_timeout refresh_context))
          (ext_lockExclusively scratch
             (Context.getCurrentQueryId refresh_context)
             (Context.lock_acquire_timeout refresh_context));;
     call (EvTruncate scratch) (ext_truncate scratch)
   else mret tt);;
  let select :=
    SelectQueryDescription.select_query
      (StorageInMemoryMetadata.select (getInMemoryMetadata this)) in
  let analyzer := Context.allow_experimental_analyzer refresh_context in
  header ← call (EvGetSampleBlock analyzer select)
                (λ w, (ext_getSampleBlock analyzer select w, w));
  let columns := getNames header in
  set_local (set_scratch_table_is_known_to_be_empty this false);;
  mret (ASTInsertQuery.mk select
          (StorageID.database_name target) (StorageID.table_name target)
          target columns).

(** [StorageMaterializedView::transferRefreshedData]. *)
Definition transferRefreshedData : Method unit :=
  this ← get_local;
  if negb (has_scratch_table this) then mret tt
  else
    target ← getTargetTable;
    scratch ← getScratchTable;
    call (EvTransferAllDataFrom target scratch true true)
         (ext_transferAllDataFrom target scratch true true);;
    set_local (set_scratch_table_is_known_to_be_empty this true).

(** [StorageMaterializedView::checkAlterIsPossible]: the loop over the
    commands; returning is accepting. *)
Fixpoint checkAlterIsPossible (this : StorageMaterializedView)
    (commands : list AlterCommand.t) : Result unit :=
  match commands with
  | [] => Ok tt
  | command :: rest =>
      if isCommentAlter command then checkAlterIsPossible this rest
      else if bool_decide (AlterCommand.type command = MODIFY_QUERY)
      then checkAlterIsPossible this rest
      else if bool_decide (AlterCommand.type command = MODIFY_REFRESH)
      then
        if negb (bool_decide (is_Some (refresher this)))
        then Throw (mkException NOT_IMPLEMENTED
               "MODIFY REFRESH is not supported by non-refreshable materialized views")
        else if negb (eqb (ASTRefreshStrategy.append (AlterCommand.refresh command))
                          (negb (has_scratch_table this)))
        then Throw (mkException NOT_IMPLEMENTED
               "Adding/removing APPEND is not supported by refreshable materialized views")
        else checkAlterIsPossible this rest
      else Throw (mkException NOT_IMPLEMENTED
             "Alter of type '{}' is not supported by storage {}")
  end.

(** [totalRows], [totalBytes] and [totalBytesUncompressed]: const methods,
    functions of the object and of the world. *)
Definition totalRows (this : StorageMaterializedView) (w : W) : option N :=
  if has_inner_target_table this then
    match tryGetTargetTable this w with
    | Some table => ext_totalRows table w
    | None => None
    end
  else None.

Definition totalBytes (this : StorageMaterializedView) (w : W) : option N :=
  if has_inner_target_table this then
    match tryGetTargetTable this w with
    | Some table => ext_totalBytes table w
    | None => None
    end
  else None.

Definition totalBytesUncompressed (this : StorageMaterializedView) (w : W) : option N :=
  if has_inner_target_table this then
    match tryGetTargetTable this w with
    | Some table => ext_totalBytesUncompressed table w
    | None => None
    end
  else None.
End methods.

(** ** The words of the specification *)

(** The alter commands the specification allows on a view: a comment alter,
    MODIFY QUERY, and MODIFY REFRESH when a refresher exists and the APPEND
    flag stays what it is, that is, the negation of [has_scratch_table]. *)
Definition alter_allowed {decls : Decls} (this : StorageMaterializedView)
    (command : AlterCommand.t) : bool :=
  isCommentAlter command
  || bool_decide (AlterCommand.type command = MODIFY_QUERY)
  || (bool_decide (AlterCommand.type command = MODIFY_REFRESH)
      && bool_decide (is_Some (refresher this))
      && eqb (ASTRefreshStrategy.append (AlterCommand.refresh command))
             (negb (has_scratch_table this))).

(** The SELECT of the view, and the table a refresh inserts into: the
    scratch table if it exists, else the target. *)
Definition refresh_select (this : StorageMaterializedView) : ASTPtr :=
  SelectQueryDescription.select_query
    (StorageInMemoryMetadata.select (getInMemoryMetadata this)).

Definition refresh_destination (this : StorageMaterializedView) : StorageID.t :=
  if has_scratch_table this then scratch_table_id this else target_table_id this.

(** The tables a log asked to create, and those it asked to drop. *)
Definition created_by (events : list Event) : list ASTCreateQuery.t :=
  omap (λ ev, match ev with EvCreate q => Some q | _ => None end) events.

Definition dropped_by (events : list Event) : list StorageID.t :=
  omap (λ ev, match ev with
              | EvExecuteDropQuery Drop id _ _ _ => Some id
              | _ => None
              end) events.

(** ** A concrete world *)

(** A small catalog on which the definitions above can be run: the tables
    that exist (with the name of their engine), the table names whose CREATE
    throws, and whether DROP throws. *)
Module Demo.
Record World := mkWorld {
  tables : list (StorageID.t * string);
  failing_creates : list string;
  drops_fail : bool;
}.

Definition table_exists_error : Exception := mkException (OTHER 57) "Table already exists".
Definition unknown_table_error : Exception := mkException (OTHER 60) "Table doesn't exist".
Definition drop_error : Exception := mkException (OTHER 219) "Cannot drop table".

Definition same_name (a b : StorageID.t) : bool :=
  bool_decide (StorageID.database_name a = StorageID.database_name b)
  && bool_decide (StorageID.table_name a = StorageID.table_name b).

Definition find_table (id : StorageID.t) (w : World) : option StoragePtr :=
  (λ r, N.of_nat r.1) <$> list_find (λ t, same_name t.1 id = true) (tables w).

Definition features_of (engine_name : string) : option StorageFeatures.t :=
  if bool_decide (engine_name = "MergeTree") then Some (StorageFeatures.mk true false)
  else if bool_decide (engine_name = "ReplicatedMergeTree") then Some (StorageFeatures.mk true true)
  else if bool_decide (engine_name = "Memory") then Some (StorageFeatures.mk false false)
  else None.

(** Modelled from the spec: the three [needs...] methods of the CREATE query
    are declared outside src/. "A target inner table exists iff the view's
    declaration requests the database to create the destination (not a
    pre-existing TO-clause table)"; "a scratch inner table exists iff the
    view is refreshable without APPEND semantics"; [needsInnerTables] is
    their number. Alter kind 0 stands for the comment alters. *)
Definition decls : Decls := {|
  toString := λ u, pretty u;
  needsInnerTargetTable := λ q, StorageID.empty (ASTCreateQuery.to_table_id q);
  needsScratchTable := λ q,
    match ASTCreateQuery.refresh_strategy q with
    | Some r => negb (ASTRefreshStrategy.append r)
    | None => false
    end;
  needsInnerTables := λ q,
    Nat.b2n (StorageID.empty (ASTCreateQuery.to_table_id q))
    + match ASTCreateQuery.refresh_strategy q with
      | Some r => Nat.b2n (negb (ASTRefreshStrategy.append r))
      | None => 0
      end;
  isCommentAlter := λ c, bool_decide (AlterCommand.type c = OTHER_TYPE 0);
|}.

Definition env : Env World := {|
  ext_getSelectQueryFromASTForMatView := λ ast _ _,
    Ok (SelectQueryDescription.mk (StorageID.make "db" "src") ast);
  ext_getDependentViews := λ _ _, [];
  ext_max_materialized_views_count_for_table := λ _, 0%N;
  ext_getCreateTableQuery := λ database table w,
    match list_find (λ t, same_name t.1 (StorageID.make database table) = true) (tables w) with
    | Some (_, (id, engine_name)) =>
        Ok (ASTCreateQuery.set_identity
              (ASTCreateQuery.set_columns_list_and_storage ASTCreateQuery.make_shared
                 (Some "a UInt64, b String")
                 (Some (ASTStorage.mk (Some engine_name) None)))
              id)
    | None => Throw unknown_table_error
    end;
  ext_tryGetFeatures := λ engine_name _, features_of engine_name;
  ext_InterpreterCreateQuery_execute := λ q w,
    if bool_decide (ASTCreateQuery.table q ∈ failing_creates w)
    then (Throw table_exists_error, w)
    else (Ok tt,
          mkWorld
            (tables w ++
               [(StorageID.mk (ASTCreateQuery.database q) (ASTCreateQuery.table q)
                              (ASTCreateQuery.uuid q),
                 default "" (ASTCreateQuery.storage q ≫= ASTStorage.engine))])
            (failing_creates w) (drops_fail w));
  ext_getTable := λ id w,
    match find_table id w with
    | Some table => Ok table
    | None => Throw unknown_table_error
    end;
  ext_tryGetTable := find_table;
  ext_getStorageID := λ table w,
    default StorageID.createEmpty (fst <$> tables w !! N.to_nat table);
  ext_executeDropQuery := λ kind id _ _ _ w,
    if drops_fail w then (Throw drop_error, w)
    else (Ok tt,
          match kind with
          | Drop =>
              mkWorld (filter (λ t, same_name t.1 id = false) (tables w))
                      (failing_creates w) (drops_fail w)
          | Truncate => w
          end);
  ext_lockExclusively := λ _ _ _ w, (Ok tt, w);
  ext_truncate := λ _ w, (Ok tt, w);
  ext_getSampleBlock := λ _ _ _, Ok [mkColumn "a" "UInt64"; mkColumn "b" "String"];
  ext_transferAllDataFrom := λ _ _ _ _ w, (Ok tt, w);
  ext_totalRows := λ _ _, Some 42%N;
  ext_totalBytes := λ _ _, Some 336%N;
  ext_totalBytesUncompressed := λ _ _, Some 336%N;
|}.

Definition view_id : StorageID.t := StorageID.mk "db" "v" 7.
Definition select_text : ASTPtr := "SELECT a, b FROM db.src".
Definition merge_tree : ASTStorage.t := ASTStorage.mk (Some "MergeTree") None.
Definition memory : ASTStorage.t := ASTStorage.mk (Some "Memory") None.

(** CREATE MATERIALIZED VIEW db.v [REFRESH ...] [TO INNER UUID ...]
    ENGINE = ... AS SELECT a, b FROM db.src. *)
Definition create_view (storage : ASTStorage.t)
    (refresh : option ASTRefreshStrategy.t) (uuids : list UUID) : ASTCreateQuery.t :=
  ASTCreateQuery.mk (Some select_text) (Some storage) (Some "a UInt64, b String")
    refresh StorageID.createEmpty uuids false
    false false true false false "db" "v" 7.

Definition every_hour : option ASTRefreshStrategy.t := Some (ASTRefreshStrategy.mk false).

(** CREATE MATERIALIZED VIEW db.v TO db.dst AS SELECT a, b FROM db.src. *)
Definition create_view_to : ASTCreateQuery.t :=
  ASTCreateQuery.mk (Some select_text) None None
    None (StorageID.make "db" "dst") [] false
    false false true false false "db" "v" 7.

Definition empty_world : World := mkWorld [] [] false.

Definition metadata : StorageInMemoryMetadata.t :=
  StorageInMemoryMetadata.mk [mkColumn "a" "UInt64"; mkColumn "b" "String"]
    (SelectQueryDescription.mk (StorageID.make "db" "src") select_text) "" None.

(** A refreshable view with both inner tables, after a first insert. *)
Definition refreshable_view : StorageMaterializedView :=
  mkView view_id metadata true true
    (StorageID.mk "db" ".inner_id.7" 8) (StorageID.mk "db" ".inner_scratch_id.7" 9)
    false every_hour false.

Definition refreshable_world : World :=
  mkWorld [(StorageID.mk "db" ".inner_id.7" 8, "MergeTree");
           (StorageID.mk "db" ".inner_scratch_id.7" 9, "MergeTree")] [] false.

(** A view over the existing table db.dst. *)
Definition view_to : StorageMaterializedView :=
  mkView view_id metadata false false
    (StorageID.make "db" "dst") StorageID.createEmpty false None false.

Definition world_to : World := mkWorld [(StorageID.mk "db" "dst" 5, "MergeTree")] [] false.

Definition context : Context.t := Context.mk "query-1" 120 true.

(** The state before, the query returned by and the state after a
    [prepareRefresh] on the refreshable view. *)
Definition before_prepare : State World StorageMaterializedView :=
  mkState refreshable_world [] refreshable_view.

Definition insert_query : ASTInsertQuery.t :=
  ASTInsertQuery.mk select_text "db" ".inner_scratch_id.7"
    (StorageID.mk "db" ".inner_scratch_id.7" 9) ["a"; "b"].

Definition after_prepare : State World StorageMaterializedView :=
  mkState refreshable_world
    [EvLockExclusively 1 "query-1" 120; EvTruncate 1; EvGetSampleBlock true select_text]
    refreshable_view.

(** The construction of a refreshable view when the CREATE of the scratch
    table throws: the states after the first and the second create. *)
Definition refreshable_query : ASTCreateQuery.t := create_view merge_tree every_hour [8; 9]%N.

Definition failing_world (drops_fail : bool) : World :=
  mkWorld [] [".inner_scratch_id.7"] drops_fail.

Definition inner_create_query : ASTCreateQuery.t :=
  ASTCreateQuery.set_columns_list_and_storage ASTCreateQuery.make_shared
    (Some "a UInt64, b String") (Some merge_tree).

Definition target_id : StorageID.t := StorageID.mk "db" ".inner_id.7" 8.
Definition scratch_id : StorageID.t := StorageID.mk "db" ".inner_scratch_id.7" 9.

Definition after_target_create (drops_fail : bool) : State World (list StorageID.t) :=
  mkState (mkWorld [(target_id, "MergeTree")] [".inner_scratch_id.7"] drops_fail)
    [EvCreate (ASTCreateQuery.set_identity inner_create_query target_id)]
    [target_id].

Definition after_scratch_create (drops_fail : bool) : State World (list StorageID.t) :=
  mkState (mkWorld [(target_id, "MergeTree")] [".inner_scratch_id.7"] drops_fail)
    [EvCreate (ASTCreateQuery.set_identity inner_create_query target_id);
     EvCreate (ASTCreateQuery.set_identity inner_create_query scratch_id)]
    [target_id].

(** Headers: of a view, and of target tables. *)
Definition header_abc : Block :=
  [mkColumn "a" "UInt64"; mkColumn "b" "String"; mkColumn "c" "Date"].
Definition header_dba : Block :=
  [mkColumn "d" "UInt8"; mkColumn "b" "String"; mkColumn "a" "UInt32"].
Definition header_ab : Block := [mkColumn "a" "UInt64"; mkColumn "b" "String"].
Definition header_ba : Block := [mkColumn "b" "String"; mkColumn "a" "UInt64"].
End Demo.

(** ** More of the object: inner tables, forwarding, renaming *)

(** [StorageMaterializedView::innerTables]. *)
Definition innerTables (this : StorageMaterializedView) : list StorageID.t :=
  (if has_inner_target_table this then [target_table_id this] else [])
  ++ (if has_scratch_table this then [scratch_table_id this] else []).

(** The assignments to the inner identities and, for
    [IStorage::renameInMemory], to the identity of the view. *)
Definition set_inner_table_ids (this : StorageMaterializedView)
    (target scratch : StorageID.t) : StorageMaterializedView :=
  mkView (getStorageID this) (getInMemoryMetadata this)
         (has_inner_target_table this) (has_scratch_table this)
         target scratch (scratch_table_is_known_to_be_empty this)
         (refresher this) (refresh_on_start this).

Definition set_storage_id (this : StorageMaterializedView)
    (id : StorageID.t) : StorageMaterializedView :=
  mkView id (getInMemoryMetadata this)
         (has_inner_target_table this) (has_scratch_table this)
         (target_table_id this) (scratch_table_id this)
         (scratch_table_is_known_to_be_empty this)
         (refresher this) (refresh_on_start this).

(** One element of a RENAME query ([ASTRenameQuery::addElement]). *)
Record RenameElement := mkRenameElement {
  from_database : string;
  from_table : string;
  to_database : string;
  to_table : string;
}.

(** The arguments of [optimize] after the query. *)
Record OptimizeArguments := mkOptimizeArguments {
  optimize_partition : option ASTPtr;
  optimize_final : bool;
  optimize_deduplicate : bool;
  optimize_deduplicate_by_columns : list string;
  optimize_cleanup : bool;
}.

(** The collaborators of the forwarded statements and of the life cycle:
    the methods of the target table, the dependency edges of the catalog,
    the RENAME interpreter and the refresh task. Commands and the pipe
    [alterPartition] returns are kept as text. *)
Class Lifecycle (W : Type) := {
  ext_optimize : StoragePtr → ASTPtr → OptimizeArguments → W → Result bool * W;
  ext_mutate : StoragePtr → ASTPtr → W → Result unit * W;
  ext_checkMutationIsPossible : StoragePtr → ASTPtr → W → Result unit;
  ext_alterPartition : StoragePtr → ASTPtr → W → Result string * W;
  ext_checkAlterPartitionIsPossible : StoragePtr → ASTPtr → W → Result unit;
  ext_removeViewDependency : StorageID.t → StorageID.t → W → Result unit * W;
  ext_updateViewDependency :
    StorageID.t → StorageID.t → StorageID.t → StorageID.t → W → Result unit * W;
  ext_InterpreterRenameQuery_execute : list RenameElement → W → Result unit * W;
  ext_refresher_rename : StorageID.t → W → Result unit * W;
}.

Section more_methods.
Context {decls : Decls} {W : Type} {env : Env W} {lifecycle : Lifecycle W}.

(** An action on a collaborator that the log does not keep. *)
Definition act {L A} (f : W → Result A * W) : M L A :=
  λ st,
    let '(r, w) := f (world st) in
    (r, mkState w (log st) (local st)).

(** The lambda [drop] of [dropInnerTableIfAny]. *)
Definition drop_inner_table (sync : bool) (inner_table_id : StorageID.t)
    : M (W := W) StorageMaterializedView unit :=
  this ← get_local;
  let may_lock_ddl_guard :=
    StorageID.qualified_name_lt (getStorageID this) inner_table_id in
  table ← read (ext_tryGetTable inner_table_id);
  if bool_decide (is_Some table)
  then call (EvExecuteDropQuery Drop inner_table_id sync (Some true)
               (Some may_lock_ddl_guard))
            (ext_executeDropQuery Drop inner_table_id sync (Some true)
               (Some may_lock_ddl_guard))
  else mret tt.

(** [StorageMaterializedView::dropInnerTableIfAny]. *)
Definition dropInnerTableIfAny (sync : bool) : M (W := W) StorageMaterializedView unit :=
  this ← get_local;
  (if has_inner_target_table this return M StorageMaterializedView unit
   then drop_inner_table sync (getTargetTableId this)
   else mret tt);;
  if has_scratch_table this
  then drop_inner_table sync (getScratchTableId this)
  else mret tt.

(** [StorageMaterializedView::drop]. *)
Definition drop : M (W := W) StorageMaterializedView unit :=
  this ← get_local;
  let table_id := getStorageID this in
  let select_query := StorageInMemoryMetadata.select (getInMemoryMetadata this) in
  (if negb (StorageID.empty (SelectQueryDescription.select_table_id select_query))
      return M StorageMaterializedView unit
   then act (ext_removeViewDependency
               (SelectQueryDescription.select_table_id select_query) table_id)
   else mret tt);;
  dropInnerTableIfAny false.

(** [StorageMaterializedView::checkStatementCanBeForwarded]. *)
Definition checkStatementCanBeForwarded : M (W := W) StorageMaterializedView unit :=
  this ← get_local;
  throw_if (negb (has_inner_target_table this))
    (mkException INCORRECT_QUERY
       "MATERIALIZED VIEW targets existing table {}. Execute the statement directly on it.").

(** [optimize], [checkMutationIsPossible], [alterPartition],
    [checkAlterPartitionIsPossible] and [mutate]. *)
Definition optimize (query : ASTPtr) (arguments : OptimizeArguments)
    : M (W := W) StorageMaterializedView bool :=
  checkStatementCanBeForwarded;;
  storage_ptr ← getTargetTable;
  act (ext_optimize storage_ptr query arguments).

Definition checkMutationIsPossible (commands : ASTPtr)
    : M (W := W) StorageMaterializedView unit :=
  checkStatementCanBeForwarded;;
  table ← getTargetTable;
  read_or_throw (ext_checkMutationIsPossible table commands).

Definition alterPartition (commands : ASTPtr)
    : M (W := W) StorageMaterializedView string :=
  checkStatementCanBeForwarded;;
  table ← getTargetTable;
  act (ext_alterPartition table commands).

Definition checkAlterPartitionIsPossible (commands : ASTPtr)
    : M (W := W) StorageMaterializedView unit :=
  checkStatementCanBeForwarded;;
  table ← getTargetTable;
  read_or_throw (ext_checkAlterPartitionIsPossible table commands).

Definition mutate (commands : ASTPtr) : M (W := W) StorageMaterializedView unit :=
  checkStatementCanBeForwarded;;
  table ← getTargetTable;
  act (ext_mutate table commands).

(** Lines 547-584 of [renameInMemory]: rename the inner tables, then
    install their new names. The debug-only [chassert]s are left out. *)
Definition rename_inner_tables (new_table_id : StorageID.t)
    : M (W := W) StorageMaterializedView unit :=
  this ← get_local;
  target_table ←
    (if has_inner_target_table this return M StorageMaterializedView (option StoragePtr)
     then read (tryGetTargetTable this)
     else mret None);
  let new_target_table_name :=
    if has_inner_target_table this && bool_decide (is_Some target_table)
    then Some (generateInnerTableName new_table_id false)
    else None in
  let new_scratch_table_name :=
    if has_scratch_table this
    then Some (generateInnerTableName new_table_id true)
    else None in
  let rename :=
    match new_target_table_name with
    | Some name =>
        [mkRenameElement (StorageID.database_name (getTargetTableId this))
           (StorageID.table_name (getTargetTableId this))
           (StorageID.database_name new_table_id) name]
    | None => []
    end
    ++ match new_scratch_table_name with
       | Some name =>
           [mkRenameElement (StorageID.database_name (getScratchTableId this))
              (StorageID.table_name (getScratchTableId this))
              (StorageID.database_name new_table_id) name]
       | None => []
       end in
  act (ext_InterpreterRenameQuery_execute rename);;
  let target :=
    match new_target_table_name with
    | Some name =>
        StorageID.mk (StorageID.database_name new_table_id) name
          (StorageID.uuid (target_table_id this))
    | None => target_table_id this
    end in
  let scratch :=
    match new_scratch_table_name with
    | Some name =>
        StorageID.mk (StorageID.database_name new_table_id) name
          (StorageID.uuid (scratch_table_id this))
    | None => scratch_table_id this
    end in
  set_local (set_inner_table_ids this target scratch).

(** [StorageMaterializedView::renameInMemory]. Modelled from the spec:
    [IStorage::renameInMemory], outside src/, makes [new_table_id] the
    identity of the view ("update the source→view dependency to the new view
    identity"). *)
Definition renameInMemory (new_table_id : StorageID.t)
    : M (W := W) StorageMaterializedView unit :=
  this ← get_local;
  let old_table_id := getStorageID this in
  let metadata_snapshot := getInMemoryMetadata this in
  let rename_inner_tables_needed :=
    negb (bool_decide (StorageID.database_name new_table_id
                       = StorageID.database_name old_table_id))
    || negb (StorageID.hasUUID old_table_id)
    || negb (StorageID.hasUUID new_table_id) in
  (if rename_inner_tables_needed return M StorageMaterializedView unit
   then rename_inner_tables new_table_id
   else mret tt);;
  this ← get_local;
  set_local (set_storage_id this new_table_id);;
  let select_query := StorageInMemoryMetadata.select metadata_snapshot in
  act (ext_updateViewDependency
         (SelectQueryDescription.select_table_id select_query) old_table_id
         (SelectQueryDescription.select_table_id select_query) new_table_id);;
  if bool_decide (is_Some (refresher this))
  then act (ext_refresher_rename new_table_id)
  else mret tt.
End more_methods.

(** The inner tables of a view carry the names minted from its identity. *)
Definition inner_names_minted {decls : Decls} (this : StorageMaterializedView) : Prop :=
  (has_inner_target_table this = true →
   StorageID.database_name (target_table_id this)
   = StorageID.database_name (getStorageID this)
   ∧ StorageID.table_name (target_table_id this)
     = generateInnerTableName (getStorageID this) false)
  ∧ (has_scratch_table this = true →
     StorageID.database_name (scratch_table_id this)
     = StorageID.database_name (getStorageID this)
     ∧ StorageID.table_name (scratch_table_id this)
       = generateInnerTableName (getStorageID this) true).

(** An event of the constructor's rollback or of a drop of the inner
    tables: a DROP with [ignore_sync_setting] set and the given [sync]. *)
Definition is_inner_drop (sync : bool) (ev : Event) : Prop :=
  ∃ id may_lock_ddl_guard,
    ev = EvExecuteDropQuery Drop id sync (Some true) (Some may_lock_ddl_guard).

(** What the source accepts as the create query of a scratch table: a
    regular table, with a registered engine that supports moving data
    between tables and is not replicated, and no PARTITION BY. *)
Definition scratch_create_query_accepted `{Env W}
    (scratch_create_query : ASTCreateQuery.t) (w : W) : Prop :=
  ASTCreateQuery.is_dictionary scratch_create_query = false
  ∧ ASTCreateQuery.is_ordinary_view scratch_create_query = false
  ∧ ASTCreateQuery.is_materialized_view scratch_create_query = false
  ∧ ASTCreateQuery.is_live_view scratch_create_query = false
  ∧ ASTCreateQuery.is_window_view scratch_create_query = false
  ∧ ∃ storage engine_name features,
      ASTCreateQuery.storage scratch_create_query = Some storage
      ∧ ASTStorage.engine storage = Some engine_name
      ∧ ext_tryGetFeatures engine_name w = Some features
      ∧ StorageFeatures.supports_moving_data_between_tables features = true
      ∧ ASTStorage.partition_by storage = None
      ∧ StorageFeatures.supports_replication features = false.

(** The source table has fewer views than the configured maximum, or there
    is no maximum, or the SELECT has no source table. *)
Definition views_cap_respected `{Env W}
    (select : SelectQueryDescription.t) (w : W) : Prop :=
  StorageID.empty (SelectQueryDescription.select_table_id select) = false →
  ext_max_materialized_views_count_for_table w = 0%N
  ∨ (N.of_nat (length (ext_getDependentViews
                         (SelectQueryDescription.select_table_id select) w))
     < ext_max_materialized_views_count_for_table w)%N.

(** The view does not name itself as its target, by UUID or by name. *)
Definition points_to_itself (table_id_ : StorageID.t) (query : ASTCreateQuery.t) : Prop :=
  StorageID.uuid table_id_ ∈ ASTCreateQuery.to_inner_uuid query
  ∨ (StorageID.database_name (ASTCreateQuery.to_table_id query)
     = StorageID.database_name table_id_
     ∧ StorageID.table_name (ASTCreateQuery.to_table_id query)
       = StorageID.table_name table_id_).

(** The concrete world again: the forwarded statements succeed, the
    dependency edges are not kept, a RENAME renames the tables of the
    catalog. *)
Module DemoLifecycle.
Definition rename_table (elements : list RenameElement) (t : StorageID.t * string)
    : StorageID.t * string :=
  match list_find (λ e, bool_decide (from_database e = StorageID.database_name t.1)
                        && bool_decide (from_table e = StorageID.table_name t.1) = true)
                  elements with
  | Some (_, e) => (StorageID.mk (to_database e) (to_table e) (StorageID.uuid t.1), t.2)
  | None => t
  end.

Definition lifecycle : Lifecycle Demo.World := {|
  ext_optimize := λ _ _ _ w, (Ok true, w);
  ext_mutate := λ _ _ w, (Ok tt, w);
  ext_checkMutationIsPossible := λ _ _ _, Ok tt;
  ext_alterPartition := λ _ _ w, (Ok "", w);
  ext_checkAlterPartitionIsPossible := λ _ _ _, Ok tt;
  ext_removeViewDependency := λ _ _ w, (Ok tt, w);
  ext_updateViewDependency := λ _ _ _ _ w, (Ok tt, w);
  ext_InterpreterRenameQuery_execute := λ elements w,
    (Ok tt,
     Demo.mkWorld (rename_table elements <$> Demo.tables w)
       (Demo.failing_creates w) (Demo.drops_fail w));
  ext_refresher_rename := λ _ w, (Ok tt, w);
|}.

(** A view db.w without UUID, with both inner tables, and its catalog. *)
Definition named_view_id : StorageID.t := StorageID.make "db" "w".

Definition named_view : StorageMaterializedView :=
  mkView named_view_id Demo.metadata true true
    (StorageID.mk "db" ".inner.w" 8) (StorageID.mk "db" ".inner_scratch.w" 9)
    false Demo.every_hour false.

(** The world of [Demo.env] with a cap of one view per source table, the
    source table db.src having one view already. *)
Definition capped_env : Env Demo.World := {|
  ext_getSelectQueryFromASTForMatView :=
    ext_getSelectQueryFromASTForMatView (Env := Demo.env);
  ext_getDependentViews := λ _ _, [StorageID.make "db" "other_view"];
  ext_max_materialized_views_count_for_table := λ _, 1%N;
  ext_getCreateTableQuery := ext_getCreateTableQuery (Env := Demo.env);
  ext_tryGetFeatures := ext_tryGetFeatures (Env := Demo.env);
  ext_InterpreterCreateQuery_execute := ext_InterpreterCreateQuery_execute (Env := Demo.env);
  ext_getTable := ext_getTable (Env := Demo.env);
  ext_tryGetTable := ext_tryGetTable (Env := Demo.env);
  ext_getStorageID := ext_getStorageID (Env := Demo.env);
  ext_executeDropQuery := ext_executeDropQuery (Env := Demo.env);
  ext_lockExclusively := ext_lockExclusively (Env := Demo.env);
  ext_truncate := ext_truncate (Env := Demo.env);
  ext_getSampleBlock := ext_getSampleBlock (Env := Demo.env);
  ext_transferAllDataFrom := ext_transferAllDataFrom (Env := Demo.env);
  ext_totalRows := ext_totalRows (Env := Demo.env);
  ext_totalBytes := ext_totalBytes (Env := Demo.env);
  ext_totalBytesUncompressed := ext_totalBytesUncompressed (Env := Demo.env);
|}.

(** CREATE MATERIALIZED VIEW db.v TO db.v: the view names itself. *)
Definition create_view_to_itself : ASTCreateQuery.t :=
  ASTCreateQuery.mk (Some Demo.select_text) None None
    None (StorageID.make "db" "v") [] false
    false false true false false "db" "v" 7.

(** The refreshable view of [Demo.refreshable_query] once created on the
    empty catalog, and the state its constructor leaves. *)
Definition created_view : StorageMaterializedView :=
  mkView Demo.view_id
    (StorageInMemoryMetadata.mk Demo.header_ab
       (SelectQueryDescription.mk (StorageID.make "db" "src") Demo.select_text) ""
       Demo.every_hour)
    true true Demo.target_id Demo.scratch_id true Demo.every_hour true.

Definition created_state : State Demo.World (list StorageID.t) :=
  mkState Demo.refreshable_world
    [EvCreate (ASTCreateQuery.set_identity Demo.inner_create_query Demo.target_id);
     EvCreate (ASTCreateQuery.set_identity Demo.inner_create_query Demo.scratch_id)]
    [Demo.target_id; Demo.scratch_id].


(** The catalog of db.w when its inner target has disappeared. *)
Definition world_without_target : Demo.World :=
  Demo.mkWorld [(StorageID.mk "db" ".inner_scratch.w" 9, "MergeTree")] [] false.

(** db.w once renamed to other.w. *)
Definition renamed_view : StorageMaterializedView :=
  mkView (StorageID.make "other" "w") Demo.metadata true true
    (StorageID.mk "other" ".inner.w" 8) (StorageID.mk "other" ".inner_scratch.w" 9)
    false Demo.every_hour false.

Definition renamed_world : Demo.World :=
  Demo.mkWorld [(StorageID.mk "other" ".inner.w" 8, "MergeTree");
                (StorageID.mk "other" ".inner_scratch.w" 9, "MergeTree")] [] false.

Definition named_world : Demo.World :=
  Demo.mkWorld [(StorageID.mk "db" ".inner.w" 8, "MergeTree");
                (StorageID.mk "db" ".inner_scratch.w" 9, "MergeTree")] [] false.
End DemoLifecycle.

(** The catalog of [Demo] together with the data of its tables: the number
    of rows of each table, by position in the catalog, and the exclusive
    locks taken, last first.  Locking, truncating and moving data change
    this world. *)
Module DemoRefresh.
Record World := mkWorld {
  catalog : Demo.World;
  rows : list N;
  locks : list (StoragePtr * string);
}.

Definition on_catalog {A} (f : Demo.World → A * Demo.World) (w : World) : A * World :=
  ((f (catalog w)).1, mkWorld (f (catalog w)).2 (rows w) (locks w)).

Definition rows_of (table : StoragePtr) (w : World) : N :=
  default 0%N (rows w !! N.to_nat table).

Definition env : Env World := {|
  ext_getSelectQueryFromASTForMatView := λ ast refreshable w,
    ext_getSelectQueryFromASTForMatView (Env := Demo.env) ast refreshable (catalog w);
  ext_getDependentViews := λ id w, ext_getDependentViews (Env := Demo.env) id (catalog w);
  ext_max_materialized_views_count_for_table := λ w,
    ext_max_materialized_views_count_for_table (Env := Demo.env) (catalog w);
  ext_getCreateTableQuery := λ database table w,
    ext_getCreateTableQuery (Env := Demo.env) database table (catalog w);
  ext_tryGetFeatures := λ engine_name w,
    ext_tryGetFeatures (Env := Demo.env) engine_name (catalog w);
  ext_InterpreterCreateQuery_execute := λ q,
    on_catalog (ext_InterpreterCreateQuery_execute (Env := Demo.env) q);
  ext_getTable := λ id w, ext_getTable (Env := Demo.env) id (catalog w);
  ext_tryGetTable := λ id w, ext_tryGetTable (Env := Demo.env) id (catalog w);
  ext_getStorageID := λ table w, ext_getStorageID (Env := Demo.env) table (catalog w);
  ext_executeDropQuery := λ kind id sync ignore_sync_setting may_lock_ddl_guard,
    on_catalog (ext_executeDropQuery (Env := Demo.env) kind id sync
                  ignore_sync_setting may_lock_ddl_guard);
  ext_lockExclusively := λ table query_id _ w,
    (Ok tt, mkWorld (catalog w) (rows w) ((table, query_id) :: locks w));
  ext_truncate := λ table w,
    (Ok tt, mkWorld (catalog w) (<[N.to_nat table := 0%N]> (rows w)) (locks w));
  ext_getSampleBlock := λ analyzer select w,
    ext_getSampleBlock (Env := Demo.env) analyzer select (catalog w);
  ext_transferAllDataFrom := λ target scratch remove_from_source replace_at_destination w,
    let moved := rows_of scratch w in
    let at_destination :=
      if replace_at_destination then moved else (rows_of target w + moved)%N in
    let rows1 := <[N.to_nat target := at_destination]> (rows w) in
    (Ok tt,
     mkWorld (catalog w)
       (if remove_from_source then <[N.to_nat scratch := 0%N]> rows1 else rows1)
       (locks w));
  ext_totalRows := λ table w, rows w !! N.to_nat table;
  ext_totalBytes := λ table w, N.mul 8 <$> rows w !! N.to_nat table;
  ext_totalBytesUncompressed := λ table w, N.mul 8 <$> rows w !! N.to_nat table;
|}.

(** The refreshable view of [Demo]: ten rows in the target table, three
    left in the scratch table by a refresh that failed. *)
Definition before_prepare : State World StorageMaterializedView :=
  mkState (mkWorld Demo.refreshable_world [10; 3]%N []) [] Demo.refreshable_view.

Definition after_prepare : State World StorageMaterializedView :=
  mkState (mkWorld Demo.refreshable_world [10; 0]%N [(1%N, "query-1")])
    [EvLockExclusively 1 "query-1" 120; EvTruncate 1;
     EvGetSampleBlock true Demo.select_text]
    Demo.refreshable_view.

(** The INSERT has run and has put four rows into the scratch table. *)
Definition before_transfer : State World StorageMaterializedView :=
  mkState (mkWorld Demo.refreshable_world [10; 4]%N [(1%N, "query-1")])
    (log after_prepare) Demo.refreshable_view.

Definition after_transfer : State World StorageMaterializedView :=
  mkState (mkWorld Demo.refreshable_world [4; 0]%N [(1%N, "query-1")])
    (log after_prepare ++ [EvTransferAllDataFrom 0 1 true true])
    (set_scratch_table_is_known_to_be_empty Demo.refreshable_view true).

(** The next refresh finds the scratch table known to be empty. *)
Definition after_second_prepare : State World StorageMaterializedView :=
  mkState (world after_transfer)
    (log after_transfer ++ [EvGetSampleBlock true Demo.select_text])
    Demo.refreshable_view.

(** The scratch table has left the catalog. *)
Definition scratch_missing : State World StorageMaterializedView :=
  mkState (mkWorld (Demo.mkWorld [(Demo.target_id, "MergeTree")] [] false) [10]%N [])
    [] Demo.refreshable_view.
End DemoRefresh.

(** ** Header pruning *)

Section header_pruning.
Implicit Types (b src target : Block) (c : ColumnWithTypeAndName).

Lemma has_true b n : has b n = true ↔ n ∈ getNames b.
Proof. unfold has. by rewrite bool_decide_eq_true. Qed.

Lemma getPositionByName_is_Some b c :
  c ∈ b → is_Some (getPositionByName b (name c)).
Proof.
  intros Hc. unfold getPositionByName.
  destruct (list_find (λ c', name c' = name c) b) as [[i c']|] eqn:E; [by eexists|].
  apply list_find_None in E. rewrite Forall_forall in E. by destruct (E c Hc).
Qed.

Lemma getPositionByName_NoDup b i c :
  NoDup (getNames b) → b !! i = Some c → getPositionByName b (name c) = Some i.
Proof.
  intros Hnd Hi. unfold getPositionByName.
  destruct (list_find (λ c', name c' = name c) b) as [[j c']|] eqn:E.
  - apply list_find_Some in E as (Hj & Hn & _). simpl. f_equal.
    eapply NoDup_lookup; [exact Hnd| |]; unfold getNames; rewrite list_lookup_fmap.
    + by rewrite Hj.
    + rewrite Hi. simpl. by rewrite Hn.
  - apply list_find_None in E. rewrite Forall_forall in E.
    destruct (E c); [by eapply list_elem_of_lookup_2|done].
Qed.

Lemma target_only_loop_is_Some src target columns acc :
  columns ⊆ target → is_Some (target_only_loop src target columns acc).
Proof.
  revert acc. induction columns as [|c rest IH]; intros acc Hsub; simpl; [by eexists|].
  assert (rest ⊆ target) by (intros x Hx; apply Hsub; by right).
  destruct (has src (name c)); [by apply IH|].
  destruct (getPositionByName_is_Some target c) as [p ->]; [apply Hsub; by left|].
  simpl. by apply IH.
Qed.

(** The pruning never throws. *)
Lemma removeNonCommonColumns_is_Some src target :
  is_Some (removeNonCommonColumns src target).
Proof.
  unfold removeNonCommonColumns.
  destruct (target_only_loop_is_Some src target target ∅) as [s ->]; [done|].
  by eexists.
Qed.

Lemma target_only_loop_spec src target columns acc s :
  NoDup (getNames target) → columns ⊆ target →
  target_only_loop src target columns acc = Some s →
  ∀ j, j ∈ s ↔
       j ∈ acc ∨ ∃ c, target !! j = Some c ∧ c ∈ columns ∧ has src (name c) = false.
Proof.
  intros Hnd. revert acc.
  induction columns as [|c rest IH]; intros acc Hsub Hloop j; simpl in Hloop.
  - simplify_eq. split; [by left|]. intros [?|(c & _ & Hc & _)]; [done|].
    by apply elem_of_nil in Hc.
  - assert (rest ⊆ target) as Hrest by (intros x Hx; apply Hsub; by right).
    assert (c ∈ target) as Hc by (apply Hsub; by left).
    destruct (has src (name c)) eqn:Hhas.
    + rewrite (IH _ Hrest Hloop j). split.
      * intros [?|(c' & ? & ? & ?)]; [by left|right].
        exists c'. split_and!; [done|by right|done].
      * intros [?|(c' & Hj & Hin & Hf)]; [by left|right].
        exists c'. split_and!; [done| |done].
        apply elem_of_cons in Hin as [->|?]; [congruence|done].
    + apply list_elem_of_lookup in Hc as [i Hi].
      rewrite (getPositionByName_NoDup _ _ _ Hnd Hi) in Hloop. simpl in Hloop.
      rewrite (IH _ Hrest Hloop j). split.
      * intros [Hj|(c' & ? & ? & ?)].
        -- apply elem_of_union in Hj as [Hj|?]; [|by left].
           apply elem_of_singleton in Hj as ->. right.
           exists c. split_and!; [done|by left|done].
        -- right. exists c'. split_and!; [done|by right|done].
      * intros [?|(c' & Hj & Hin & Hf)]; [left; by apply elem_of_union_r|].
        apply elem_of_cons in Hin as [->|?]; [|right; by exists c'].
        left. apply elem_of_union_l, elem_of_singleton.
        eapply NoDup_lookup; [exact Hnd| |]; unfold getNames;
          rewrite list_lookup_fmap; [by rewrite Hj|by rewrite Hi].
Qed.

Lemma erase_from_filter (f : ColumnWithTypeAndName → bool) positions b i :
  (∀ j c, b !! j = Some c → (i + j ∈ positions ↔ f c = false)) →
  erase_from i positions b = filter (λ c, f c = true) b.
Proof.
  revert i. induction b as [|c b IH]; intros i H; simpl; [done|].
  assert (erase_from (S i) positions b = filter (λ c, f c = true) b) as ->.
  { apply IH. intros j c' Hj. rewrite <- (H (S j) c' Hj). by rewrite Nat.add_succ_r. }
  specialize (H 0 c eq_refl). rewrite Nat.add_0_r in H.
  destruct (decide (i ∈ positions)) as [Hin|Hnin].
  - rewrite filter_cons_False; [done|]. apply H in Hin. congruence.
  - rewrite filter_cons_True; [done|]. destruct (f c) eqn:E; [done|].
    destruct Hnin. by apply H.
Qed.

(** On a header with pairwise distinct column names the pruning keeps
    exactly the columns whose name the other header has. *)
Lemma removeNonCommonColumns_filter src target :
  NoDup (getNames target) →
  removeNonCommonColumns src target
  = Some (filter (λ c, has src (name c) = true) target).
Proof.
  intros Hnd. unfold removeNonCommonColumns.
  destruct (target_only_loop_is_Some src target target ∅) as [s Hs]; [done|].
  rewrite Hs. simpl. f_equal. unfold erase. apply erase_from_filter.
  intros j c Hj. simpl.
  rewrite (target_only_loop_spec _ _ _ _ _ Hnd (reflexivity _) Hs j). split.
  - intros [Hempty|(c' & Hj' & _ & Hf)]; [by apply not_elem_of_empty in Hempty|congruence].
  - intros Hf. right. exists c. split_and!; [done| |done].
    by eapply list_elem_of_lookup_2.
Qed.

Lemma getNames_filter_has src target n :
  n ∈ getNames (filter (λ c, has src (name c) = true) target)
  ↔ n ∈ getNames target ∧ n ∈ getNames src.
Proof.
  split.
  - intros Hn. apply list_elem_of_fmap in Hn as (c & -> & Hc).
    apply list_elem_of_filter in Hc as [Hh Hc].
    split; [apply list_elem_of_fmap; eauto|by apply has_true in Hh].
  - intros [Hn Hs]. apply list_elem_of_fmap in Hn as (c & -> & Hc).
    apply list_elem_of_fmap. exists c. split; [done|].
    apply list_elem_of_filter. split; [by apply has_true|done].
Qed.

Lemma filter_ext_elem (P Q : ColumnWithTypeAndName → Prop)
    `{∀ c, Decision (P c)} `{∀ c, Decision (Q c)} b :
  (∀ c, c ∈ b → (P c ↔ Q c)) → filter P b = filter Q b.
Proof.
  induction b as [|c b IH]; intros Hext; [done|].
  rewrite !filter_cons, IH by (intros; apply Hext; by right).
  apply decide_ext, Hext. by left.
Qed.

Lemma filter_has_filter src target :
  filter (λ c, has (filter (λ c', has src (name c') = true) target) (name c) = true) src
  = filter (λ c, has target (name c) = true) src.
Proof.
  apply filter_ext_elem. intros c Hc.
  rewrite !has_true, getNames_filter_has.
  assert (name c ∈ getNames src) by (unfold getNames; apply list_elem_of_fmap; eauto).
  tauto.
Qed.

Lemma NoDup_getNames_filter (P : ColumnWithTypeAndName → Prop)
    `{∀ c, Decision (P c)} b :
  NoDup (getNames b) → NoDup (getNames (filter P b)).
Proof.
  unfold getNames. induction b as [|c b IH]; simpl; [done|].
  intros Hnd. apply NoDup_cons in Hnd as [Hc Hnd].
  destruct (decide (P c)).
  - rewrite filter_cons_True by done. simpl. apply NoDup_cons. split; [|by apply IH].
    intros Hin. apply Hc. apply list_elem_of_fmap in Hin as (c' & -> & Hin).
    apply list_elem_of_filter in Hin as [_ Hin]. apply list_elem_of_fmap. eauto.
  - rewrite filter_cons_False by done. by apply IH.
Qed.

(** C9 (amended): for headers with pairwise distinct column names, the two
    prunings of [read], in the order of the source or in the other order,
    leave each header with exactly its columns whose name the other header
    has too, so both end with the same column names (up to order). The
    structure (order, types) of the two results may still differ. *)
Theorem reconcile_headers_common_columns (mv_header target_header : Block) :
  NoDup (getNames mv_header) → NoDup (getNames target_header) →
  let mv' := filter (λ c, has target_header (name c) = true) mv_header in
  let target' := filter (λ c, has mv_header (name c) = true) target_header in
  reconcile_headers mv_header target_header = Some (mv', target')
  ∧ reconcile_headers_rev mv_header target_header = Some (mv', target')
  ∧ (∀ n, n ∈ getNames mv' ↔ n ∈ getNames mv_header ∧ n ∈ getNames target_header)
  ∧ (∀ n, n ∈ getNames target' ↔ n ∈ getNames mv_header ∧ n ∈ getNames target_header)
  ∧ getNames mv' ≡ₚ getNames target'.
Proof.
  intros Hmv Htarget mv' target'.
  assert (∀ n, n ∈ getNames mv' ↔ n ∈ getNames mv_header ∧ n ∈ getNames target_header)
    as Hnames_mv by (intros n; apply getNames_filter_has).
  assert (∀ n, n ∈ getNames target' ↔ n ∈ getNames mv_header ∧ n ∈ getNames target_header)
    as Hnames_target.
  { intros n. unfold target'. rewrite getNames_filter_has. tauto. }
  split_and!; [| |done|done|].
  - unfold reconcile_headers.
    rewrite (removeNonCommonColumns_filter mv_header target_header Htarget). simpl.
    rewrite (removeNonCommonColumns_filter _ mv_header Hmv). simpl.
    by rewrite filter_has_filter.
  - unfold reconcile_headers_rev.
    rewrite (removeNonCommonColumns_filter target_header mv_header Hmv). simpl.
    rewrite (removeNonCommonColumns_filter _ target_header Htarget). simpl.
    by rewrite filter_has_filter.
  - apply NoDup_Permutation; [by apply NoDup_getNames_filter..|].
    intros n. rewrite Hnames_mv, Hnames_target. tauto.
Qed.
End header_pruning.

Lemma reconcile_headers_common_columns_witness :
  reconcile_headers Demo.header_abc Demo.header_dba
  = Some ([mkColumn "a" "UInt64"; mkColumn "b" "String"],
          [mkColumn "b" "String"; mkColumn "a" "UInt32"]).
Proof.
  apply (reconcile_headers_common_columns Demo.header_abc Demo.header_dba);
    apply (bool_decide_unpack _); reflexivity.
Defined.

(** C9, as stated, fails: after both prunings the two headers need not have
    equal structure. Here they keep the same two names in different orders. *)
Lemma reconcile_headers_not_equal_structure :
  reconcile_headers Demo.header_ab Demo.header_ba = Some (Demo.header_ab, Demo.header_ba)
  ∧ reconcile_headers_rev Demo.header_ab Demo.header_ba
    = Some (Demo.header_ab, Demo.header_ba)
  ∧ blocksHaveEqualStructure Demo.header_ab Demo.header_ba = false.
Proof. vm_compute. done. Qed.

(** With a repeated column name the pruning removes the first of the
    repeated columns only: [getPositionByName] finds no other. *)
Example removeNonCommonColumns_repeated_name :
  removeNonCommonColumns [] [mkColumn "x" "UInt8"; mkColumn "x" "UInt8"]
  = Some [mkColumn "x" "UInt8"].
Proof. vm_compute. done. Qed.

(** ** Running a computation *)

(** Unfold the operations of the monad, so that a computation applied to a
    state reduces to its result and final state. *)
Ltac munfold :=
  unfold mbind, M_bind, mret, M_ret, throw_if, throw, try_catch,
    get_local, set_local, read, read_or_throw, call, emit in *.

Section monad_laws.
Context {W L : Type}.
Implicit Types st : State W L.

Lemma bind_Ok {A B} (m : M L A) (f : A → M L B) st a st' :
  m st = (Ok a, st') → (m ≫= f) st = f a st'.
Proof. intros Hm. munfold. by rewrite Hm. Qed.

Lemma bind_Throw {A B} (m : M L A) (f : A → M L B) st e st' :
  m st = (Throw e, st') → (m ≫= f) st = (Throw e, st').
Proof. intros Hm. munfold. by rewrite Hm. Qed.

End monad_laws.

(** ** The methods *)

Section method_properties.
Context {decls : Decls} {W : Type} {env : Env W}.
Implicit Types (st : State W StorageMaterializedView) (this : StorageMaterializedView).

(** C4 (amended): [truncate] never touches the fields of the object; when
    the target is an inner table it issues exactly one TRUNCATE, for the
    target table and synchronous, and returns what that query returns;
    when the target is an external TO-clause table it returns normally
    and does nothing at all. *)
Theorem truncate_forwarded_only_to_inner_target st :
  let this := local st in
  if has_inner_target_table this then
    let forwarded :=
      ext_executeDropQuery Truncate (target_table_id this) true None None (world st) in
    truncate st
    = (forwarded.1,
       mkState forwarded.2
         (log st ++ [EvExecuteDropQuery Truncate (target_table_id this) true None None])
         this)
  else truncate st = (Ok tt, st).
Proof.
  unfold truncate. munfold. simpl.
  destruct (has_inner_target_table (local st)); [|done].
  unfold getTargetTableId. by destruct (ext_executeDropQuery _ _ _ _ _ _).
Qed.

(** C8 (amended): [totalRows], [totalBytes] and [totalBytesUncompressed]
    delegate to the target table when the target is an inner table that
    exists in the catalog; they return empty when the target is an
    external TO-clause table, whether it exists or not, and when the
    inner target does not exist. *)
Theorem totals_delegate_to_inner_target this (w : W) :
  match has_inner_target_table this, ext_tryGetTable (target_table_id this) w with
  | true, Some table =>
      totalRows this w = ext_totalRows table w
      ∧ totalBytes this w = ext_totalBytes table w
      ∧ totalBytesUncompressed this w = ext_totalBytesUncompressed table w
  | _, _ =>
      totalRows this w = None
      ∧ totalBytes this w = None
      ∧ totalBytesUncompressed this w = None
  end.
Proof.
  unfold totalRows, totalBytes, totalBytesUncompressed, tryGetTargetTable, getTargetTableId.
  destruct (has_inner_target_table this); [|done].
  by destruct (ext_tryGetTable _ w).
Qed.

Lemma checkAlterIsPossible_allowed this command rest :
  alter_allowed this command = true →
  checkAlterIsPossible this (command :: rest) = checkAlterIsPossible this rest.
Proof.
  unfold alter_allowed. simpl. intros Hallowed.
  destruct (isCommentAlter command); [done|].
  destruct (bool_decide (AlterCommand.type command = MODIFY_QUERY)); [done|].
  destruct (bool_decide (AlterCommand.type command = MODIFY_REFRESH)); [|done].
  simpl in Hallowed. apply andb_prop in Hallowed as [-> ->]. done.
Qed.

Lemma checkAlterIsPossible_not_allowed this command rest :
  alter_allowed this command = false →
  ∃ e, checkAlterIsPossible this (command :: rest) = Throw e ∧ code e = NOT_IMPLEMENTED.
Proof.
  unfold alter_allowed. simpl. intros Hallowed.
  destruct (isCommentAlter command); [done|].
  destruct (bool_decide (AlterCommand.type command = MODIFY_QUERY)); [done|].
  destruct (bool_decide (AlterCommand.type command = MODIFY_REFRESH)); [|by eexists].
  simpl in Hallowed.
  destruct (bool_decide (is_Some (refresher this))); simpl in *; [|by eexists].
  rewrite Hallowed. by eexists.
Qed.

(** C7: [checkAlterIsPossible] returns exactly when every command is a
    comment alter, a MODIFY QUERY, or a MODIFY REFRESH on a view that has
    a refresher and whose APPEND flag equals [!has_scratch_table]; in
    every other case it throws, and what it throws is NotImplemented. *)
Theorem checkAlterIsPossible_accepts_three_kinds this (commands : list AlterCommand.t) :
  match checkAlterIsPossible this commands with
  | Ok _ => Forall (λ command, alter_allowed this command = true) commands
  | Throw e =>
      code e = NOT_IMPLEMENTED
      ∧ Exists (λ command, alter_allowed this command = false) commands
  end.
Proof.
  induction commands as [|command rest IH]; [by constructor|].
  destruct (alter_allowed this command) eqn:Hallowed.
  - rewrite (checkAlterIsPossible_allowed _ _ _ Hallowed).
    destruct (checkAlterIsPossible this rest) as [[]|e].
    + by constructor.
    + destruct IH as [Hcode Hex]. split; [done|]. by apply Exists_cons_tl.
  - destruct (checkAlterIsPossible_not_allowed this command rest Hallowed)
      as (e & -> & Hcode).
    split; [done|]. by apply Exists_cons_hd.
Qed.
End method_properties.

(** ** The refresh cycle *)

Section refresh_properties.
Context {decls : Decls} {W : Type} {env : Env W}.
Implicit Types (st : State W StorageMaterializedView) (this : StorageMaterializedView).

(** [prepareRefresh] returns whenever the collaborators it calls do: here
    with a scratch table that has to be truncated first. *)
Lemma prepareRefresh_returns_after_truncate ctx st scratch w1 w2 header :
  has_scratch_table (local st) = true →
  scratch_table_is_known_to_be_empty (local st) = false →
  ext_getTable (scratch_table_id (local st)) (world st) = Ok scratch →
  ext_lockExclusively scratch (Context.getCurrentQueryId ctx)
    (Context.lock_acquire_timeout ctx) (world st) = (Ok tt, w1) →
  ext_truncate scratch w1 = (Ok tt, w2) →
  ext_getSampleBlock (Context.allow_experimental_analyzer ctx)
    (refresh_select (local st)) w2 = Ok header →
  prepareRefresh ctx st
  = (Ok (ASTInsertQuery.mk (refresh_select (local st))
           (StorageID.database_name (scratch_table_id (local st)))
           (StorageID.table_name (scratch_table_id (local st)))
           (scratch_table_id (local st)) (getNames header)),
     mkState w2
       (log st ++ [EvLockExclusively scratch (Context.getCurrentQueryId ctx)
                     (Context.lock_acquire_timeout ctx);
                   EvTruncate scratch;
                   EvGetSampleBlock (Context.allow_experimental_analyzer ctx)
                     (refresh_select (local st))])
       (set_scratch_table_is_known_to_be_empty (local st) false)).
Proof.
  intros Hscratch Hempty Htable Hlock Htruncate Hheader.
  unfold prepareRefresh, getScratchTable, getScratchTableId, refresh_select in *.
  munfold. simpl. rewrite Hscratch, Hempty. simpl.
  rewrite Htable, Hlock. simpl. rewrite Htruncate. simpl. rewrite Hheader. simpl.
  by rewrite <- !app_assoc.
Qed.

(** ... and here without a truncate: no scratch table, or one known to be
    empty. *)
Lemma prepareRefresh_returns_without_truncate ctx st header :
  has_scratch_table (local st) && negb (scratch_table_is_known_to_be_empty (local st))
  = false →
  ext_getSampleBlock (Context.allow_experimental_analyzer ctx)
    (refresh_select (local st)) (world st) = Ok header →
  prepareRefresh ctx st
  = (Ok (ASTInsertQuery.mk (refresh_select (local st))
           (StorageID.database_name (refresh_destination (local st)))
           (StorageID.table_name (refresh_destination (local st)))
           (refresh_destination (local st)) (getNames header)),
     mkState (world st)
       (log st ++ [EvGetSampleBlock (Context.allow_experimental_analyzer ctx)
                     (refresh_select (local st))])
       (set_scratch_table_is_known_to_be_empty (local st) false)).
Proof.
  intros Hcond Hheader.
  unfold prepareRefresh, refresh_select, refresh_destination,
    getScratchTableId, getTargetTableId in *.
  munfold. simpl. rewrite Hcond. simpl. by rewrite Hheader.
Qed.

(** A throwing [prepareRefresh] leaves the fields of the object as they
    were. *)
Lemma prepareRefresh_Throw ctx st e st' :
  prepareRefresh ctx st = (Throw e, st') → local st' = local st.
Proof.
  unfold prepareRefresh, getScratchTable. munfold. simpl.
  destruct (has_scratch_table (local st) && _); simpl.
  - destruct (ext_getTable _ _) as [scratch|?]; [|by intros [= <- <-]].
    destruct (ext_lockExclusively _ _ _ _) as [[[]|?] w1]; simpl; [|by intros [= <- <-]].
    destruct (ext_truncate _ _) as [[[]|?] w2]; simpl; [|by intros [= <- <-]].
    destruct (ext_getSampleBlock _ _ _); simpl; [done|by intros [= <- <-]].
  - destruct (ext_getSampleBlock _ _ _); simpl; [done|by intros [= <- <-]].
Qed.

(** A returning [prepareRefresh] has set the flag to false and changed
    no other field. *)
Lemma prepareRefresh_Ok_local ctx st insert_query st' :
  prepareRefresh ctx st = (Ok insert_query, st') →
  local st' = set_scratch_table_is_known_to_be_empty (local st) false.
Proof.
  unfold prepareRefresh, getScratchTable. munfold. simpl.
  destruct (has_scratch_table (local st) && _); simpl.
  - destruct (ext_getTable _ _) as [scratch|?]; [|done].
    destruct (ext_lockExclusively _ _ _ _) as [[[]|?] w1]; simpl; [|done].
    destruct (ext_truncate _ _) as [[[]|?] w2]; simpl; [|done].
    destruct (ext_getSampleBlock _ _ _); simpl; [|done]. by intros [= _ <-].
  - destruct (ext_getSampleBlock _ _ _); simpl; [|done]. by intros [= _ <-].
Qed.

(** With a scratch table, [transferRefreshedData] returns whenever both
    tables are in the catalog and the transfer succeeds. *)
Lemma transferRefreshedData_returns st target scratch w1 :
  has_scratch_table (local st) = true →
  ext_getTable (target_table_id (local st)) (world st) = Ok target →
  ext_getTable (scratch_table_id (local st)) (world st) = Ok scratch →
  ext_transferAllDataFrom target scratch true true (world st) = (Ok tt, w1) →
  transferRefreshedData st
  = (Ok tt,
     mkState w1 (log st ++ [EvTransferAllDataFrom target scratch true true])
       (set_scratch_table_is_known_to_be_empty (local st) true)).
Proof.
  intros Hscratch Htarget Htable Htransfer.
  unfold transferRefreshedData, getTargetTable, getScratchTable,
    getTargetTableId, getScratchTableId.
  munfold. simpl. rewrite Hscratch. simpl. rewrite Htarget, Htable, Htransfer. done.
Qed.

(** C1: [prepareRefresh] returns the INSERT query whenever the
    collaborators it calls return, and does what follows.  (1) If there
    is a scratch table not known to be empty, the scratch table is locked
    exclusively and then truncated, in the worlds these two calls leave,
    before the sample block of the SELECT is asked for in the world after
    the truncate; (2) otherwise no lock and no truncate is issued, the
    world is as before, and the INSERT is returned all the same; (3) the
    INSERT query targets the scratch table when there is one and the
    target table otherwise, selects with the SELECT of the view, and its
    column list is the names of the columns of the sample block, in
    order; (4) [scratch_table_is_known_to_be_empty] is false afterwards,
    the other fields being unchanged; (5) conversely, whenever it has
    returned, the calls of (1) or (2) were made and returned, and the
    INSERT is the one of (3); (6) when it throws, the fields of the
    object are as before. *)
Theorem prepareRefresh_spec ctx st :
  let this := local st in
  let analyzer := Context.allow_experimental_analyzer ctx in
  let query_id := Context.getCurrentQueryId ctx in
  let timeout := Context.lock_acquire_timeout ctx in
  let destination := refresh_destination this in
  let insert_for header :=
    ASTInsertQuery.mk (refresh_select this)
      (StorageID.database_name destination) (StorageID.table_name destination)
      destination (getNames header) in
  (∀ scratch w1 w2 header,
     has_scratch_table this = true →
     scratch_table_is_known_to_be_empty this = false →
     ext_getTable (scratch_table_id this) (world st) = Ok scratch →
     ext_lockExclusively scratch query_id timeout (world st) = (Ok tt, w1) →
     ext_truncate scratch w1 = (Ok tt, w2) →
     ext_getSampleBlock analyzer (refresh_select this) w2 = Ok header →
     destination = scratch_table_id this
     ∧ prepareRefresh ctx st
       = (Ok (insert_for header),
          mkState w2
            (log st ++ [EvLockExclusively scratch query_id timeout;
                        EvTruncate scratch;
                        EvGetSampleBlock analyzer (refresh_select this)])
            (set_scratch_table_is_known_to_be_empty this false)))
  ∧ (∀ header,
       has_scratch_table this && negb (scratch_table_is_known_to_be_empty this) = false →
       ext_getSampleBlock analyzer (refresh_select this) (world st) = Ok header →
       prepareRefresh ctx st
       = (Ok (insert_for header),
          mkState (world st)
            (log st ++ [EvGetSampleBlock analyzer (refresh_select this)])
            (set_scratch_table_is_known_to_be_empty this false)))
  ∧ (∀ insert_query st',
       prepareRefresh ctx st = (Ok insert_query, st') →
       (if has_scratch_table this && negb (scratch_table_is_known_to_be_empty this)
        then ∃ scratch w1,
            ext_getTable (scratch_table_id this) (world st) = Ok scratch
            ∧ ext_lockExclusively scratch query_id timeout (world st) = (Ok tt, w1)
            ∧ ext_truncate scratch w1 = (Ok tt, world st')
            ∧ log st' = log st ++
                [EvLockExclusively scratch query_id timeout;
                 EvTruncate scratch;
                 EvGetSampleBlock analyzer (refresh_select this)]
        else world st' = world st
             ∧ log st' = log st ++ [EvGetSampleBlock analyzer (refresh_select this)])
       ∧ ASTInsertQuery.table_id insert_query = destination
       ∧ ASTInsertQuery.database insert_query = StorageID.database_name destination
       ∧ ASTInsertQuery.table insert_query = StorageID.table_name destination
       ∧ ASTInsertQuery.select insert_query = refresh_select this
       ∧ (∃ header,
             ext_getSampleBlock analyzer (refresh_select this) (world st') = Ok header
             ∧ ASTInsertQuery.columns insert_query = getNames header)
       ∧ scratch_table_is_known_to_be_empty (local st') = false
       ∧ local st' = set_scratch_table_is_known_to_be_empty this false)
  ∧ (∀ e st', prepareRefresh ctx st = (Throw e, st') → local st' = this).
Proof.
  intros this analyzer query_id timeout destination insert_for.
  subst this analyzer query_id timeout destination insert_for. split_and!.
  - intros scratch w1 w2 header Hscratch Hempty Htable Hlock Htruncate Hheader.
    assert (refresh_destination (local st) = scratch_table_id (local st)) as Hdestination
      by (unfold refresh_destination; by rewrite Hscratch).
    split; [done|]. rewrite Hdestination.
    by apply prepareRefresh_returns_after_truncate with w1.
  - intros header Hcond Hheader. by apply prepareRefresh_returns_without_truncate.
  - intros insert_query st' Hrun.
    destruct (has_scratch_table (local st)
              && negb (scratch_table_is_known_to_be_empty (local st))) eqn:Hcond.
    + revert Hrun. unfold prepareRefresh, getScratchTable, getScratchTableId. munfold. simpl.
      rewrite Hcond. simpl. apply andb_prop in Hcond as [Hscratch _].
      unfold refresh_destination, refresh_select. rewrite Hscratch.
      destruct (ext_getTable _ _) as [scratch|?]; [|done].
      destruct (ext_lockExclusively _ _ _ _) as [[[]|?] w1] eqn:Hlock; simpl; [|done].
      destruct (ext_truncate _ _) as [[[]|?] w2] eqn:Htruncate; simpl; [|done].
      destruct (ext_getSampleBlock _ _ _) as [header|?] eqn:Hheader; simpl; [|done].
      intros [= <- <-]. simpl. rewrite <- !app_assoc. simpl.
      split_and!; eauto 10.
    + revert Hrun. unfold prepareRefresh. munfold. simpl. rewrite Hcond. simpl.
      unfold refresh_destination, refresh_select, getScratchTableId, getTargetTableId.
      destruct (ext_getSampleBlock _ _ _) as [header|?] eqn:Hheader; simpl; [|done].
      intros [= <- <-]. simpl. split_and!; eauto.
  - intros e st'. apply prepareRefresh_Throw.
Qed.

(** C2: (1) without a scratch table [transferRefreshedData] returns and
    changes nothing; (2) with one, as soon as the target and the scratch
    table are in the catalog it asks the target table, once, to move all
    the data from the scratch table with [remove_from_source] and
    [replace_at_destination] both true, in the world it was called in:
    the outcome of the method is the outcome of that call, the world the
    one that call leaves, and the scratch-empty flag is true when the
    call returned, the fields of the object being as before when it
    threw; when one of the two tables is not in the catalog the method
    throws what the lookup threw and nothing is asked; (3) after
    [prepareRefresh] has returned the INSERT query, the flag is false,
    and [prepareRefresh] does return it whenever the collaborators it
    calls return. *)
Theorem transferRefreshedData_spec st :
  let this := local st in
  (if has_scratch_table this
   then
     match ext_getTable (target_table_id this) (world st),
           ext_getTable (scratch_table_id this) (world st) with
     | Ok target, Ok scratch =>
         let moved := ext_transferAllDataFrom target scratch true true (world st) in
         transferRefreshedData st
         = (moved.1,
            mkState moved.2
              (log st ++ [EvTransferAllDataFrom target scratch true true])
              (match moved.1 with
               | Ok _ => set_scratch_table_is_known_to_be_empty this true
               | Throw _ => this
               end))
     | Throw e, _ => transferRefreshedData st = (Throw e, st)
     | Ok _, Throw e => transferRefreshedData st = (Throw e, st)
     end
   else transferRefreshedData st = (Ok tt, st))
  ∧ (has_scratch_table this = false → transferRefreshedData st = (Ok tt, st))
  ∧ (has_scratch_table this = true →
     match transferRefreshedData st with
     | (Ok _, st') =>
         ∃ target scratch,
           ext_getTable (target_table_id this) (world st) = Ok target
           ∧ ext_getTable (scratch_table_id this) (world st) = Ok scratch
           ∧ ext_transferAllDataFrom target scratch true true (world st)
             = (Ok tt, world st')
           ∧ log st' = log st ++ [EvTransferAllDataFrom target scratch true true]
           ∧ scratch_table_is_known_to_be_empty (local st') = true
     | (Throw _, st') => local st' = this
     end)
  ∧ (∀ target scratch w1,
       has_scratch_table this = true →
       ext_getTable (target_table_id this) (world st) = Ok target →
       ext_getTable (scratch_table_id this) (world st) = Ok scratch →
       ext_transferAllDataFrom target scratch true true (world st) = (Ok tt, w1) →
       transferRefreshedData st
       = (Ok tt,
          mkState w1 (log st ++ [EvTransferAllDataFrom target scratch true true])
            (set_scratch_table_is_known_to_be_empty this true)))
  ∧ (∀ ctx insert_query st',
       prepareRefresh ctx st = (Ok insert_query, st') →
       scratch_table_is_known_to_be_empty (local st') = false)
  ∧ (∀ ctx scratch w1 w2 header,
       has_scratch_table this = true →
       scratch_table_is_known_to_be_empty this = false →
       ext_getTable (scratch_table_id this) (world st) = Ok scratch →
       ext_lockExclusively scratch (Context.getCurrentQueryId ctx)
         (Context.lock_acquire_timeout ctx) (world st) = (Ok tt, w1) →
       ext_truncate scratch w1 = (Ok tt, w2) →
       ext_getSampleBlock (Context.allow_experimental_analyzer ctx)
         (refresh_select this) w2 = Ok header →
       ∃ insert_query st',
         prepareRefresh ctx st = (Ok insert_query, st')
         ∧ scratch_table_is_known_to_be_empty (local st') = false)
  ∧ (∀ ctx header,
       has_scratch_table this && negb (scratch_table_is_known_to_be_empty this) = false →
       ext_getSampleBlock (Context.allow_experimental_analyzer ctx)
         (refresh_select this) (world st) = Ok header →
       ∃ insert_query st',
         prepareRefresh ctx st = (Ok insert_query, st')
         ∧ scratch_table_is_known_to_be_empty (local st') = false).
Proof.
  intros this. subst this. split_and!.
  - unfold transferRefreshedData, getTargetTable, getScratchTable,
      getTargetTableId, getScratchTableId.
    munfold. simpl. destruct (has_scratch_table (local st)); simpl; [|done].
    destruct (ext_getTable (target_table_id _) _) as [target|?]; [|done].
    destruct (ext_getTable (scratch_table_id _) _) as [scratch|?]; [|done].
    simpl. by destruct (ext_transferAllDataFrom _ _ _ _ _) as [[[]|?] w1].
  - intros Hscratch. unfold transferRefreshedData. munfold. simpl. by rewrite Hscratch.
  - intros Hscratch.
    unfold transferRefreshedData, getTargetTable, getScratchTable,
      getTargetTableId, getScratchTableId.
    munfold. simpl. rewrite Hscratch. simpl.
    destruct (ext_getTable (target_table_id _) _) as [target|?]; [|done].
    destruct (ext_getTable (scratch_table_id _) _) as [scratch|?]; [|done].
    destruct (ext_transferAllDataFrom _ _ _ _ _) as [[[]|?] w1] eqn:Hmoved; simpl; [|done].
    by exists target, scratch.
  - intros target scratch w1 Hscratch Htarget Htable Htransfer.
    by apply transferRefreshedData_returns.
  - intros ctx insert_query st' Hrun.
    by rewrite (prepareRefresh_Ok_local _ _ _ _ Hrun).
  - intros ctx scratch w1 w2 header Hscratch Hempty Htable Hlock Htruncate Hheader.
    eexists _, _. split.
    + by apply prepareRefresh_returns_after_truncate with w1.
    + done.
  - intros ctx header Hcond Hheader.
    eexists _, _. split.
    + by apply prepareRefresh_returns_without_truncate.
    + done.
Qed.
End refresh_properties.

(** ** The constructor *)

Section constructor_properties.
Context {decls : Decls} {W : Type} {env : Env W}.
Implicit Types (st : State W (list StorageID.t)) (query : ASTCreateQuery.t).

(** The checks before the inner tables are created only read the world:
    whatever they return, the state is as before. *)
Lemma ctor_validate_state table_id_ query st :
  (ctor_validate table_id_ query st).2 = st.
Proof.
  unfold ctor_validate. munfold. simpl.
  destruct (ASTCreateQuery.select query); [|done].
  destruct (needsInnerTargetTable query && _); simpl; [done|].
  destruct (ext_getSelectQueryFromASTForMatView _ _ _); simpl; [|done].
  destruct (negb (StorageID.empty _)); simpl.
  - destruct (negb _ && _); simpl; [done|]. by destruct (existsb _ _ || _).
  - by destruct (existsb _ _ || _).
Qed.

Lemma ctor_bind_inner_table_ids_state table_id_ query st :
  (ctor_bind_inner_table_ids table_id_ query st).2 = st.
Proof.
  unfold ctor_bind_inner_table_ids. munfold. simpl.
  destruct (ASTCreateQuery.to_inner_uuid query); [done|].
  by destruct (negb _).
Qed.

Lemma ctor_check_scratch_create_query_state scratch_create_query st :
  (ctor_check_scratch_create_query scratch_create_query st).2 = st.
Proof.
  unfold ctor_check_scratch_create_query. munfold. simpl.
  destruct (ASTCreateQuery.is_dictionary _ || _ || _ || _ || _); simpl; [done|].
  destruct (ASTCreateQuery.storage _) as [storage|]; [|done].
  destruct (ASTStorage.engine storage); [|done]. simpl.
  destruct (ext_tryGetFeatures _ _) as [features|]; [|done].
  destruct (negb _); simpl; [done|].
  destruct (bool_decide _); simpl; [done|].
  by destruct (StorageFeatures.supports_replication features).
Qed.

Lemma ctor_prepare_inner_create_queries_state query target_table_id attach_ st :
  (ctor_prepare_inner_create_queries query target_table_id attach_ st).2 = st.
Proof.
  unfold ctor_prepare_inner_create_queries, ctor_derive_scratch_create_query.
  destruct attach_; [done|]. simpl.
  destruct (needsScratchTable query); [|done].
  pose proof (ctor_check_scratch_create_query_state) as Hcheck.
  munfold.
  destruct (ctor_inner_target_create_query query) as [q|]; simpl.
  - specialize (Hcheck q st).
    by destruct (ctor_check_scratch_create_query q st) as [[[]|?] ?]; simpl in *.
  - destruct (ext_getCreateTableQuery _ _ _) as [q|?]; [|done].
    specialize (Hcheck q st).
    by destruct (ctor_check_scratch_create_query q st) as [[[]|?] ?]; simpl in *.
Qed.

(** The view the constructor builds once the inner tables are there. *)
Lemma ctor_unfold table_id_ query columns_ attach_ comment st
    select target scratch inner_target_create_query scratch_create_query empty :
  (ctor_validate table_id_ query st).1 = Ok select →
  (ctor_bind_inner_table_ids table_id_ query st).1 = Ok (target, scratch) →
  (ctor_prepare_inner_create_queries query target attach_ st).1
  = Ok (inner_target_create_query, scratch_create_query, empty) →
  StorageMaterializedView_ctor table_id_ query columns_ attach_ comment st
  = match ctor_create_inner_tables table_id_ inner_target_create_query
            scratch_create_query target scratch st with
    | (Ok (target', scratch'), st') =>
        (Ok (mkView table_id_
               (StorageInMemoryMetadata.mk columns_ select comment
                  (ASTCreateQuery.refresh_strategy query))
               (needsInnerTargetTable query) (needsScratchTable query)
               target' scratch' empty (ASTCreateQuery.refresh_strategy query)
               (if bool_decide (is_Some (ASTCreateQuery.refresh_strategy query))
                then negb attach_ && negb (ASTCreateQuery.is_create_empty query)
                else default_refresh_on_start)),
         st')
    | (Throw e, st') => (Throw e, st')
    end.
Proof.
  intros Hvalidate Hbind Hprepare.
  pose proof (ctor_validate_state table_id_ query st) as Hst1.
  pose proof (ctor_bind_inner_table_ids_state table_id_ query st) as Hst2.
  pose proof (ctor_prepare_inner_create_queries_state query target attach_ st) as Hst3.
  unfold StorageMaterializedView_ctor. unfold mbind at 1, M_bind at 1.
  destruct (ctor_validate table_id_ query st) as [r1 st1]; simpl in *. subst r1 st1.
  unfold mbind at 1, M_bind at 1.
  destruct (ctor_bind_inner_table_ids table_id_ query st) as [r2 st2]; simpl in *.
  subst r2 st2.
  unfold mbind at 1, M_bind at 1.
  destruct (ctor_prepare_inner_create_queries query target attach_ st) as [r3 st3];
    simpl in *.
  subst r3 st3.
  unfold mbind at 1, M_bind at 1.
  by destruct (ctor_create_inner_tables _ _ _ _ _ st) as [[[target' scratch']|e] st'].
Qed.

(** A failing check stops the constructor where it is. *)
Lemma ctor_prepare_Throw table_id_ query columns_ attach_ comment st
    select target scratch e :
  (ctor_validate table_id_ query st).1 = Ok select →
  (ctor_bind_inner_table_ids table_id_ query st).1 = Ok (target, scratch) →
  (ctor_prepare_inner_create_queries query target attach_ st).1 = Throw e →
  StorageMaterializedView_ctor table_id_ query columns_ attach_ comment st = (Throw e, st).
Proof.
  intros Hvalidate Hbind Hprepare.
  pose proof (ctor_validate_state table_id_ query st) as Hst1.
  pose proof (ctor_bind_inner_table_ids_state table_id_ query st) as Hst2.
  pose proof (ctor_prepare_inner_create_queries_state query target attach_ st) as Hst3.
  unfold StorageMaterializedView_ctor. unfold mbind at 1, M_bind at 1.
  destruct (ctor_validate table_id_ query st) as [r1 st1]; simpl in *. subst r1 st1.
  unfold mbind at 1, M_bind at 1.
  destruct (ctor_bind_inner_table_ids table_id_ query st) as [r2 st2]; simpl in *.
  subst r2 st2.
  unfold mbind at 1, M_bind at 1.
  destruct (ctor_prepare_inner_create_queries query target attach_ st) as [r3 st3];
    simpl in *.
  by subst r3 st3.
Qed.

Lemma ctor_bind_Throw table_id_ query columns_ attach_ comment st select e :
  (ctor_validate table_id_ query st).1 = Ok select →
  (ctor_bind_inner_table_ids table_id_ query st).1 = Throw e →
  StorageMaterializedView_ctor table_id_ query columns_ attach_ comment st = (Throw e, st).
Proof.
  intros Hvalidate Hbind.
  pose proof (ctor_validate_state table_id_ query st) as Hst1.
  pose proof (ctor_bind_inner_table_ids_state table_id_ query st) as Hst2.
  unfold StorageMaterializedView_ctor. unfold mbind at 1, M_bind at 1.
  destruct (ctor_validate table_id_ query st) as [r1 st1]; simpl in *. subst r1 st1.
  unfold mbind at 1, M_bind at 1.
  destruct (ctor_bind_inner_table_ids table_id_ query st) as [r2 st2]; simpl in *.
  by subst r2 st2.
Qed.

(** What the binding of the identities returns. *)
Lemma ctor_bind_inner_table_ids_empty table_id_ query st :
  ASTCreateQuery.to_inner_uuid query = [] →
  ctor_bind_inner_table_ids table_id_ query st = (Ok (ctor_minted_ids table_id_ query), st).
Proof.
  intros Hempty. unfold ctor_bind_inner_table_ids. rewrite Hempty.
  by destruct (ctor_minted_ids table_id_ query).
Qed.

Lemma ctor_bind_inner_table_ids_mismatch table_id_ query st :
  ASTCreateQuery.to_inner_uuid query ≠ [] →
  length (ASTCreateQuery.to_inner_uuid query) ≠ needsInnerTables query →
  ∃ e, ctor_bind_inner_table_ids table_id_ query st = (Throw e, st)
       ∧ code e = INCORRECT_QUERY.
Proof.
  intros Hnonempty Hcount. unfold ctor_bind_inner_table_ids.
  destruct (ctor_minted_ids table_id_ query) as [target scratch].
  destruct (ASTCreateQuery.to_inner_uuid query) as [|front rest] eqn:Huuids; [done|].
  apply Nat.eqb_neq in Hcount. munfold. rewrite Hcount. simpl. by eexists.
Qed.

Lemma ctor_bind_inner_table_ids_match table_id_ query st front rest :
  ASTCreateQuery.to_inner_uuid query = front :: rest →
  length (front :: rest) = needsInnerTables query →
  ctor_bind_inner_table_ids table_id_ query st
  = (Ok (if needsInnerTargetTable query
         then StorageID.set_uuid (ctor_minted_ids table_id_ query).1 front
         else (ctor_minted_ids table_id_ query).1,
         if needsScratchTable query
         then StorageID.set_uuid (ctor_minted_ids table_id_ query).2
                (default front (last (front :: rest)))
         else (ctor_minted_ids table_id_ query).2),
     st).
Proof.
  intros Huuids Hcount. unfold ctor_bind_inner_table_ids.
  destruct (ctor_minted_ids table_id_ query) as [target scratch].
  rewrite Huuids. apply Nat.eqb_eq in Hcount. munfold. by rewrite Hcount.
Qed.

(** Without create queries nothing is created: the journal is reset and
    the identities are returned as they are. *)
Lemma ctor_create_inner_tables_nothing mv_storage_id target scratch st :
  ctor_create_inner_tables mv_storage_id None None target scratch st
  = (Ok (target, scratch), mkState (world st) (log st) []).
Proof. done. Qed.

(** On attach no create query is prepared, whatever the query, the
    catalog and the registered engines are. *)
Lemma ctor_prepare_inner_create_queries_attach query target st :
  ctor_prepare_inner_create_queries query target true st = (Ok (None, None, false), st).
Proof. done. Qed.

Lemma ctor_validate_Throw table_id_ query columns_ attach_ comment st e :
  (ctor_validate table_id_ query st).1 = Throw e →
  StorageMaterializedView_ctor table_id_ query columns_ attach_ comment st = (Throw e, st).
Proof.
  intros Hvalidate.
  pose proof (ctor_validate_state table_id_ query st) as Hst1.
  unfold StorageMaterializedView_ctor. unfold mbind at 1, M_bind at 1.
  destruct (ctor_validate table_id_ query st) as [r1 st1]; simpl in *. by subst r1 st1.
Qed.

(** C10: on attach, (1) whatever the query, the catalog and the engine
    registry are, the constructor issues no outward call and leaves the
    world as it is, so no inner table is created; (2) a query that passes
    the checks made on every construction (SELECT and storage clause
    present, view-count cap, self-reference, number of TO INNER UUIDs)
    gives a view, the scratch table's engine never being looked at, whose
    inner identities are the minted names with the first and the last
    TO INNER UUID (no UUID when the list is empty). *)
Theorem ctor_attach_binds_without_creating table_id_ query columns_ comment st :
  (let st' := (StorageMaterializedView_ctor table_id_ query columns_ true comment st).2 in
   world st' = world st ∧ log st' = log st)
  ∧ ∀ select,
      (ctor_validate table_id_ query st).1 = Ok select →
      ASTCreateQuery.to_inner_uuid query = []
      ∨ length (ASTCreateQuery.to_inner_uuid query) = needsInnerTables query →
      ∃ view,
        StorageMaterializedView_ctor table_id_ query columns_ true comment st
        = (Ok view, mkState (world st) (log st) [])
        ∧ has_inner_target_table view = needsInnerTargetTable query
        ∧ has_scratch_table view = needsScratchTable query
        ∧ target_table_id view
          = (if needsInnerTargetTable query
             then StorageID.mk (StorageID.database_name table_id_)
                    (generateInnerTableName table_id_ false)
                    (default Nil (head (ASTCreateQuery.to_inner_uuid query)))
             else ASTCreateQuery.to_table_id query)
        ∧ (if needsScratchTable query
           then scratch_table_id view
                = StorageID.mk (StorageID.database_name table_id_)
                    (generateInnerTableName table_id_ true)
                    (default Nil (last (ASTCreateQuery.to_inner_uuid query)))
           else True).
Proof.
  split.
  - destruct (ctor_validate table_id_ query st).1 as [select|e] eqn:Hvalidate;
      [|by rewrite (ctor_validate_Throw _ _ _ _ _ _ _ Hvalidate)].
    destruct (ctor_bind_inner_table_ids table_id_ query st).1 as [[target scratch]|e]
      eqn:Hbind; [|by rewrite (ctor_bind_Throw _ _ _ _ _ _ _ _ Hvalidate Hbind)].
    erewrite ctor_unfold;
      [|exact Hvalidate|exact Hbind|by rewrite ctor_prepare_inner_create_queries_attach].
    by rewrite ctor_create_inner_tables_nothing.
  - intros select Hvalidate Hcount.
    assert (∃ target scratch,
      ctor_bind_inner_table_ids table_id_ query st = (Ok (target, scratch), st)
      ∧ target = (if needsInnerTargetTable query
                  then StorageID.mk (StorageID.database_name table_id_)
                         (generateInnerTableName table_id_ false)
                         (default Nil (head (ASTCreateQuery.to_inner_uuid query)))
                  else ASTCreateQuery.to_table_id query)
      ∧ (if needsScratchTable query
         then scratch = StorageID.mk (StorageID.database_name table_id_)
                          (generateInnerTableName table_id_ true)
                          (default Nil (last (ASTCreateQuery.to_inner_uuid query)))
         else True))
      as (target & scratch & Hbind & Htarget & Hscratch).
    { destruct (ASTCreateQuery.to_inner_uuid query) as [|front rest] eqn:Huuids.
      - rewrite (ctor_bind_inner_table_ids_empty _ _ _ Huuids).
        eexists _, _. split; [done|]. unfold ctor_minted_ids. simpl.
        by destruct (needsInnerTargetTable query), (needsScratchTable query).
      - destruct Hcount as [?|Hcount]; [done|].
        rewrite (ctor_bind_inner_table_ids_match _ _ _ _ _ Huuids Hcount).
        eexists _, _. split; [done|]. unfold ctor_minted_ids. simpl.
        destruct (last_is_Some (front :: rest)) as [_ [u Hlast]]; [done|].
        rewrite Hlast. simpl.
        by destruct (needsInnerTargetTable query), (needsScratchTable query). }
    erewrite ctor_unfold;
      [|exact Hvalidate|by rewrite Hbind
       |by rewrite ctor_prepare_inner_create_queries_attach].
    rewrite ctor_create_inner_tables_nothing. eexists. split; [done|]. simpl.
    by split_and!.
Qed.

(** C5 (amended): the number of TO INNER UUIDs is checked only when the
    list is not empty. For a query that passes the earlier checks, (1) if
    it names at least one UUID, a number of UUIDs other than
    [needsInnerTables()] makes the construction fail with IncorrectQuery,
    nothing having been called; (2) with two UUIDs, two being the number
    needed, the target identity gets uuid[0] when the target is inner and
    the scratch identity gets the last one when there is a scratch table,
    and on attach these identities are the ones of the view; (3) an empty
    list is accepted whatever [needsInnerTables()] is: the identities are
    bound as they were minted, UUIDs left to the database, nothing is
    thrown by the check, and on attach the construction returns the view
    with these identities. *)
Theorem to_inner_uuid_count_checked_when_present
    table_id_ query columns_ attach_ comment st select :
  (ctor_validate table_id_ query st).1 = Ok select →
  (ASTCreateQuery.to_inner_uuid query ≠ [] →
   length (ASTCreateQuery.to_inner_uuid query) ≠ needsInnerTables query →
   ∃ e, StorageMaterializedView_ctor table_id_ query columns_ attach_ comment st
        = (Throw e, st)
        ∧ code e = INCORRECT_QUERY)
  ∧ (∀ uuid0 uuid1,
       ASTCreateQuery.to_inner_uuid query = [uuid0; uuid1] →
       needsInnerTables query = 2 →
       ∃ target scratch view,
         ctor_bind_inner_table_ids table_id_ query st = (Ok (target, scratch), st)
         ∧ (if needsInnerTargetTable query
            then StorageID.uuid target = uuid0
            else target = ASTCreateQuery.to_table_id query)
         ∧ (if needsScratchTable query
            then StorageID.uuid scratch = uuid1
            else True)
         ∧ StorageMaterializedView_ctor table_id_ query columns_ true comment st
           = (Ok view, mkState (world st) (log st) [])
         ∧ target_table_id view = target
         ∧ scratch_table_id view = scratch)
  ∧ (ASTCreateQuery.to_inner_uuid query = [] →
     ctor_bind_inner_table_ids table_id_ query st
     = (Ok (ctor_minted_ids table_id_ query), st)
     ∧ ∃ view,
         StorageMaterializedView_ctor table_id_ query columns_ true comment st
         = (Ok view, mkState (world st) (log st) [])
         ∧ target_table_id view = (ctor_minted_ids table_id_ query).1
         ∧ scratch_table_id view = (ctor_minted_ids table_id_ query).2).
Proof.
  intros Hvalidate. split_and!.
  - intros Hnonempty Hcount.
    destruct (ctor_bind_inner_table_ids_mismatch table_id_ query st Hnonempty Hcount)
      as (e & Hbind & Hcode).
    exists e. split; [|done].
    eapply ctor_bind_Throw; [exact Hvalidate|by rewrite Hbind].
  - intros uuid0 uuid1 Huuids Hneeds.
    assert (length [uuid0; uuid1] = needsInnerTables query) as Hcount by by rewrite Hneeds.
    pose proof (ctor_bind_inner_table_ids_match table_id_ query st _ _ Huuids Hcount) as Hbind.
    simpl in Hbind. eexists _, _, _. split; [exact Hbind|].
    split_and!.
    + unfold ctor_minted_ids. simpl. by destruct (needsInnerTargetTable query).
    + unfold ctor_minted_ids. simpl. by destruct (needsScratchTable query).
    + erewrite ctor_unfold;
        [|exact Hvalidate|by rewrite Hbind
         |by rewrite ctor_prepare_inner_create_queries_attach].
      by rewrite ctor_create_inner_tables_nothing.
    + done.
    + done.
  - intros Hempty.
    pose proof (ctor_bind_inner_table_ids_empty table_id_ query st Hempty) as Hbind.
    split; [exact Hbind|].
    destruct (ctor_minted_ids table_id_ query) as [target scratch] eqn:Hminted.
    eexists. split_and!.
    + erewrite ctor_unfold;
        [|exact Hvalidate|by rewrite Hbind
         |by rewrite ctor_prepare_inner_create_queries_attach].
      by rewrite ctor_create_inner_tables_nothing.
    + done.
    + done.
Qed.

(** C3 (amended): a non-attach construction of a view with a scratch table
    that passes the checks on the query and on the UUIDs, and whose
    derived scratch create query is a regular table with a registered
    engine that does not support moving data between tables, fails with
    NotImplemented; no outward call has been issued, and the exception
    leaves the constructor. *)
Theorem ctor_rejects_engine_without_moving_data
    table_id_ query columns_ comment st select target scratch
    scratch_create_query storage engine_name features :
  (ctor_validate table_id_ query st).1 = Ok select →
  (ctor_bind_inner_table_ids table_id_ query st).1 = Ok (target, scratch) →
  needsScratchTable query = true →
  (ctor_derive_scratch_create_query (ctor_inner_target_create_query query) target st).1
  = Ok scratch_create_query →
  ASTCreateQuery.is_dictionary scratch_create_query
  || ASTCreateQuery.is_ordinary_view scratch_create_query
  || ASTCreateQuery.is_materialized_view scratch_create_query
  || ASTCreateQuery.is_live_view scratch_create_query
  || ASTCreateQuery.is_window_view scratch_create_query = false →
  ASTCreateQuery.storage scratch_create_query = Some storage →
  ASTStorage.engine storage = Some engine_name →
  ext_tryGetFeatures engine_name (world st) = Some features →
  StorageFeatures.supports_moving_data_between_tables features = false →
  ∃ e, StorageMaterializedView_ctor table_id_ query columns_ false comment st
       = (Throw e, st)
       ∧ code e = NOT_IMPLEMENTED.
Proof.
  intros Hvalidate Hbind Hscratch Hderive Hregular Hstorage Hengine Hfeatures Hmoving.
  eexists. split.
  - eapply ctor_prepare_Throw; [exact Hvalidate|exact Hbind|].
    unfold ctor_prepare_inner_create_queries. simpl. rewrite Hscratch.
    unfold mbind at 1, M_bind at 1.
    assert (ctor_derive_scratch_create_query (ctor_inner_target_create_query query)
              target st = (Ok scratch_create_query, st)) as ->.
    { revert Hderive. unfold ctor_derive_scratch_create_query. munfold.
      destruct (ctor_inner_target_create_query query); simpl; by intros ->. }
    unfold ctor_check_scratch_create_query. munfold. simpl.
    rewrite Hregular. simpl. rewrite Hstorage, Hengine. simpl.
    rewrite Hfeatures, Hmoving. simpl. reflexivity.
  - done.
Qed.

(** [execute_inner_create] with a query issues one CREATE, and adds the
    identity the catalog returns to the journal only when it returns. *)
Lemma execute_inner_create_Ok create_query id st id' st' :
  execute_inner_create (Some create_query) id st = (Ok id', st') →
  log st' = log st ++ [EvCreate (ASTCreateQuery.set_identity create_query id)]
  ∧ local st' = local st ++ [id'].
Proof.
  unfold execute_inner_create. munfold. simpl.
  destruct (ext_InterpreterCreateQuery_execute _ _) as [[[]|?] w1]; simpl; [|done].
  destruct (ext_getTable _ _) as [table|?]; simpl; [|done].
  by intros [= <- <-].
Qed.

Lemma execute_inner_create_Throw create_query id st e st' :
  execute_inner_create (Some create_query) id st = (Throw e, st') →
  log st' = log st ++ [EvCreate (ASTCreateQuery.set_identity create_query id)]
  ∧ local st' = local st.
Proof.
  unfold execute_inner_create. munfold. simpl.
  destruct (ext_InterpreterCreateQuery_execute _ _) as [[[]|?] w1]; simpl;
    [|by intros [= <- <-]].
  destruct (ext_getTable _ _) as [table|?]; simpl; [done|].
  by intros [= <- <-].
Qed.

(** The loop of the catch block returns normally whatever the drops do,
    keeps the journal, and issues one DROP for each table of the journal,
    in order, and nothing else but log entries. *)
Lemma rollback_loop mv_storage_id (created : list StorageID.t) st :
  ∃ st' events,
    for_each created (λ id,
      try_catch
        (call (EvExecuteDropQuery Drop id false (Some true)
                 (Some (StorageID.qualified_name_lt mv_storage_id id)))
              (ext_executeDropQuery Drop id false (Some true)
                 (Some (StorageID.qualified_name_lt mv_storage_id id))))
        (λ e, emit (EvLog "Failed to un-create inner table" e))) st
    = (Ok tt, st')
    ∧ local st' = local st
    ∧ log st' = log st ++ events
    ∧ dropped_by events = created
    ∧ created_by events = [].
Proof.
  revert st. induction created as [|id created IH]; intros st.
  - exists st, []. simpl. by rewrite app_nil_r.
  - simpl. munfold. simpl.
    destruct (ext_executeDropQuery Drop id false (Some true) _ (world st))
      as [[[]|e'] w1]; simpl.
    + destruct (IH (mkState w1
                  (log st ++ [EvExecuteDropQuery Drop id false (Some true)
                                (Some (StorageID.qualified_name_lt mv_storage_id id))])
                  (local st)))
        as (st' & events & -> & Hlocal & Hlog & Hdropped & Hcreated).
      eexists st', (_ :: events). simpl in *.
      rewrite Hlog, <- app_assoc, Hdropped, Hcreated. done.
    + destruct (IH (mkState w1
                  ((log st ++ [EvExecuteDropQuery Drop id false (Some true)
                                 (Some (StorageID.qualified_name_lt mv_storage_id id))])
                   ++ [EvLog "Failed to un-create inner table" e'])
                  (local st)))
        as (st' & events & -> & Hlocal & Hlog & Hdropped & Hcreated).
      eexists st', (_ :: _ :: events). simpl in *.
      rewrite Hlog, <- !app_assoc, Hdropped, Hcreated. done.
Qed.

(** Whenever creating the inner tables fails, the exception that leaves
    is the one the failing create raised, and between the failure and the
    exit every table of the journal has been asked to be dropped, once. *)
Lemma ctor_create_inner_tables_Throw mv_storage_id
    inner_target_create_query scratch_create_query target scratch st e st' :
  ctor_create_inner_tables mv_storage_id inner_target_create_query
    scratch_create_query target scratch st = (Throw e, st') →
  ∃ st_failed events,
    (target_table_id ← execute_inner_create inner_target_create_query target;
     scratch_table_id ← execute_inner_create scratch_create_query scratch;
     mret (target_table_id, scratch_table_id))
      (mkState (world st) (log st) []) = (Throw e, st_failed)
    ∧ log st' = log st_failed ++ events
    ∧ dropped_by events = local st_failed
    ∧ created_by events = []
    ∧ local st' = local st_failed.
Proof.
  unfold ctor_create_inner_tables.
  unfold mbind at 1, M_bind at 1, set_local at 1. simpl.
  unfold try_catch at 1.
  match goal with
  | |- match ?body with _ => _ end = _ → _ =>
      destruct body as [[ids|e0] st_failed] eqn:Hbody; [done|]
  end.
  unfold ctor_un_create_inner_tables.
  unfold mbind at 1, M_bind at 1. unfold mbind at 1, M_bind at 1, get_local at 1.
  destruct (rollback_loop mv_storage_id (local st_failed) st_failed)
    as (st'' & events & -> & Hlocal & Hlog & Hdropped & Hcreated).
  unfold throw. intros [= <- <-]. by exists st_failed, events.
Qed.

(** C6: in a non-attach construction that gets to create two inner tables,
    if the target is created and the creation of the scratch table throws
    (the CREATE itself, or the lookup of the new table), then the two
    CREATEs are all that was issued before the failure; exactly one DROP
    follows, for the target as the catalog returned it, not synchronous,
    ignoring the sync setting, with the DDL-guard flag computed from the
    qualified names; an exception of that DROP is logged and goes no
    further; and the constructor throws the exception of the failed
    create itself. *)
Theorem ctor_rolls_back_created_target
    table_id_ query columns_ comment st select target scratch
    inner_target_create_query scratch_create_query empty target' st1 e st2 :
  (ctor_validate table_id_ query st).1 = Ok select →
  (ctor_bind_inner_table_ids table_id_ query st).1 = Ok (target, scratch) →
  (ctor_prepare_inner_create_queries query target false st).1
  = Ok (Some inner_target_create_query, Some scratch_create_query, empty) →
  execute_inner_create (Some inner_target_create_query) target
    (mkState (world st) (log st) []) = (Ok target', st1) →
  execute_inner_create (Some scratch_create_query) scratch st1 = (Throw e, st2) →
  let may_lock_ddl_guard := StorageID.qualified_name_lt table_id_ target' in
  let dropped :=
    ext_executeDropQuery Drop target' false (Some true) (Some may_lock_ddl_guard)
      (world st2) in
  let rollback :=
    EvExecuteDropQuery Drop target' false (Some true) (Some may_lock_ddl_guard)
    :: match dropped.1 with
       | Ok _ => []
       | Throw e' => [EvLog "Failed to un-create inner table" e']
       end in
  StorageMaterializedView_ctor table_id_ query columns_ false comment st
  = (Throw e, mkState dropped.2 (log st2 ++ rollback) [target'])
  ∧ log st2 = log st ++
      [EvCreate (ASTCreateQuery.set_identity inner_target_create_query target);
       EvCreate (ASTCreateQuery.set_identity scratch_create_query scratch)]
  ∧ dropped_by rollback = [target']
  ∧ created_by rollback = [].
Proof.
  intros Hvalidate Hbind Hprepare Htarget Hscratch may_lock_ddl_guard dropped rollback.
  destruct (execute_inner_create_Ok _ _ _ _ _ Htarget) as [Hlog1 Hlocal1].
  destruct (execute_inner_create_Throw _ _ _ _ _ Hscratch) as [Hlog2 Hlocal2].
  simpl in Hlog1, Hlocal1. split_and!.
  - erewrite ctor_unfold; [|exact Hvalidate|exact Hbind|exact Hprepare].
    unfold ctor_create_inner_tables.
    unfold mbind at 1, M_bind at 1, set_local at 1. simpl.
    unfold try_catch at 1.
    rewrite (bind_Ok _ _ _ _ _ Htarget), (bind_Throw _ _ _ _ _ Hscratch).
    unfold ctor_un_create_inner_tables. munfold. simpl.
    rewrite Hlocal2, Hlocal1. simpl. munfold. simpl.
    subst rollback dropped may_lock_ddl_guard.
    destruct (ext_executeDropQuery Drop target' false (Some true) _ (world st2))
      as [[[]|e'] w3]; simpl; by rewrite Hlocal2, Hlocal1, <- ?app_assoc.
  - by rewrite Hlog2, Hlog1, <- app_assoc.
  - subst rollback. simpl. by destruct dropped.1.
  - subst rollback. simpl. by destruct dropped.1.
Qed.
End constructor_properties.

(** ** The properties on the concrete world *)

Lemma prepareRefresh_spec_witness :
  prepareRefresh (env := DemoRefresh.env) Demo.context DemoRefresh.before_prepare
  = (Ok Demo.insert_query, DemoRefresh.after_prepare)
  ∧ prepareRefresh (env := DemoRefresh.env) Demo.context DemoRefresh.after_transfer
    = (Ok Demo.insert_query, DemoRefresh.after_second_prepare)
  ∧ prepareRefresh (env := Demo.env) Demo.context (mkState Demo.world_to [] Demo.view_to)
    = (Ok (ASTInsertQuery.mk Demo.select_text "db" "dst" (StorageID.make "db" "dst")
             ["a"; "b"]),
       mkState Demo.world_to [EvGetSampleBlock true Demo.select_text] Demo.view_to)
  ∧ (∃ scratch w1,
        ext_getTable (Env := DemoRefresh.env) Demo.scratch_id
          (world DemoRefresh.before_prepare) = Ok scratch
        ∧ ext_lockExclusively (Env := DemoRefresh.env) scratch "query-1" 120
            (world DemoRefresh.before_prepare) = (Ok tt, w1)
        ∧ ext_truncate (Env := DemoRefresh.env) scratch w1
          = (Ok tt, world DemoRefresh.after_prepare)
        ∧ log DemoRefresh.after_prepare
          = [EvLockExclusively scratch "query-1" 120; EvTruncate scratch;
             EvGetSampleBlock true Demo.select_text])
  ∧ ASTInsertQuery.table_id Demo.insert_query = Demo.scratch_id
  ∧ scratch_table_is_known_to_be_empty (local DemoRefresh.after_prepare) = false
  ∧ local DemoRefresh.scratch_missing = Demo.refreshable_view.
Proof.
  destruct (prepareRefresh_spec (env := DemoRefresh.env) Demo.context
              DemoRefresh.before_prepare) as (Htruncate & _ & Hreturned & _).
  destruct (prepareRefresh_spec (env := DemoRefresh.env) Demo.context
              DemoRefresh.after_transfer) as (_ & Hknown_empty & _ & _).
  destruct (prepareRefresh_spec (env := Demo.env) Demo.context
              (mkState Demo.world_to [] Demo.view_to)) as (_ & Hno_scratch & _ & _).
  destruct (prepareRefresh_spec (env := DemoRefresh.env) Demo.context
              DemoRefresh.scratch_missing) as (_ & _ & _ & Hthrown).
  pose proof (Htruncate 1%N
                (DemoRefresh.mkWorld Demo.refreshable_world [10; 3]%N [(1%N, "query-1")])
                (world DemoRefresh.after_prepare)
                [mkColumn "a" "UInt64"; mkColumn "b" "String"]
                eq_refl eq_refl eq_refl eq_refl eq_refl eq_refl) as [_ Hrun].
  destruct (Hreturned Demo.insert_query DemoRefresh.after_prepare Hrun)
    as (Hcalls & Htable & _ & _ & _ & _ & Hflag & _).
  split_and!.
  - exact Hrun.
  - exact (Hknown_empty [mkColumn "a" "UInt64"; mkColumn "b" "String"] eq_refl eq_refl).
  - exact (Hno_scratch [mkColumn "a" "UInt64"; mkColumn "b" "String"] eq_refl eq_refl).
  - exact Hcalls.
  - exact Htable.
  - exact Hflag.
  - exact (Hthrown Demo.unknown_table_error DemoRefresh.scratch_missing eq_refl).
Defined.

Lemma transferRefreshedData_spec_witness :
  transferRefreshedData (env := Demo.env) (mkState Demo.world_to [] Demo.view_to)
  = (Ok tt, mkState Demo.world_to [] Demo.view_to)
  ∧ transferRefreshedData (env := DemoRefresh.env) DemoRefresh.before_transfer
    = (Ok tt, DemoRefresh.after_transfer)
  ∧ transferRefreshedData (env := DemoRefresh.env) DemoRefresh.scratch_missing
    = (Throw Demo.unknown_table_error, DemoRefresh.scratch_missing)
  ∧ match transferRefreshedData (env := Demo.env) Demo.after_prepare with
    | (Ok _, st') =>
        ∃ target scratch,
          ext_getTable (Env := Demo.env) Demo.target_id Demo.refreshable_world = Ok target
          ∧ ext_getTable (Env := Demo.env) Demo.scratch_id Demo.refreshable_world = Ok scratch
          ∧ ext_transferAllDataFrom (Env := Demo.env) target scratch true true
              Demo.refreshable_world = (Ok tt, world st')
          ∧ log st' = log Demo.after_prepare
                      ++ [EvTransferAllDataFrom target scratch true true]
          ∧ scratch_table_is_known_to_be_empty (local st') = true
    | (Throw _, st') => local st' = Demo.refreshable_view
    end
  ∧ scratch_table_is_known_to_be_empty (local Demo.after_prepare) = false
  ∧ (∃ insert_query st',
        prepareRefresh (env := DemoRefresh.env) Demo.context DemoRefresh.before_prepare
        = (Ok insert_query, st')
        ∧ scratch_table_is_known_to_be_empty (local st') = false)
  ∧ (∃ insert_query st',
        prepareRefresh (env := DemoRefresh.env) Demo.context DemoRefresh.after_transfer
        = (Ok insert_query, st')
        ∧ scratch_table_is_known_to_be_empty (local st') = false).
Proof.
  destruct (transferRefreshedData_spec (env := Demo.env)
              (mkState Demo.world_to [] Demo.view_to)) as (Hno_scratch & _).
  destruct (transferRefreshedData_spec (env := DemoRefresh.env)
              DemoRefresh.before_transfer) as (Hmoved & _).
  destruct (transferRefreshedData_spec (env := DemoRefresh.env)
              DemoRefresh.scratch_missing) as (Hmissing & _).
  destruct (transferRefreshedData_spec (env := Demo.env) Demo.after_prepare)
    as (_ & _ & Hreturned & _).
  destruct (transferRefreshedData_spec (env := Demo.env) Demo.before_prepare)
    as (_ & _ & _ & _ & Hflag & _).
  destruct (transferRefreshedData_spec (env := DemoRefresh.env)
              DemoRefresh.before_prepare) as (_ & _ & _ & _ & _ & Hprepared & _).
  destruct (transferRefreshedData_spec (env := DemoRefresh.env)
              DemoRefresh.after_transfer) as (_ & _ & _ & _ & _ & _ & Hprepared_again).
  split_and!.
  - exact Hno_scratch.
  - exact Hmoved.
  - exact Hmissing.
  - exact (Hreturned eq_refl).
  - exact (Hflag Demo.context Demo.insert_query Demo.after_prepare eq_refl).
  - exact (Hprepared Demo.context 1%N
             (DemoRefresh.mkWorld Demo.refreshable_world [10; 3]%N [(1%N, "query-1")])
             (world DemoRefresh.after_prepare)
             [mkColumn "a" "UInt64"; mkColumn "b" "String"]
             eq_refl eq_refl eq_refl eq_refl eq_refl eq_refl).
  - exact (Hprepared_again Demo.context [mkColumn "a" "UInt64"; mkColumn "b" "String"]
             eq_refl eq_refl).
Defined.

(** After the transfer on the concrete world the flag is true and the
    target was asked to take the scratch table's data. *)
Example transferRefreshedData_demo :
  transferRefreshedData (env := Demo.env) Demo.after_prepare
  = (Ok tt,
     mkState Demo.refreshable_world
       (log Demo.after_prepare ++ [EvTransferAllDataFrom 0 1 true true])
       (set_scratch_table_is_known_to_be_empty Demo.refreshable_view true)).
Proof. vm_compute. reflexivity. Qed.

(** C4, as stated, fails: on a view over an external TO-clause table
    [truncate] does not throw NotImplemented; it returns and does nothing. *)
Lemma truncate_external_target_returns :
  has_inner_target_table Demo.view_to = false
  ∧ truncate (env := Demo.env) (mkState Demo.world_to [] Demo.view_to)
    = (Ok tt, mkState Demo.world_to [] Demo.view_to).
Proof. split; reflexivity. Qed.

(** ... while on a view with an inner target it is forwarded. *)
Example truncate_inner_target_demo :
  truncate (env := Demo.env) Demo.before_prepare
  = (Ok tt,
     mkState Demo.refreshable_world
       [EvExecuteDropQuery Truncate Demo.target_id true None None]
       Demo.refreshable_view).
Proof. vm_compute. reflexivity. Qed.

(** C8, as stated, fails: the external target table db.dst exists in the
    catalog and has 42 rows, yet the totals of the view are empty. *)
Lemma totals_external_target_empty :
  has_inner_target_table Demo.view_to = false
  ∧ ext_tryGetTable (Env := Demo.env) (target_table_id Demo.view_to) Demo.world_to = Some 0%N
  ∧ ext_totalRows (Env := Demo.env) 0%N Demo.world_to = Some 42%N
  ∧ totalRows (env := Demo.env) Demo.view_to Demo.world_to = None
  ∧ totalBytes (env := Demo.env) Demo.view_to Demo.world_to = None
  ∧ totalBytesUncompressed (env := Demo.env) Demo.view_to Demo.world_to = None.
Proof. vm_compute. done. Qed.

Example totals_inner_target_demo :
  totalRows (env := Demo.env) Demo.refreshable_view Demo.refreshable_world = Some 42%N.
Proof. vm_compute. reflexivity. Qed.

(** S6: ALTER ... ADD COLUMN is rejected with NotImplemented; MODIFY REFRESH
    is accepted on a refreshable view when it keeps the APPEND flag, and
    rejected when it changes it or when the view has no refresher. *)
Example checkAlterIsPossible_demo :
  checkAlterIsPossible (decls := Demo.decls) Demo.refreshable_view
    [AlterCommand.mk ADD_COLUMN (ASTRefreshStrategy.mk false)]
  = Throw (mkException NOT_IMPLEMENTED "Alter of type '{}' is not supported by storage {}")
  ∧ checkAlterIsPossible (decls := Demo.decls) Demo.refreshable_view
      [AlterCommand.mk MODIFY_QUERY (ASTRefreshStrategy.mk false);
       AlterCommand.mk MODIFY_REFRESH (ASTRefreshStrategy.mk false)]
    = Ok tt
  ∧ checkAlterIsPossible (decls := Demo.decls) Demo.refreshable_view
      [AlterCommand.mk MODIFY_REFRESH (ASTRefreshStrategy.mk true)]
    = Throw (mkException NOT_IMPLEMENTED
               "Adding/removing APPEND is not supported by refreshable materialized views")
  ∧ checkAlterIsPossible (decls := Demo.decls) Demo.view_to
      [AlterCommand.mk MODIFY_REFRESH (ASTRefreshStrategy.mk true)]
    = Throw (mkException NOT_IMPLEMENTED
               "MODIFY REFRESH is not supported by non-refreshable materialized views").
Proof. vm_compute. done. Qed.

(** C3, as stated, fails: CREATE MATERIALIZED VIEW ... REFRESH ... ENGINE =
    Memory needs a scratch table, Memory is registered and does not support
    moving data between tables, and the construction fails with
    NotImplemented, which is not BadArguments. *)
Lemma ctor_engine_without_moving_data_NotImplemented :
  needsScratchTable (Decls := Demo.decls)
    (Demo.create_view Demo.memory Demo.every_hour []) = true
  ∧ Demo.features_of "Memory" = Some (StorageFeatures.mk false false)
  ∧ ∃ e,
      (StorageMaterializedView_ctor (decls := Demo.decls) (env := Demo.env) Demo.view_id
         (Demo.create_view Demo.memory Demo.every_hour []) Demo.header_ab false ""
         (mkState Demo.empty_world [] [])).1 = Throw e
      ∧ code e = NOT_IMPLEMENTED
      ∧ code e ≠ BAD_ARGUMENTS.
Proof. split_and!; [reflexivity..|]. eexists. by vm_compute. Qed.

Lemma ctor_rejects_engine_without_moving_data_witness :
  ∃ e,
    StorageMaterializedView_ctor (decls := Demo.decls) (env := Demo.env) Demo.view_id
      (Demo.create_view Demo.memory Demo.every_hour []) Demo.header_ab false ""
      (mkState Demo.empty_world [] [])
    = (Throw e, mkState Demo.empty_world [] [])
    ∧ code e = NOT_IMPLEMENTED.
Proof.
  apply (ctor_rejects_engine_without_moving_data (decls := Demo.decls) (env := Demo.env)
           Demo.view_id (Demo.create_view Demo.memory Demo.every_hour [])
           Demo.header_ab "" (mkState Demo.empty_world [] [])
           (SelectQueryDescription.mk (StorageID.make "db" "src") Demo.select_text)
           (StorageID.make "db" ".inner_id.7") (StorageID.make "db" ".inner_scratch_id.7")
           (ASTCreateQuery.set_columns_list_and_storage ASTCreateQuery.make_shared
              (Some "a UInt64, b String") (Some Demo.memory))
           Demo.memory "Memory" (StorageFeatures.mk false false));
    vm_compute; reflexivity.
Defined.

(** C5, as stated, fails: a CREATE without a TO INNER UUID clause names no
    UUID while the view needs one inner table, and the construction
    succeeds. *)
Lemma ctor_without_to_inner_uuid_succeeds :
  length (ASTCreateQuery.to_inner_uuid (Demo.create_view Demo.merge_tree None []))
  ≠ needsInnerTables (Decls := Demo.decls) (Demo.create_view Demo.merge_tree None [])
  ∧ ∃ view,
      (StorageMaterializedView_ctor (decls := Demo.decls) (env := Demo.env) Demo.view_id
         (Demo.create_view Demo.merge_tree None []) Demo.header_ab false ""
         (mkState Demo.empty_world [] [])).1 = Ok view.
Proof. split; [by vm_compute|]. eexists. by vm_compute. Qed.

Lemma to_inner_uuid_count_checked_when_present_witness :
  (∃ e,
     StorageMaterializedView_ctor (decls := Demo.decls) (env := Demo.env) Demo.view_id
       (Demo.create_view Demo.merge_tree Demo.every_hour [8]%N) Demo.header_ab false ""
       (mkState Demo.empty_world [] [])
     = (Throw e, mkState Demo.empty_world [] [])
     ∧ code e = INCORRECT_QUERY)
  ∧ (∃ target scratch view,
      ctor_bind_inner_table_ids (decls := Demo.decls) Demo.view_id Demo.refreshable_query
        (mkState Demo.refreshable_world [] [])
      = (Ok (target, scratch), mkState Demo.refreshable_world [] [])
      ∧ StorageID.uuid target = 8%N
      ∧ StorageID.uuid scratch = 9%N
      ∧ StorageMaterializedView_ctor (decls := Demo.decls) (env := Demo.env) Demo.view_id
          Demo.refreshable_query Demo.header_ab true ""
          (mkState Demo.refreshable_world [] [])
        = (Ok view, mkState Demo.refreshable_world [] [])
      ∧ target_table_id view = target
      ∧ scratch_table_id view = scratch)
  ∧ needsInnerTables (Decls := Demo.decls)
      (Demo.create_view Demo.merge_tree Demo.every_hour []) = 2
  ∧ ctor_bind_inner_table_ids (decls := Demo.decls) Demo.view_id
      (Demo.create_view Demo.merge_tree Demo.every_hour [])
      (mkState Demo.refreshable_world [] [])
    = (Ok (StorageID.make "db" ".inner_id.7", StorageID.make "db" ".inner_scratch_id.7"),
       mkState Demo.refreshable_world [] [])
  ∧ ∃ view,
      StorageMaterializedView_ctor (decls := Demo.decls) (env := Demo.env) Demo.view_id
        (Demo.create_view Demo.merge_tree Demo.every_hour []) Demo.header_ab true ""
        (mkState Demo.refreshable_world [] [])
      = (Ok view, mkState Demo.refreshable_world [] [])
      ∧ target_table_id view = StorageID.make "db" ".inner_id.7"
      ∧ scratch_table_id view = StorageID.make "db" ".inner_scratch_id.7".
Proof.
  destruct (to_inner_uuid_count_checked_when_present (decls := Demo.decls) (env := Demo.env)
              Demo.view_id (Demo.create_view Demo.merge_tree Demo.every_hour [8]%N)
              Demo.header_ab false "" (mkState Demo.empty_world [] [])
              (SelectQueryDescription.mk (StorageID.make "db" "src") Demo.select_text)
              ltac:(vm_compute; reflexivity)) as (Hmismatch & _ & _).
  destruct (to_inner_uuid_count_checked_when_present (decls := Demo.decls) (env := Demo.env)
              Demo.view_id Demo.refreshable_query
              Demo.header_ab true "" (mkState Demo.refreshable_world [] [])
              (SelectQueryDescription.mk (StorageID.make "db" "src") Demo.select_text)
              ltac:(vm_compute; reflexivity)) as (_ & Hmatch & _).
  destruct (to_inner_uuid_count_checked_when_present (decls := Demo.decls) (env := Demo.env)
              Demo.view_id (Demo.create_view Demo.merge_tree Demo.every_hour [])
              Demo.header_ab true "" (mkState Demo.refreshable_world [] [])
              (SelectQueryDescription.mk (StorageID.make "db" "src") Demo.select_text)
              ltac:(vm_compute; reflexivity)) as (_ & _ & Hempty).
  split_and!.
  - apply Hmismatch; [discriminate|vm_compute; discriminate].
  - exact (Hmatch 8%N 9%N eq_refl eq_refl).
  - reflexivity.
  - exact (proj1 (Hempty eq_refl)).
  - exact (proj2 (Hempty eq_refl)).
Defined.

(** On attach the Memory engine, rejected at creation, is not looked at. *)
Lemma ctor_attach_binds_without_creating_witness :
  ∃ view,
    StorageMaterializedView_ctor (decls := Demo.decls) (env := Demo.env) Demo.view_id
      (Demo.create_view Demo.memory Demo.every_hour [8; 9]%N) Demo.header_ab true ""
      (mkState Demo.refreshable_world [] [])
    = (Ok view, mkState Demo.refreshable_world [] [])
    ∧ has_inner_target_table view = true
    ∧ has_scratch_table view = true
    ∧ target_table_id view = Demo.target_id
    ∧ scratch_table_id view = Demo.scratch_id.
Proof.
  destruct (ctor_attach_binds_without_creating (decls := Demo.decls) (env := Demo.env)
              Demo.view_id (Demo.create_view Demo.memory Demo.every_hour [8; 9]%N)
              Demo.header_ab "" (mkState Demo.refreshable_world [] []))
    as [_ Hbound].
  destruct (Hbound (SelectQueryDescription.mk (StorageID.make "db" "src") Demo.select_text)
              ltac:(vm_compute; reflexivity) ltac:(right; reflexivity))
    as (view & Hrun & Hinner & Hscratch & Htarget_id & Hscratch_id).
  exists view. split_and!; [exact Hrun|exact Hinner|exact Hscratch|exact Htarget_id|].
  exact Hscratch_id.
Defined.

(** S3 on the concrete world, the DROP of the rollback failing too: one
    DROP for the target, its failure logged, and the exception of the
    scratch CREATE thrown. *)
Lemma ctor_rolls_back_created_target_witness :
  StorageMaterializedView_ctor (decls := Demo.decls) (env := Demo.env) Demo.view_id
    Demo.refreshable_query Demo.header_ab false ""
    (mkState (Demo.failing_world true) [] [])
  = (Throw Demo.table_exists_error,
     mkState (world (Demo.after_scratch_create true))
       (log (Demo.after_scratch_create true)
        ++ [EvExecuteDropQuery Drop Demo.target_id false (Some true) (Some false);
            EvLog "Failed to un-create inner table" Demo.drop_error])
       [Demo.target_id]).
Proof.
  apply (ctor_rolls_back_created_target (decls := Demo.decls) (env := Demo.env)
           Demo.view_id Demo.refreshable_query Demo.header_ab ""
           (mkState (Demo.failing_world true) [] [])
           (SelectQueryDescription.mk (StorageID.make "db" "src") Demo.select_text)
           Demo.target_id Demo.scratch_id
           Demo.inner_create_query Demo.inner_create_query true
           Demo.target_id (Demo.after_target_create true)
           Demo.table_exists_error (Demo.after_scratch_create true));
    vm_compute; reflexivity.
Defined.

(** The same when the DROP succeeds: nothing is logged, the target is gone. *)
Example ctor_rolls_back_demo :
  StorageMaterializedView_ctor (decls := Demo.decls) (env := Demo.env) Demo.view_id
    Demo.refreshable_query Demo.header_ab false ""
    (mkState (Demo.failing_world false) [] [])
  = (Throw Demo.table_exists_error,
     mkState (Demo.failing_world false)
       [EvCreate (ASTCreateQuery.set_identity Demo.inner_create_query Demo.target_id);
        EvCreate (ASTCreateQuery.set_identity Demo.inner_create_query Demo.scratch_id);
        EvExecuteDropQuery Drop Demo.target_id false (Some true) (Some false)]
       [Demo.target_id]).
Proof. vm_compute. reflexivity. Qed.

(** S2: both inner tables are created, target first, with the same columns
    and engine. *)
Example ctor_creates_both_demo :
  log (StorageMaterializedView_ctor (decls := Demo.decls) (env := Demo.env) Demo.view_id
         Demo.refreshable_query Demo.header_ab false ""
         (mkState Demo.empty_world [] [])).2
  = [EvCreate (ASTCreateQuery.set_identity Demo.inner_create_query Demo.target_id);
     EvCreate (ASTCreateQuery.set_identity Demo.inner_create_query Demo.scratch_id)].
Proof. vm_compute. reflexivity. Qed.

(** ** Inner-table names *)

Section inner_names.
Context {decls : Decls}.

(** The name of a scratch table is never the name of a target table,
    whatever the two views are. *)
Theorem generateInnerTableName_scratch_ne_target (view_id view_id' : StorageID.t) :
  generateInnerTableName view_id true ≠ generateInnerTableName view_id' false.
Proof.
  unfold generateInnerTableName.
  destruct (StorageID.hasUUID view_id), (StorageID.hasUUID view_id'); simpl; discriminate.
Qed.

(** When [toString] tells UUIDs apart, two minted names are equal only for
    the same kind of table and for views with the same UUID or, without
    UUIDs, the same table name. *)
Theorem generateInnerTableName_inj (view_id view_id' : StorageID.t) (scratch scratch' : bool) :
  Inj (=) (=) toString →
  generateInnerTableName view_id scratch = generateInnerTableName view_id' scratch' →
  scratch = scratch'
  ∧ StorageID.hasUUID view_id = StorageID.hasUUID view_id'
  ∧ if StorageID.hasUUID view_id
    then StorageID.uuid view_id = StorageID.uuid view_id'
    else StorageID.table_name view_id = StorageID.table_name view_id'.
Proof.
  intros Hinj. unfold generateInnerTableName, StorageID.getTableName.
  destruct scratch, scratch', (StorageID.hasUUID view_id), (StorageID.hasUUID view_id');
    simpl; intros Heq; simplify_eq; split_and!; try done; by apply Hinj.
Qed.

(** A view without UUID never shares its table name with one of its inner
    tables. *)
Theorem generateInnerTableName_ne_view_name (view_id : StorageID.t) (scratch : bool) :
  StorageID.hasUUID view_id = false →
  generateInnerTableName view_id scratch ≠ StorageID.table_name view_id.
Proof.
  intros Hno_uuid Heq. apply (f_equal String.length) in Heq. revert Heq.
  unfold generateInnerTableName, StorageID.getTableName. rewrite Hno_uuid.
  destruct scratch; vm_compute; lia.
Qed.
End inner_names.

Lemma generateInnerTableName_inj_witness :
  StorageID.uuid (StorageID.mk "db" "v" 7) = StorageID.uuid (StorageID.mk "other" "x" 7).
Proof.
  apply (generateInnerTableName_inj (decls := Demo.decls)
           (StorageID.mk "db" "v" 7) (StorageID.mk "other" "x" 7) true true).
  - exact pretty_N_inj.
  - vm_compute. reflexivity.
Defined.

Lemma generateInnerTableName_ne_view_name_witness :
  generateInnerTableName (decls := Demo.decls) DemoLifecycle.named_view_id true
  ≠ StorageID.table_name DemoLifecycle.named_view_id.
Proof.
  apply (generateInnerTableName_ne_view_name (decls := Demo.decls)).
  reflexivity.
Defined.

(** ** What a construction guarantees *)

Section constructor_outcomes.
Context {decls : Decls} {W : Type} {env : Env W}.
Implicit Types (st : State W (list StorageID.t)) (query : ASTCreateQuery.t).

Lemma existsb_uuid_true (u : UUID) (uuids : list UUID) :
  existsb (λ uuid, (uuid =? u)%N) uuids = true ↔ u ∈ uuids.
Proof.
  rewrite existsb_exists. split.
  - intros (x & Hin & Heq). apply N.eqb_eq in Heq as ->. by apply list_elem_of_In.
  - intros Hin. exists u. split; [by apply list_elem_of_In|apply N.eqb_refl].
Qed.

Lemma points_to_itself_true table_id_ query :
  existsb (λ uuid, (uuid =? StorageID.uuid table_id_)%N) (ASTCreateQuery.to_inner_uuid query)
  || bool_decide (StorageID.database_name (ASTCreateQuery.to_table_id query)
                  = StorageID.database_name table_id_)
     && bool_decide (StorageID.table_name (ASTCreateQuery.to_table_id query)
                     = StorageID.table_name table_id_) = true
  ↔ points_to_itself table_id_ query.
Proof.
  unfold points_to_itself.
  rewrite orb_true_iff, andb_true_iff, existsb_uuid_true, !bool_decide_eq_true. done.
Qed.

Lemma ctor_validate_Ok_inv table_id_ query st select :
  (ctor_validate table_id_ query st).1 = Ok select →
  ∃ query_select,
    ASTCreateQuery.select query = Some query_select
    ∧ (needsInnerTargetTable query = true → is_Some (ASTCreateQuery.storage query))
    ∧ ext_getSelectQueryFromASTForMatView query_select
        (bool_decide (is_Some (ASTCreateQuery.refresh_strategy query))) (world st)
      = Ok select
    ∧ views_cap_respected select (world st)
    ∧ ¬ points_to_itself table_id_ query.
Proof.
  unfold ctor_validate. munfold. simpl.
  destruct (ASTCreateQuery.select query) as [query_select|]; [|done].
  destruct (needsInnerTargetTable query && _) eqn:Hstorage; simpl; [done|].
  destruct (ext_getSelectQueryFromASTForMatView _ _ _) as [select0|] eqn:Hselect; simpl;
    [|done].
  assert (needsInnerTargetTable query = true → is_Some (ASTCreateQuery.storage query))
    as Hstorage'.
  { intros Hinner. rewrite Hinner in Hstorage. simpl in Hstorage.
    apply bool_decide_eq_false in Hstorage.
    by destruct (ASTCreateQuery.storage query). }
  destruct (negb (StorageID.empty _)) eqn:Hsource; simpl.
  - destruct (negb _ && _) eqn:Hcap; simpl; [done|].
    destruct (existsb _ _ || _) eqn:Hself; simpl; [done|].
    intros [= <-]. exists query_select. split_and!; [done..| |].
    + intros _. apply andb_false_iff in Hcap as [Hcap|Hcap].
      * left. apply negb_false_iff in Hcap. by apply N.eqb_eq.
      * right. by apply N.leb_gt.
    + rewrite <- points_to_itself_true. by rewrite Hself.
  - destruct (existsb _ _ || _) eqn:Hself; simpl; [done|].
    intros [= <-]. exists query_select. split_and!; [done..| |].
    + intros Hnonempty. apply negb_false_iff in Hsource. congruence.
    + rewrite <- points_to_itself_true. by rewrite Hself.
Qed.

Lemma ctor_bind_inner_table_ids_Ok_inv table_id_ query st ids :
  (ctor_bind_inner_table_ids table_id_ query st).1 = Ok ids →
  ASTCreateQuery.to_inner_uuid query = []
  ∨ length (ASTCreateQuery.to_inner_uuid query) = needsInnerTables query.
Proof.
  destruct (ASTCreateQuery.to_inner_uuid query) as [|front rest] eqn:Huuids; [by left|].
  destruct (decide (length (front :: rest) = needsInnerTables query)) as [|Hcount];
    [by right|].
  destruct (ctor_bind_inner_table_ids_mismatch table_id_ query st) as (e & Hbind & _).
  - by rewrite Huuids.
  - by rewrite Huuids.
  - by rewrite Hbind.
Qed.

(** A returning constructor has got through every phase. *)
Lemma ctor_Ok_inv table_id_ query columns_ attach_ comment st view st' :
  StorageMaterializedView_ctor table_id_ query columns_ attach_ comment st = (Ok view, st') →
  ∃ select target scratch inner_target_create_query scratch_create_query empty
    target' scratch',
    (ctor_validate table_id_ query st).1 = Ok select
    ∧ (ctor_bind_inner_table_ids table_id_ query st).1 = Ok (target, scratch)
    ∧ (ctor_prepare_inner_create_queries query target attach_ st).1
      = Ok (inner_target_create_query, scratch_create_query, empty)
    ∧ ctor_create_inner_tables table_id_ inner_target_create_query scratch_create_query
        target scratch st = (Ok (target', scratch'), st')
    ∧ view = mkView table_id_
               (StorageInMemoryMetadata.mk columns_ select comment
                  (ASTCreateQuery.refresh_strategy query))
               (needsInnerTargetTable query) (needsScratchTable query)
               target' scratch' empty (ASTCreateQuery.refresh_strategy query)
               (if bool_decide (is_Some (ASTCreateQuery.refresh_strategy query))
                then negb attach_ && negb (ASTCreateQuery.is_create_empty query)
                else default_refresh_on_start).
Proof.
  intros Hrun.
  destruct (ctor_validate table_id_ query st).1 as [select|e] eqn:Hvalidate;
    [|by rewrite (ctor_validate_Throw _ _ _ _ _ _ _ Hvalidate) in Hrun].
  destruct (ctor_bind_inner_table_ids table_id_ query st).1 as [[target scratch]|e]
    eqn:Hbind; [|by rewrite (ctor_bind_Throw _ _ _ _ _ _ _ _ Hvalidate Hbind) in Hrun].
  destruct (ctor_prepare_inner_create_queries query target attach_ st).1
    as [[[inner_target_create_query scratch_create_query] empty]|e] eqn:Hprepare;
    [|by rewrite (ctor_prepare_Throw _ _ _ _ _ _ _ _ _ _ Hvalidate Hbind Hprepare) in Hrun].
  rewrite (ctor_unfold _ _ _ _ _ _ _ _ _ _ _ _ Hvalidate Hbind Hprepare) in Hrun.
  destruct (ctor_create_inner_tables _ _ _ _ _ st) as [[[target' scratch']|e] st'']
    eqn:Hcreate; [|done].
  injection Hrun as <- <-. by eexists _, _, _, _, _, _, _, _.
Qed.

(** A view is only ever constructed from a query that has a SELECT, has a
    storage clause when the target is inner, does not point to the view
    itself by UUID or by name, names no TO INNER UUID or as many as inner
    tables are needed, and whose source table stays within the cap on
    views; the view keeps the identity and the SELECT description it was
    given. *)
Theorem ctor_Ok_validated table_id_ query columns_ attach_ comment st view st' :
  StorageMaterializedView_ctor table_id_ query columns_ attach_ comment st = (Ok view, st') →
  is_Some (ASTCreateQuery.select query)
  ∧ (needsInnerTargetTable query = true → is_Some (ASTCreateQuery.storage query))
  ∧ ¬ points_to_itself table_id_ query
  ∧ (ASTCreateQuery.to_inner_uuid query = []
     ∨ length (ASTCreateQuery.to_inner_uuid query) = needsInnerTables query)
  ∧ views_cap_respected (StorageInMemoryMetadata.select (getInMemoryMetadata view)) (world st)
  ∧ getStorageID view = table_id_
  ∧ has_inner_target_table view = needsInnerTargetTable query
  ∧ has_scratch_table view = needsScratchTable query
  ∧ refresher view = ASTCreateQuery.refresh_strategy query.
Proof.
  intros Hrun.
  destruct (ctor_Ok_inv _ _ _ _ _ _ _ _ Hrun)
    as (select & target & scratch & tq & sq & empty & target' & scratch'
        & Hvalidate & Hbind & _ & _ & ->).
  destruct (ctor_validate_Ok_inv _ _ _ _ Hvalidate)
    as (query_select & Hselect & Hstorage & _ & Hcap & Hself).
  pose proof (ctor_bind_inner_table_ids_Ok_inv _ _ _ _ Hbind) as Hcount.
  simpl. rewrite Hselect. by split_and!.
Qed.

(** Pointing to itself is an error of its own kind: a query that passes the
    checks made before (SELECT and storage clause present, SELECT analysed,
    cap on views respected) and names the view itself as target, by UUID or
    by qualified name, fails with BadArguments, on attach as on creation,
    and nothing has been called. *)
Theorem ctor_rejects_self_reference
    table_id_ query columns_ attach_ comment st query_select select :
  ASTCreateQuery.select query = Some query_select →
  (needsInnerTargetTable query = true → is_Some (ASTCreateQuery.storage query)) →
  ext_getSelectQueryFromASTForMatView query_select
    (bool_decide (is_Some (ASTCreateQuery.refresh_strategy query))) (world st)
  = Ok select →
  views_cap_respected select (world st) →
  points_to_itself table_id_ query →
  ∃ e, StorageMaterializedView_ctor table_id_ query columns_ attach_ comment st
       = (Throw e, st)
       ∧ code e = BAD_ARGUMENTS.
Proof.
  intros Hselect Hstorage Hanalysed Hcap Hself.
  eexists. split.
  - apply ctor_validate_Throw. unfold ctor_validate. munfold. simpl.
    rewrite Hselect.
    assert (needsInnerTargetTable query
            && bool_decide (ASTCreateQuery.storage query = None) = false) as ->.
    { destruct (needsInnerTargetTable query); [|done]. simpl.
      apply bool_decide_eq_false. by destruct Hstorage as [storage ->]. }
    simpl. rewrite Hanalysed. simpl.
    apply points_to_itself_true in Hself.
    destruct (negb (StorageID.empty _)) eqn:Hsource; simpl.
    + assert (negb (ext_max_materialized_views_count_for_table (world st) =? 0)%N
              && (ext_max_materialized_views_count_for_table (world st)
                  <=? N.of_nat (length (ext_getDependentViews
                        (SelectQueryDescription.select_table_id select) (world st))))%N
              = false) as ->.
      { apply negb_true_iff in Hsource. destruct (Hcap Hsource) as [->|Hlt]; [done|].
        apply andb_false_iff. right. by apply N.leb_gt. }
      simpl. rewrite Hself. reflexivity.
    + rewrite Hself. reflexivity.
  - done.
Qed.

(** The cap on the views of a source table: when the SELECT has a source
    table, the maximum is not zero and the table already has that many
    views, the construction fails with TooManyMaterializedViews, before
    the self-reference check and before anything is called. *)
Theorem ctor_rejects_too_many_views
    table_id_ query columns_ attach_ comment st query_select select :
  ASTCreateQuery.select query = Some query_select →
  (needsInnerTargetTable query = true → is_Some (ASTCreateQuery.storage query)) →
  ext_getSelectQueryFromASTForMatView query_select
    (bool_decide (is_Some (ASTCreateQuery.refresh_strategy query))) (world st)
  = Ok select →
  StorageID.empty (SelectQueryDescription.select_table_id select) = false →
  ext_max_materialized_views_count_for_table (world st) ≠ 0%N →
  (ext_max_materialized_views_count_for_table (world st)
   ≤ N.of_nat (length (ext_getDependentViews
                         (SelectQueryDescription.select_table_id select) (world st))))%N →
  ∃ e, StorageMaterializedView_ctor table_id_ query columns_ attach_ comment st
       = (Throw e, st)
       ∧ code e = TOO_MANY_MATERIALIZED_VIEWS.
Proof.
  intros Hselect Hstorage Hanalysed Hsource Hmax Hcount.
  eexists. split.
  - apply ctor_validate_Throw. unfold ctor_validate. munfold. simpl.
    rewrite Hselect.
    assert (needsInnerTargetTable query
            && bool_decide (ASTCreateQuery.storage query = None) = false) as ->.
    { destruct (needsInnerTargetTable query); [|done]. simpl.
      apply bool_decide_eq_false. by destruct Hstorage as [storage ->]. }
    simpl. rewrite Hanalysed. simpl. rewrite Hsource. simpl.
    apply N.eqb_neq in Hmax. apply N.leb_le in Hcount. rewrite Hmax, Hcount.
    reflexivity.
  - done.
Qed.

Lemma ctor_check_scratch_create_query_cases (scratch_create_query : ASTCreateQuery.t) st :
  let regular :=
    negb (ASTCreateQuery.is_dictionary scratch_create_query
          || ASTCreateQuery.is_ordinary_view scratch_create_query
          || ASTCreateQuery.is_materialized_view scratch_create_query
          || ASTCreateQuery.is_live_view scratch_create_query
          || ASTCreateQuery.is_window_view scratch_create_query) in
  (ctor_check_scratch_create_query scratch_create_query st).2 = st
  ∧ match (ctor_check_scratch_create_query scratch_create_query st).1 with
    | Ok _ => scratch_create_query_accepted scratch_create_query (world st)
    | Throw e =>
        (regular = false ∧ code e = BAD_ARGUMENTS)
        ∨ (regular = true ∧ code e = LOGICAL_ERROR
           ∧ (ASTCreateQuery.storage scratch_create_query ≫= ASTStorage.engine) = None)
        ∨ (regular = true ∧ code e = UNKNOWN_STORAGE
           ∧ ∃ engine_name,
               (ASTCreateQuery.storage scratch_create_query ≫= ASTStorage.engine)
               = Some engine_name
               ∧ ext_tryGetFeatures engine_name (world st) = None)
        ∨ (regular = true ∧ code e = NOT_IMPLEMENTED
           ∧ ∃ storage engine_name features,
               ASTCreateQuery.storage scratch_create_query = Some storage
               ∧ ASTStorage.engine storage = Some engine_name
               ∧ ext_tryGetFeatures engine_name (world st) = Some features
               ∧ (StorageFeatures.supports_moving_data_between_tables features = false
                  ∨ is_Some (ASTStorage.partition_by storage)
                  ∨ StorageFeatures.supports_replication features = true))
    end.
Proof.
  intros regular. split; [apply ctor_check_scratch_create_query_state|].
  subst regular. unfold ctor_check_scratch_create_query, scratch_create_query_accepted.
  munfold. simpl.
  destruct (ASTCreateQuery.is_dictionary _ || _ || _ || _ || _) eqn:Hirregular; simpl;
    [by left|].
  destruct (ASTCreateQuery.storage _) as [storage|] eqn:Hstorage; simpl;
    [|right; by left].
  destruct (ASTStorage.engine storage) as [engine_name|] eqn:Hengine; simpl;
    [|right; by left].
  destruct (ext_tryGetFeatures _ _) as [features|] eqn:Hfeatures; simpl;
    [|right; right; left; eauto].
  destruct (StorageFeatures.supports_moving_data_between_tables features) eqn:Hmoving;
    simpl; [|right; right; right; split_and!; [done..|]; eexists _, _, _; eauto 10].
  destruct (bool_decide (is_Some (ASTStorage.partition_by storage))) eqn:Hpartition; simpl.
  { apply bool_decide_eq_true in Hpartition.
    right; right; right; split_and!; [done..|]; eexists _, _, _; eauto 10. }
  destruct (StorageFeatures.supports_replication features) eqn:Hreplication; simpl;
    [right; right; right; split_and!; [done..|]; eexists _, _, _; eauto 10|].
  repeat (apply orb_false_iff in Hirregular as [Hirregular ?]).
  split_and!; [done..|]. eexists _, _, _. split_and!; [done..| |done].
  apply bool_decide_eq_false in Hpartition.
  by destruct (ASTStorage.partition_by storage); [destruct Hpartition|].
Qed.

(** The checks on the create query of the scratch table read the world
    only. They pass exactly for a regular table with a registered engine
    that supports moving data between tables, is not replicated and is not
    partitioned. Otherwise the exception tells why: BadArguments for a
    dictionary or a view, LogicalError for a missing storage clause or
    engine, UnknownStorage for an engine that is not registered,
    NotImplemented for an engine without support for moving data, for
    PARTITION BY and for a replicated engine. *)
Theorem ctor_check_scratch_create_query_spec (scratch_create_query : ASTCreateQuery.t) st :
  let regular :=
    negb (ASTCreateQuery.is_dictionary scratch_create_query
          || ASTCreateQuery.is_ordinary_view scratch_create_query
          || ASTCreateQuery.is_materialized_view scratch_create_query
          || ASTCreateQuery.is_live_view scratch_create_query
          || ASTCreateQuery.is_window_view scratch_create_query) in
  (ctor_check_scratch_create_query scratch_create_query st).2 = st
  ∧ match (ctor_check_scratch_create_query scratch_create_query st).1 with
    | Ok _ => scratch_create_query_accepted scratch_create_query (world st)
    | Throw e =>
        (regular = false ∧ code e = BAD_ARGUMENTS)
        ∨ (regular = true ∧ code e = LOGICAL_ERROR
           ∧ (ASTCreateQuery.storage scratch_create_query ≫= ASTStorage.engine) = None)
        ∨ (regular = true ∧ code e = UNKNOWN_STORAGE
           ∧ ∃ engine_name,
               (ASTCreateQuery.storage scratch_create_query ≫= ASTStorage.engine)
               = Some engine_name
               ∧ ext_tryGetFeatures engine_name (world st) = None)
        ∨ (regular = true ∧ code e = NOT_IMPLEMENTED
           ∧ ∃ storage engine_name features,
               ASTCreateQuery.storage scratch_create_query = Some storage
               ∧ ASTStorage.engine storage = Some engine_name
               ∧ ext_tryGetFeatures engine_name (world st) = Some features
               ∧ (StorageFeatures.supports_moving_data_between_tables features = false
                  ∨ is_Some (ASTStorage.partition_by storage)
                  ∨ StorageFeatures.supports_replication features = true))
    end.
Proof. apply ctor_check_scratch_create_query_cases. Qed.

Lemma ctor_prepare_Ok_inv query target st
    inner_target_create_query scratch_create_query empty :
  (ctor_prepare_inner_create_queries query target false st).1
  = Ok (inner_target_create_query, scratch_create_query, empty) →
  inner_target_create_query = ctor_inner_target_create_query query
  ∧ if needsScratchTable query
    then ∃ q,
        scratch_create_query = Some q
        ∧ (ctor_derive_scratch_create_query (ctor_inner_target_create_query query)
             target st).1 = Ok q
        ∧ scratch_create_query_accepted q (world st)
        ∧ empty = true
    else scratch_create_query = None
         ∧ empty = default_scratch_table_is_known_to_be_empty.
Proof.
  unfold ctor_prepare_inner_create_queries. simpl.
  destruct (needsScratchTable query); [|by intros [= <- <- <-]].
  unfold mbind at 1, M_bind at 1.
  assert ((ctor_derive_scratch_create_query (ctor_inner_target_create_query query)
             target st).2 = st) as Hst.
  { unfold ctor_derive_scratch_create_query. munfold.
    by destruct (ctor_inner_target_create_query query). }
  destruct (ctor_derive_scratch_create_query _ target st) as [[q|e] st1]; simpl in *;
    [|done].
  subst st1. unfold mbind at 1, M_bind at 1.
  destruct (ctor_check_scratch_create_query_cases q st) as [Hst Hcheck].
  destruct (ctor_check_scratch_create_query q st) as [[[]|e] st1]; simpl in *; [|done].
  subst st1. intros [= <- <- <-]. split; [done|]. by exists q.
Qed.

#[local] Arguments execute_inner_create : simpl never.

Lemma execute_inner_create_None id st :
  execute_inner_create None id st = (Ok id, st).
Proof. reflexivity. Qed.

(** Case analysis on the next [execute_inner_create] of the goal. *)
Ltac destruct_execute id st' H :=
  match goal with
  | |- context [execute_inner_create (Some ?q) ?i ?s] =>
      destruct (execute_inner_create (Some q) i s) as [[id|?] st'] eqn:H
  end.

Lemma ctor_create_inner_tables_Ok_inv mv_storage_id
    inner_target_create_query scratch_create_query target scratch st target' scratch' st' :
  ctor_create_inner_tables mv_storage_id inner_target_create_query scratch_create_query
    target scratch st = (Ok (target', scratch'), st') →
  log st' = log st
            ++ from_option (λ q, [EvCreate (ASTCreateQuery.set_identity q target)]) []
                 inner_target_create_query
            ++ from_option (λ q, [EvCreate (ASTCreateQuery.set_identity q scratch)]) []
                 scratch_create_query
  ∧ local st' = from_option (λ _, [target']) [] inner_target_create_query
                ++ from_option (λ _, [scratch']) [] scratch_create_query.
Proof.
  unfold ctor_create_inner_tables.
  unfold mbind at 1, M_bind at 1, set_local at 1. simpl.
  unfold try_catch at 1.
  match goal with
  | |- match ?body with _ => _ end = _ → _ =>
      destruct body as [[ids|e0] st_done] eqn:Hbody
  end.
  2:{ unfold mbind, M_bind.
      destruct (ctor_un_create_inner_tables mv_storage_id st_done) as [[[]|?] ?]; done. }
  intros [= -> <-]. revert Hbody. unfold mbind at 1, M_bind at 1.
  destruct inner_target_create_query as [tq|], scratch_create_query as [sq|]; simpl.
  - destruct_execute id1 st1 H1; [|done].
    unfold mbind at 1, M_bind at 1.
    destruct_execute id2 st2 H2; [|done].
    intros [= <- <- <-].
    destruct (execute_inner_create_Ok _ _ _ _ _ H1) as [Hlog1 Hlocal1].
    destruct (execute_inner_create_Ok _ _ _ _ _ H2) as [Hlog2 Hlocal2].
    simpl in *. by rewrite Hlog2, Hlog1, Hlocal2, Hlocal1, <- app_assoc.
  - destruct_execute id1 st1 H1; [|done].
    unfold mbind at 1, M_bind at 1. rewrite ?execute_inner_create_None.
    intros [= <- <- <-].
    destruct (execute_inner_create_Ok _ _ _ _ _ H1) as [Hlog1 Hlocal1].
    simpl in *. by rewrite Hlog1, Hlocal1.
  - rewrite ?execute_inner_create_None. unfold mbind at 1, M_bind at 1.
    destruct_execute id2 st2 H2; [|done].
    intros [= <- <- <-].
    destruct (execute_inner_create_Ok _ _ _ _ _ H2) as [Hlog2 Hlocal2].
    simpl in *. by rewrite Hlog2, Hlocal2.
  - rewrite ?execute_inner_create_None. unfold mbind at 1, M_bind at 1.
    rewrite ?execute_inner_create_None.
    intros [= <- <- <-]. simpl. by rewrite app_nil_r.
Qed.

Lemma ctor_Ok_creation_inv table_id_ query columns_ comment st view st' :
  StorageMaterializedView_ctor table_id_ query columns_ false comment st = (Ok view, st') →
  ∃ target scratch scratch_create_query,
    (ctor_bind_inner_table_ids table_id_ query st).1 = Ok (target, scratch)
    ∧ log st'
      = log st
        ++ (if needsInnerTargetTable query
            then [EvCreate (ASTCreateQuery.set_identity
                              (ASTCreateQuery.set_columns_list_and_storage
                                 ASTCreateQuery.make_shared
                                 (ASTCreateQuery.columns_list query)
                                 (ASTCreateQuery.storage query))
                              target)]
            else [])
        ++ (if needsScratchTable query
            then [EvCreate (ASTCreateQuery.set_identity scratch_create_query scratch)]
            else [])
    ∧ local st' = innerTables view
    ∧ (needsScratchTable query = true →
       scratch_create_query_accepted scratch_create_query (world st)
       ∧ scratch_table_is_known_to_be_empty view = true
       ∧ (needsInnerTargetTable query = true →
          scratch_create_query
          = ASTCreateQuery.set_columns_list_and_storage ASTCreateQuery.make_shared
              (ASTCreateQuery.columns_list query) (ASTCreateQuery.storage query))).
Proof.
  intros Hrun.
  destruct (ctor_Ok_inv _ _ _ _ _ _ _ _ Hrun)
    as (select & target & scratch & tq & sq & empty & target' & scratch'
        & _ & Hbind & Hprepare & Hcreate & ->).
  destruct (ctor_prepare_Ok_inv _ _ _ _ _ _ Hprepare) as [-> Hscratch].
  destruct (ctor_create_inner_tables_Ok_inv _ _ _ _ _ _ _ _ _ Hcreate) as [Hlog Hlocal].
  unfold innerTables. simpl. rewrite Hlog, Hlocal.
  unfold ctor_inner_target_create_query in *.
  destruct (needsScratchTable query).
  - destruct Hscratch as (q & -> & Hderive & Haccepted & ->).
    exists target, scratch, q. split_and!; [done| | |].
    + by destruct (needsInnerTargetTable query).
    + by destruct (needsInnerTargetTable query).
    + intros _. split_and!; [done..|]. intros Hinner. rewrite Hinner in Hderive.
      by injection Hderive as <-.
  - destruct Hscratch as [-> ->].
    exists target, scratch, ASTCreateQuery.make_shared. split_and!; [done| | |done].
    + by destruct (needsInnerTargetTable query).
    + by destruct (needsInnerTargetTable query).
Qed.

(** A creation that succeeds has asked for one CREATE per inner table the
    view needs, the target first and then the scratch table, each under the
    identity bound for it, and for nothing else: no DROP. The tables the
    catalog returned for them are the inner tables of the view. A scratch
    table is created only from a create query the checks accept, as a copy
    of the create query of the inner target when the target is inner, and
    is then known to be empty. *)
Theorem ctor_creates_the_inner_tables table_id_ query columns_ comment st view st' :
  StorageMaterializedView_ctor table_id_ query columns_ false comment st = (Ok view, st') →
  ∃ target scratch scratch_create_query,
    (ctor_bind_inner_table_ids table_id_ query st).1 = Ok (target, scratch)
    ∧ log st'
      = log st
        ++ (if needsInnerTargetTable query
            then [EvCreate (ASTCreateQuery.set_identity
                              (ASTCreateQuery.set_columns_list_and_storage
                                 ASTCreateQuery.make_shared
                                 (ASTCreateQuery.columns_list query)
                                 (ASTCreateQuery.storage query))
                              target)]
            else [])
        ++ (if needsScratchTable query
            then [EvCreate (ASTCreateQuery.set_identity scratch_create_query scratch)]
            else [])
    ∧ local st' = innerTables view
    ∧ (needsScratchTable query = true →
       scratch_create_query_accepted scratch_create_query (world st)
       ∧ scratch_table_is_known_to_be_empty view = true
       ∧ (needsInnerTargetTable query = true →
          scratch_create_query
          = ASTCreateQuery.set_columns_list_and_storage ASTCreateQuery.make_shared
              (ASTCreateQuery.columns_list query) (ASTCreateQuery.storage query))).
Proof. apply ctor_Ok_creation_inv. Qed.

Lemma dropped_by_app (events events' : list Event) :
  dropped_by (events ++ events') = dropped_by events ++ dropped_by events'.
Proof. apply omap_app. Qed.

Lemma created_by_app (events events' : list Event) :
  created_by (events ++ events') = created_by events ++ created_by events'.
Proof. apply omap_app. Qed.



End constructor_outcomes.

(** ** Pruning headers with distinct names *)

Section pruning_stable.
Implicit Types (b src target : Block) (c : ColumnWithTypeAndName).

Lemma filter_all_kept src b :
  (∀ c, c ∈ b → has src (name c) = true) →
  filter (λ c, has src (name c) = true) b = b.
Proof.
  induction b as [|c b IH]; intros Hall; [done|].
  rewrite filter_cons_True by (apply Hall; by left).
  f_equal. apply IH. intros c' Hc'. apply Hall. by right.
Qed.

(** The columns a pruning keeps all have a name of the source header, so
    pruning them again keeps them all. *)
Lemma filter_has_idemp src b :
  filter (λ c, has src (name c) = true) (filter (λ c, has src (name c) = true) b)
  = filter (λ c, has src (name c) = true) b.
Proof.
  apply filter_all_kept. intros c Hc. by apply list_elem_of_filter in Hc as [Hhas _].
Qed.

(** X10: for two headers with pairwise distinct column names, the pruning
    of [target] by [src] returns a header [target'] (it does not throw)
    which is a sub-sequence of [target], holds exactly the columns of
    [target] whose name [src] has, and has distinct names again; a header
    whose names are all in [src] is left as it is; pruning [target'] by
    [src] again returns [target'] unchanged; and the two headers that the
    reconciliation of [read] returns are left as they are by a second
    reconciliation. *)
Theorem removeNonCommonColumns_stable src target :
  NoDup (getNames src) → NoDup (getNames target) →
  ∃ target',
    removeNonCommonColumns src target = Some target'
    ∧ target' `sublist_of` target
    ∧ (∀ c, c ∈ target' ↔ c ∈ target ∧ has src (name c) = true)
    ∧ NoDup (getNames target')
    ∧ ((∀ c, c ∈ target → has src (name c) = true) → target' = target)
    ∧ removeNonCommonColumns src target' = Some target'
    ∧ ∃ src',
        reconcile_headers src target = Some (src', target')
        ∧ src' `sublist_of` src
        ∧ reconcile_headers src' target' = Some (src', target').
Proof.
  intros Hsrc Htarget.
  set (target' := filter (λ c, has src (name c) = true) target).
  set (src' := filter (λ c, has target (name c) = true) src).
  assert (NoDup (getNames target')) as Htarget' by by apply NoDup_getNames_filter.
  assert (NoDup (getNames src')) as Hsrc' by by apply NoDup_getNames_filter.
  assert (removeNonCommonColumns src target = Some target') as Hprune
    by by apply removeNonCommonColumns_filter.
  assert (removeNonCommonColumns target' src = Some src') as Hprune_src.
  { rewrite removeNonCommonColumns_filter by done. subst src' target'.
    by rewrite filter_has_filter. }
  assert (removeNonCommonColumns src' target' = Some target') as Hagain.
  { rewrite removeNonCommonColumns_filter by done. f_equal.
    apply filter_all_kept. intros c Hc. apply has_true.
    apply getNames_filter_has. apply list_elem_of_filter in Hc as [Hhas Hc].
    split; [by apply has_true|apply list_elem_of_fmap; eauto]. }
  assert (removeNonCommonColumns target' src' = Some src') as Hagain_src.
  { rewrite removeNonCommonColumns_filter by done. f_equal.
    apply filter_all_kept. intros c Hc. apply has_true.
    apply getNames_filter_has. apply list_elem_of_filter in Hc as [Hhas Hc].
    split; [by apply has_true|apply list_elem_of_fmap; eauto]. }
  exists target'. split_and!.
  - exact Hprune.
  - apply sublist_filter.
  - intros c. subst target'. rewrite list_elem_of_filter. tauto.
  - exact Htarget'.
  - intros Hall. by apply filter_all_kept.
  - rewrite removeNonCommonColumns_filter by done. f_equal. apply filter_has_idemp.
  - exists src'. split_and!.
    + unfold reconcile_headers. rewrite Hprune. simpl. by rewrite Hprune_src.
    + apply sublist_filter.
    + unfold reconcile_headers. rewrite Hagain. simpl. by rewrite Hagain_src.
Qed.
End pruning_stable.

(** ** Dropping, forwarding, renaming *)

Section lifecycle_properties.
Context {decls : Decls} {W : Type} {env : Env W} {lifecycle : Lifecycle W}.
Implicit Types (st : State W StorageMaterializedView) (this : StorageMaterializedView).

(** One run of the lambda: nothing when the table is not in the catalog,
    one DROP when it is. *)
Lemma drop_inner_table_run sync (id : StorageID.t) st :
  ∃ r st' events,
    drop_inner_table sync id st = (r, st')
    ∧ local st' = local st
    ∧ log st' = log st ++ events
    ∧ (events = [] ∧ r = Ok tt ∧ st' = st ∧ ext_tryGetTable id (world st) = None
       ∨ events = [EvExecuteDropQuery Drop id sync (Some true)
                     (Some (StorageID.qualified_name_lt (getStorageID (local st)) id))]
         ∧ is_Some (ext_tryGetTable id (world st))).
Proof.
  unfold drop_inner_table. munfold. simpl.
  destruct (ext_tryGetTable id (world st)) as [table|] eqn:Htable; simpl.
  - destruct (ext_executeDropQuery Drop id sync _ _ (world st)) as [r w1].
    eexists _, _, [_]. split; [done|]. split_and!; [done..|]. right. eauto.
  - eexists _, _, []. split; [done|]. rewrite app_nil_r. split_and!; [done..|].
    by left.
Qed.

Lemma dropInnerTableIfAny_run sync st :
  ∃ r st' events,
    dropInnerTableIfAny sync st = (r, st')
    ∧ local st' = local st
    ∧ log st' = log st ++ events
    ∧ dropped_by events `sublist_of` innerTables (local st)
    ∧ Forall (is_inner_drop sync) events
    ∧ ((∀ id, id ∈ innerTables (local st) → ext_tryGetTable id (world st) = None) →
       r = Ok tt ∧ st' = st).
Proof.
  unfold dropInnerTableIfAny, innerTables, getTargetTableId, getScratchTableId.
  unfold mbind at 1, M_bind at 1, get_local at 1.
  unfold mbind at 1, M_bind at 1.
  destruct (has_inner_target_table (local st)) eqn:Hinner.
  - destruct (drop_inner_table_run sync (target_table_id (local st)) st)
      as (r1 & st1 & events1 & -> & Hlocal1 & Hlog1 & Hcase1).
    destruct r1 as [[]|e1].
    + destruct (has_scratch_table (local st)) eqn:Hscratch.
      * destruct (drop_inner_table_run sync (scratch_table_id (local st)) st1)
          as (r2 & st2 & events2 & -> & Hlocal2 & Hlog2 & Hcase2).
        exists r2, st2, (events1 ++ events2).
        split_and!; [done|congruence|by rewrite Hlog2, Hlog1, app_assoc| | |].
        -- rewrite dropped_by_app.
           destruct Hcase1 as [(-> & _)|(-> & _)], Hcase2 as [(-> & _)|(-> & _)]; simpl;
             repeat first [done | apply sublist_skip | apply sublist_cons].
        -- apply Forall_app. split.
           ++ destruct Hcase1 as [(-> & _)|(-> & _)]; repeat constructor.
              by eexists _, _.
           ++ destruct Hcase2 as [(-> & _)|(-> & _)]; repeat constructor.
              by eexists _, _.
        -- intros Hnone.
           destruct Hcase1 as [(-> & _ & -> & _)|(_ & Hsome)].
           2:{ rewrite Hnone in Hsome; [by destruct Hsome|]. by left. }
           destruct Hcase2 as [(-> & -> & -> & _)|(_ & Hsome)]; [done|].
           rewrite Hnone in Hsome; [by destruct Hsome|]. right. by left.
      * exists (Ok tt), st1, events1. split_and!; [done..| | |].
        -- rewrite app_nil_r.
           destruct Hcase1 as [(-> & _)|(-> & _)]; simpl;
             repeat first [done | apply sublist_skip | apply sublist_cons].
        -- destruct Hcase1 as [(-> & _)|(-> & _)]; repeat constructor.
           by eexists _, _.
        -- intros Hnone.
           destruct Hcase1 as [(-> & _ & -> & _)|(_ & Hsome)]; [done|].
           rewrite Hnone in Hsome; [by destruct Hsome|]. by left.
    + exists (Throw e1), st1, events1. split_and!; [done..| | |].
      * destruct Hcase1 as [(-> & _)|(-> & _)]; simpl;
          [apply sublist_nil_l|apply sublist_skip, sublist_nil_l].
      * destruct Hcase1 as [(-> & _)|(-> & _)]; repeat constructor. by eexists _, _.
      * intros Hnone. destruct Hcase1 as [(_ & [=] & _)|(_ & Hsome)].
        rewrite Hnone in Hsome; [by destruct Hsome|]. by left.
  - change ((mret () : M StorageMaterializedView ()) st) with (Ok (), st).
    destruct (has_scratch_table (local st)) eqn:Hscratch.
    + destruct (drop_inner_table_run sync (scratch_table_id (local st)) st)
        as (r2 & st2 & events2 & -> & Hlocal2 & Hlog2 & Hcase2).
      exists r2, st2, events2. split_and!; [done..| | |].
      * destruct Hcase2 as [(-> & _)|(-> & _)]; simpl;
          repeat first [done | apply sublist_skip | apply sublist_cons].
      * destruct Hcase2 as [(-> & _)|(-> & _)]; repeat constructor. by eexists _, _.
      * intros Hnone. destruct Hcase2 as [(-> & -> & -> & _)|(_ & Hsome)]; [done|].
        rewrite Hnone in Hsome; [by destruct Hsome|]. by left.
    + exists (Ok tt), st, []. rewrite app_nil_r. simpl. by split_and!.
Qed.

(** [dropInnerTableIfAny] never changes the fields of the object and calls
    nothing but DROP: at most one for the inner target and then one for the
    scratch table, never for an external TO-clause target, each with the
    [sync] it was given and with [ignore_sync_setting] set. When none of the
    inner tables is in the catalog it returns without calling anything. *)
Theorem dropInnerTableIfAny_drops_inner_tables_only sync st :
  ∃ r st' events,
    dropInnerTableIfAny sync st = (r, st')
    ∧ local st' = local st
    ∧ log st' = log st ++ events
    ∧ dropped_by events `sublist_of` innerTables (local st)
    ∧ Forall (is_inner_drop sync) events
    ∧ ((∀ id, id ∈ innerTables (local st) → ext_tryGetTable id (world st) = None) →
       r = Ok tt ∧ st' = st).
Proof. apply dropInnerTableIfAny_run. Qed.

(** [drop] never asks for a synchronous DROP: whatever it issues is a DROP
    of an inner table with [sync] false and [ignore_sync_setting] set, and
    if removing the dependency of the source table throws, no table is
    dropped at all. *)
Theorem drop_is_never_synchronous st :
  ∃ r st' events,
    drop st = (r, st')
    ∧ local st' = local st
    ∧ log st' = log st ++ events
    ∧ Forall (is_inner_drop false) events
    ∧ dropped_by events `sublist_of` innerTables (local st)
    ∧ let source := SelectQueryDescription.select_table_id
                      (StorageInMemoryMetadata.select (getInMemoryMetadata (local st))) in
      match StorageID.empty source,
            (ext_removeViewDependency source (getStorageID (local st)) (world st)).1 with
      | false, Throw e => r = Throw e ∧ events = []
      | _, _ => True
      end.
Proof.
  unfold drop. unfold mbind at 1, M_bind at 1, get_local at 1.
  unfold mbind at 1, M_bind at 1.
  destruct (StorageID.empty _) eqn:Hsource; simpl.
  - destruct (dropInnerTableIfAny_run false st)
      as (r & st' & events & Hrun & Hlocal & Hlog & Hsub & Hall & _).
    exists r, st', events. by split_and!.
  - unfold act.
    destruct (ext_removeViewDependency _ _ (world st)) as [[[]|e0] w1] eqn:Hremove.
    + destruct (dropInnerTableIfAny_run false
                  (mkState w1 (log st) (local st)))
        as (r & st' & events & -> & Hlocal & Hlog & Hsub & Hall & _).
      exists r, st', events. by split_and!.
    + exists (Throw e0), (mkState w1 (log st) (local st)), [].
      rewrite app_nil_r. split_and!; [done..|apply sublist_nil_l|done].
Qed.

(** A statement that has to be forwarded ([optimize], [mutate],
    [alterPartition] and the two checks before them) fails with
    IncorrectQuery on a view over an external TO-clause table; on a view
    whose inner target is missing from the catalog it fails with the
    exception of the catalog lookup; in both cases nothing has been called
    and nothing has changed. Otherwise it is run on the table the catalog
    returns for the target identity. *)
Theorem forwarded_statements_need_inner_target st query arguments commands :
  let this := local st in
  match has_inner_target_table this, ext_getTable (target_table_id this) (world st) with
  | false, _ =>
      ∃ e, code e = INCORRECT_QUERY
           ∧ optimize query arguments st = (Throw e, st)
           ∧ mutate commands st = (Throw e, st)
           ∧ alterPartition commands st = (Throw e, st)
           ∧ checkMutationIsPossible commands st = (Throw e, st)
           ∧ checkAlterPartitionIsPossible commands st = (Throw e, st)
  | true, Throw e =>
      optimize query arguments st = (Throw e, st)
      ∧ mutate commands st = (Throw e, st)
      ∧ alterPartition commands st = (Throw e, st)
      ∧ checkMutationIsPossible commands st = (Throw e, st)
      ∧ checkAlterPartitionIsPossible commands st = (Throw e, st)
  | true, Ok table =>
      optimize query arguments st
      = ((ext_optimize table query arguments (world st)).1,
         mkState (ext_optimize table query arguments (world st)).2 (log st) this)
      ∧ mutate commands st
        = ((ext_mutate table commands (world st)).1,
           mkState (ext_mutate table commands (world st)).2 (log st) this)
      ∧ alterPartition commands st
        = ((ext_alterPartition table commands (world st)).1,
           mkState (ext_alterPartition table commands (world st)).2 (log st) this)
      ∧ checkMutationIsPossible commands st
        = (ext_checkMutationIsPossible table commands (world st), st)
      ∧ checkAlterPartitionIsPossible commands st
        = (ext_checkAlterPartitionIsPossible table commands (world st), st)
  end.
Proof.
  intros this. subst this.
  unfold optimize, mutate, alterPartition, checkMutationIsPossible,
    checkAlterPartitionIsPossible, checkStatementCanBeForwarded, getTargetTable,
    getTargetTableId, act.
  munfold. simpl.
  destruct (has_inner_target_table (local st)); simpl.
  - destruct (ext_getTable _ _) as [table|e]; [|done].
    destruct (ext_optimize _ _ _ _), (ext_mutate _ _ _), (ext_alterPartition _ _ _).
    destruct st. done.
  - eexists (mkException INCORRECT_QUERY _). split_and!; reflexivity.
Qed.

(** Whether [renameInMemory] renames the inner tables: the database
    changes, or the old or the new identity has no UUID. *)
Lemma rename_not_needed_same_names (old_table_id new_table_id : StorageID.t) scratch :
  negb (bool_decide (StorageID.database_name new_table_id
                     = StorageID.database_name old_table_id))
  || negb (StorageID.hasUUID old_table_id)
  || negb (StorageID.hasUUID new_table_id) = false →
  StorageID.uuid new_table_id = StorageID.uuid old_table_id →
  StorageID.database_name new_table_id = StorageID.database_name old_table_id
  ∧ generateInnerTableName new_table_id scratch
    = generateInnerTableName old_table_id scratch.
Proof.
  intros Hneeded Huuid.
  apply orb_false_iff in Hneeded as [Hneeded Hnew].
  apply orb_false_iff in Hneeded as [Hdatabase Hold].
  apply negb_false_iff in Hnew, Hold, Hdatabase.
  apply bool_decide_eq_true in Hdatabase. split; [done|].
  unfold generateInnerTableName. by rewrite Hnew, Hold, Huuid.
Qed.

(** A rename keeps the inner tables named after the view. If the inner
    tables carry the names minted from the identity of the view, the
    inner target, when there is one, is in the catalog, and the new
    identity has the UUID of the old one, then after a [renameInMemory]
    that returns the view has the new identity, the inner tables carry the
    names minted from it, in the new database, with the UUIDs they had, and
    the log is as before. When the inner tables had to be renamed, the
    RENAME query that ran listed the target and then the scratch table,
    from their old names to the new ones. *)
Theorem renameInMemory_keeps_inner_names_minted st new_table_id st' :
  inner_names_minted (local st) →
  StorageID.uuid new_table_id = StorageID.uuid (getStorageID (local st)) →
  (has_inner_target_table (local st) = true →
   is_Some (ext_tryGetTable (target_table_id (local st)) (world st))) →
  renameInMemory new_table_id st = (Ok tt, st') →
  let this := local st in
  getStorageID (local st') = new_table_id
  ∧ inner_names_minted (local st')
  ∧ StorageID.uuid (target_table_id (local st')) = StorageID.uuid (target_table_id this)
  ∧ StorageID.uuid (scratch_table_id (local st')) = StorageID.uuid (scratch_table_id this)
  ∧ has_inner_target_table (local st') = has_inner_target_table this
  ∧ has_scratch_table (local st') = has_scratch_table this
  ∧ log st' = log st
  ∧ (negb (bool_decide (StorageID.database_name new_table_id
                        = StorageID.database_name (getStorageID this)))
     || negb (StorageID.hasUUID (getStorageID this))
     || negb (StorageID.hasUUID new_table_id) = true →
     (ext_InterpreterRenameQuery_execute
        ((if has_inner_target_table this
          then [mkRenameElement (StorageID.database_name (target_table_id this))
                  (StorageID.table_name (target_table_id this))
                  (StorageID.database_name new_table_id)
                  (generateInnerTableName new_table_id false)]
          else [])
         ++ (if has_scratch_table this
             then [mkRenameElement (StorageID.database_name (scratch_table_id this))
                     (StorageID.table_name (scratch_table_id this))
                     (StorageID.database_name new_table_id)
                     (generateInnerTableName new_table_id true)]
             else []))
        (world st)).1 = Ok tt).
Proof.
  intros [Htarget_minted Hscratch_minted] Huuid Hexists. simpl.
  unfold renameInMemory. unfold mbind at 1, M_bind at 1, get_local at 1.
  unfold mbind at 1, M_bind at 1.
  destruct (negb _ || _ || _) eqn:Hneeded.
  - unfold rename_inner_tables, tryGetTargetTable, getTargetTableId, getScratchTableId, act.
    munfold. simpl.
    destruct (has_inner_target_table (local st)) eqn:Hinner; simpl.
    + destruct (Hexists eq_refl) as [table ->]. simpl.
      destruct (has_scratch_table (local st)) eqn:Hscratch; simpl.
      * destruct (ext_InterpreterRenameQuery_execute _ _) as [[[]|?] w1]; simpl; [|done].
        destruct (ext_updateViewDependency _ _ _ _ _) as [[[]|?] w2]; simpl; [|done].
        destruct (bool_decide (is_Some (refresher (local st)))); simpl.
        -- destruct (ext_refresher_rename _ _) as [[[]|?] w3]; simpl; [|done].
           intros [= <-]. unfold inner_names_minted. simpl. by split_and!.
        -- intros [= <-]. unfold inner_names_minted. simpl. by split_and!.
      * destruct (ext_InterpreterRenameQuery_execute _ _) as [[[]|?] w1]; simpl; [|done].
        destruct (ext_updateViewDependency _ _ _ _ _) as [[[]|?] w2]; simpl; [|done].
        destruct (bool_decide (is_Some (refresher (local st)))); simpl.
        -- destruct (ext_refresher_rename _ _) as [[[]|?] w3]; simpl; [|done].
           intros [= <-]. unfold inner_names_minted. simpl. rewrite Hscratch.
           by split_and!.
        -- intros [= <-]. unfold inner_names_minted. simpl. rewrite Hscratch.
           by split_and!.
    + destruct (has_scratch_table (local st)) eqn:Hscratch; simpl.
      * destruct (ext_InterpreterRenameQuery_execute _ _) as [[[]|?] w1]; simpl; [|done].
        destruct (ext_updateViewDependency _ _ _ _ _) as [[[]|?] w2]; simpl; [|done].
        destruct (bool_decide (is_Some (refresher (local st)))); simpl.
        -- destruct (ext_refresher_rename _ _) as [[[]|?] w3]; simpl; [|done].
           intros [= <-]. unfold inner_names_minted. simpl. rewrite Hinner.
           by split_and!.
        -- intros [= <-]. unfold inner_names_minted. simpl. rewrite Hinner.
           by split_and!.
      * destruct (ext_InterpreterRenameQuery_execute _ _) as [[[]|?] w1]; simpl; [|done].
        destruct (ext_updateViewDependency _ _ _ _ _) as [[[]|?] w2]; simpl; [|done].
        destruct (bool_decide (is_Some (refresher (local st)))); simpl.
        -- destruct (ext_refresher_rename _ _) as [[[]|?] w3]; simpl; [|done].
           intros [= <-]. unfold inner_names_minted. simpl. rewrite Hinner, Hscratch.
           by split_and!.
        -- intros [= <-]. unfold inner_names_minted. simpl. rewrite Hinner, Hscratch.
           by split_and!.
  - unfold act. munfold. simpl.
    assert (inner_names_minted (set_storage_id (local st) new_table_id)) as Hminted.
    { unfold inner_names_minted. simpl. split.
      - intros Hinner. destruct (Htarget_minted Hinner) as [Hdatabase Hname].
        destruct (rename_not_needed_same_names _ _ false Hneeded Huuid) as [-> ->]. done.
      - intros Hscratch. destruct (Hscratch_minted Hscratch) as [Hdatabase Hname].
        destruct (rename_not_needed_same_names _ _ true Hneeded Huuid) as [-> ->]. done. }
    destruct (ext_updateViewDependency _ _ _ _ _) as [[[]|?] w2]; simpl; [|done].
    destruct (bool_decide (is_Some (refresher (local st)))); simpl.
    + destruct (ext_refresher_rename _ _) as [[[]|?] w3]; simpl; [|done].
      intros [= <-]. simpl. by split_and!.
    + intros [= <-]. simpl. by split_and!.
Qed.

(** The edge of the rename: when the inner tables have to be renamed and
    the inner target is not in the catalog, the RENAME query does not list
    it and the view keeps the old identity of its target, while the scratch
    table gets its new name. *)
Theorem renameInMemory_missing_target_keeps_old_identity st new_table_id st' :
  has_inner_target_table (local st) = true →
  ext_tryGetTable (target_table_id (local st)) (world st) = None →
  negb (bool_decide (StorageID.database_name new_table_id
                     = StorageID.database_name (getStorageID (local st))))
  || negb (StorageID.hasUUID (getStorageID (local st)))
  || negb (StorageID.hasUUID new_table_id) = true →
  renameInMemory new_table_id st = (Ok tt, st') →
  target_table_id (local st') = target_table_id (local st)
  ∧ (has_scratch_table (local st) = true →
     StorageID.database_name (scratch_table_id (local st'))
     = StorageID.database_name new_table_id
     ∧ StorageID.table_name (scratch_table_id (local st'))
       = generateInnerTableName new_table_id true)
  ∧ (ext_InterpreterRenameQuery_execute
       (if has_scratch_table (local st)
        then [mkRenameElement (StorageID.database_name (scratch_table_id (local st)))
                (StorageID.table_name (scratch_table_id (local st)))
                (StorageID.database_name new_table_id)
                (generateInnerTableName new_table_id true)]
        else [])
       (world st)).1 = Ok tt.
Proof.
  intros Hinner Hmissing Hneeded.
  unfold renameInMemory. unfold mbind at 1, M_bind at 1, get_local at 1.
  unfold mbind at 1, M_bind at 1. rewrite Hneeded.
  unfold rename_inner_tables, tryGetTargetTable, getTargetTableId, getScratchTableId, act.
  munfold. simpl. rewrite Hinner. simpl. rewrite Hmissing. simpl.
  destruct (has_scratch_table (local st)) eqn:Hscratch; simpl.
  - destruct (ext_InterpreterRenameQuery_execute _ _) as [[[]|?] w1]; simpl; [|done].
    destruct (ext_updateViewDependency _ _ _ _ _) as [[[]|?] w2]; simpl; [|done].
    destruct (bool_decide (is_Some (refresher (local st)))); simpl.
    + destruct (ext_refresher_rename _ _) as [[[]|?] w3]; simpl; [|done].
      by intros [= <-].
    + by intros [= <-].
  - destruct (ext_InterpreterRenameQuery_execute _ _) as [[[]|?] w1]; simpl; [|done].
    destruct (ext_updateViewDependency _ _ _ _ _) as [[[]|?] w2]; simpl; [|done].
    destruct (bool_decide (is_Some (refresher (local st)))); simpl.
    + destruct (ext_refresher_rename _ _) as [[[]|?] w3]; simpl; [|done].
      by intros [= <-].
    + by intros [= <-].
Qed.
End lifecycle_properties.

(** ** Refresh cycles, and the first steps of a new view *)

Section refresh_cycle.
Context {decls : Decls} {W : Type} {env : Env W}.
Implicit Types (st : State W StorageMaterializedView) (this : StorageMaterializedView).

(** Without a scratch table, or with one known to be empty, whatever
    [prepareRefresh] returns it has asked for the sample block and for
    nothing else. *)
Lemma prepareRefresh_without_truncate ctx st :
  has_scratch_table (local st) && negb (scratch_table_is_known_to_be_empty (local st))
  = false →
  log (prepareRefresh ctx st).2
  = log st ++ [EvGetSampleBlock (Context.allow_experimental_analyzer ctx)
                 (refresh_select (local st))]
  ∧ world (prepareRefresh ctx st).2 = world st.
Proof.
  intros Hcond. unfold prepareRefresh, refresh_select. munfold. simpl.
  rewrite Hcond. simpl. by destruct (ext_getSampleBlock _ _ _).
Qed.

(** With a scratch table not known to be empty, a returning
    [prepareRefresh] has locked and truncated it first. *)
Lemma prepareRefresh_with_truncate ctx st insert_query st' :
  has_scratch_table (local st) = true →
  scratch_table_is_known_to_be_empty (local st) = false →
  prepareRefresh ctx st = (Ok insert_query, st') →
  ∃ scratch,
    ext_getTable (scratch_table_id (local st)) (world st) = Ok scratch
    ∧ log st' = log st ++
        [EvLockExclusively scratch (Context.getCurrentQueryId ctx)
           (Context.lock_acquire_timeout ctx);
         EvTruncate scratch;
         EvGetSampleBlock (Context.allow_experimental_analyzer ctx)
           (refresh_select (local st))].
Proof.
  intros Hscratch Hempty.
  unfold prepareRefresh, getScratchTable, getScratchTableId, refresh_select.
  munfold. simpl. rewrite Hscratch, Hempty. simpl.
  destruct (ext_getTable _ _) as [scratch|?]; [|done].
  destruct (ext_lockExclusively _ _ _ _) as [[[]|?] w1]; simpl; [|done].
  destruct (ext_truncate _ _) as [[[]|?] w2]; simpl; [|done].
  destruct (ext_getSampleBlock _ _ _); simpl; [|done].
  intros [= _ <-]. exists scratch. simpl. by rewrite <- !app_assoc.
Qed.

Lemma transferRefreshedData_Ok_local st st' :
  has_scratch_table (local st) = true →
  transferRefreshedData st = (Ok tt, st') →
  local st' = set_scratch_table_is_known_to_be_empty (local st) true.
Proof.
  intros Hscratch. unfold transferRefreshedData, getTargetTable, getScratchTable.
  munfold. simpl. rewrite Hscratch. simpl.
  destruct (ext_getTable _ _) as [target|?]; [|done].
  destruct (ext_getTable _ _) as [scratch|?]; [|done].
  destruct (ext_transferAllDataFrom _ _ _ _ _) as [[[]|?] w1]; simpl; [|done].
  by intros [= <-].
Qed.

(** The refresh cycle of a view with a scratch table, the insert and
    anything else that happens between two steps being a change of the
    world. After a [prepareRefresh] that returned: (1) if the insert fails,
    so that no transfer follows, the next [prepareRefresh] that returns has
    locked and truncated the scratch table again; (2) if a transfer
    follows and returns, the next [prepareRefresh] asks for the sample
    block only: the scratch table is not truncated a second time. *)
Theorem refresh_cycle_truncates_only_after_failure ctx st insert_query st1 :
  has_scratch_table (local st) = true →
  prepareRefresh ctx st = (Ok insert_query, st1) →
  (∀ w ctx' insert_query' st2,
     prepareRefresh ctx' (mkState w (log st1) (local st1)) = (Ok insert_query', st2) →
     ∃ scratch,
       ext_getTable (scratch_table_id (local st)) w = Ok scratch
       ∧ log st2 = log st1 ++
           [EvLockExclusively scratch (Context.getCurrentQueryId ctx')
              (Context.lock_acquire_timeout ctx');
            EvTruncate scratch;
            EvGetSampleBlock (Context.allow_experimental_analyzer ctx')
              (refresh_select (local st))])
  ∧ (∀ w st2 w' ctx',
       transferRefreshedData (mkState w (log st1) (local st1)) = (Ok tt, st2) →
       log (prepareRefresh ctx' (mkState w' (log st2) (local st2))).2
       = log st2 ++ [EvGetSampleBlock (Context.allow_experimental_analyzer ctx')
                       (refresh_select (local st))]).
Proof.
  intros Hscratch Hprepare.
  pose proof (prepareRefresh_Ok_local _ _ _ _ Hprepare) as Hlocal1.
  split.
  - intros w ctx' insert_query' st2 Hagain.
    apply prepareRefresh_with_truncate in Hagain; simpl; [|by rewrite Hlocal1..].
    simpl in Hagain. by rewrite Hlocal1 in Hagain.
  - intros w st2 w' ctx' Htransfer.
    apply transferRefreshedData_Ok_local in Htransfer; simpl; [|by rewrite Hlocal1].
    simpl in Htransfer.
    destruct (prepareRefresh_without_truncate ctx' (mkState w' (log st2) (local st2)))
      as [Hlog _]; simpl.
    + rewrite Htransfer. simpl. apply andb_false_r.
    + rewrite Hlog. simpl. by rewrite Htransfer, Hlocal1.
Qed.

(** The first refresh of a view that has just been created does not
    truncate: the constructor has marked the new scratch table empty. *)
Theorem first_refresh_after_creation_does_not_truncate
    table_id_ query columns_ comment (st0 : State W (list StorageID.t)) view st0' w ctx :
  StorageMaterializedView_ctor table_id_ query columns_ false comment st0 = (Ok view, st0') →
  log (prepareRefresh ctx (mkState w (log st0') view)).2
  = log st0' ++ [EvGetSampleBlock (Context.allow_experimental_analyzer ctx)
                   (refresh_select view)].
Proof.
  intros Hrun.
  destruct (ctor_Ok_creation_inv _ _ _ _ _ _ _ Hrun)
    as (target & scratch & sq & _ & _ & _ & Hscratch).
  destruct (ctor_Ok_inv _ _ _ _ _ _ _ _ Hrun)
    as (select & ? & ? & tq & sq' & empty & target' & scratch' & _ & _ & _ & _ & Hview).
  apply prepareRefresh_without_truncate. simpl.
  destruct (has_scratch_table view) eqn:Hhas; [|done].
  assert (needsScratchTable query = true) as Hneeds by (by rewrite Hview in Hhas).
  destruct (Hscratch Hneeds) as (_ & -> & _). done.
Qed.
End refresh_cycle.

Section drop_after_create.
Context {decls : Decls} {W : Type} {env : Env W} {lifecycle : Lifecycle W}.

(** Dropping the inner tables of a view that has just been created asks
    to drop tables that its constructor created, and no other. *)
Theorem drop_after_creation_drops_created_tables
    table_id_ query columns_ comment (st0 : State W (list StorageID.t)) view st0' w sync :
  StorageMaterializedView_ctor table_id_ query columns_ false comment st0 = (Ok view, st0') →
  ∃ r st' events,
    dropInnerTableIfAny sync (mkState w (log st0') view) = (r, st')
    ∧ log st' = log st0' ++ events
    ∧ dropped_by events `sublist_of` local st0'
    ∧ Forall (is_inner_drop sync) events.
Proof.
  intros Hrun.
  destruct (ctor_Ok_creation_inv _ _ _ _ _ _ _ Hrun)
    as (target & scratch & sq & _ & Hlog & Hlocal & _).
  destruct (dropInnerTableIfAny_run sync (mkState w (log st0') view))
    as (r & st' & events & Hdrop & _ & Hlog' & Hsub & Hall & _).
  exists r, st', events. simpl in *. split_and!; [done..|by rewrite Hlocal|done].
Qed.
End drop_after_create.

(** ** More properties on the concrete world *)

Lemma ctor_Ok_validated_witness :
  ¬ points_to_itself Demo.view_id Demo.refreshable_query
  ∧ has_scratch_table DemoLifecycle.created_view
    = needsScratchTable (Decls := Demo.decls) Demo.refreshable_query.
Proof.
  destruct (ctor_Ok_validated (decls := Demo.decls) (env := Demo.env)
              Demo.view_id Demo.refreshable_query Demo.header_ab false ""
              (mkState Demo.empty_world [] [])
              DemoLifecycle.created_view DemoLifecycle.created_state
              ltac:(vm_compute; reflexivity))
    as (_ & _ & Hself & _ & _ & _ & _ & Hscratch & _).
  split; [exact Hself|exact Hscratch].
Defined.

Lemma ctor_rejects_self_reference_witness :
  ∃ e,
    StorageMaterializedView_ctor (decls := Demo.decls) (env := Demo.env) Demo.view_id
      DemoLifecycle.create_view_to_itself Demo.header_ab true ""
      (mkState Demo.world_to [] [])
    = (Throw e, mkState Demo.world_to [] [])
    ∧ code e = BAD_ARGUMENTS.
Proof.
  apply (ctor_rejects_self_reference (decls := Demo.decls) (env := Demo.env)
           Demo.view_id DemoLifecycle.create_view_to_itself Demo.header_ab true ""
           (mkState Demo.world_to [] []) Demo.select_text
           (SelectQueryDescription.mk (StorageID.make "db" "src") Demo.select_text)).
  - reflexivity.
  - vm_compute. discriminate.
  - reflexivity.
  - intros _. left. reflexivity.
  - right. split; reflexivity.
Defined.

Lemma ctor_rejects_too_many_views_witness :
  ∃ e,
    StorageMaterializedView_ctor (decls := Demo.decls) (env := DemoLifecycle.capped_env)
      Demo.view_id Demo.refreshable_query Demo.header_ab false ""
      (mkState Demo.empty_world [] [])
    = (Throw e, mkState Demo.empty_world [] [])
    ∧ code e = TOO_MANY_MATERIALIZED_VIEWS.
Proof.
  apply (ctor_rejects_too_many_views (decls := Demo.decls) (env := DemoLifecycle.capped_env)
           Demo.view_id Demo.refreshable_query Demo.header_ab false ""
           (mkState Demo.empty_world [] []) Demo.select_text
           (SelectQueryDescription.mk (StorageID.make "db" "src") Demo.select_text)).
  - reflexivity.
  - intros _. by eexists.
  - reflexivity.
  - reflexivity.
  - discriminate.
  - vm_compute. discriminate.
Defined.

Lemma ctor_creates_the_inner_tables_witness :
  ∃ target scratch scratch_create_query,
    (ctor_bind_inner_table_ids (decls := Demo.decls) Demo.view_id Demo.refreshable_query
       (mkState Demo.empty_world [] [])).1 = Ok (target, scratch)
    ∧ log DemoLifecycle.created_state
      = [EvCreate (ASTCreateQuery.set_identity Demo.inner_create_query target)]
        ++ [EvCreate (ASTCreateQuery.set_identity scratch_create_query scratch)]
    ∧ local DemoLifecycle.created_state = innerTables DemoLifecycle.created_view.
Proof.
  destruct (ctor_creates_the_inner_tables (decls := Demo.decls) (env := Demo.env)
              Demo.view_id Demo.refreshable_query Demo.header_ab ""
              (mkState Demo.empty_world [] [])
              DemoLifecycle.created_view DemoLifecycle.created_state
              ltac:(vm_compute; reflexivity))
    as (target & scratch & scratch_create_query & Hbind & Hlog & Hlocal & _).
  exists target, scratch, scratch_create_query.
  split_and!; [exact Hbind|exact Hlog|exact Hlocal].
Defined.


(** A target header with only names of the view's header is not touched,
    even with the repeated name. *)
Lemma removeNonCommonColumns_stable_witness :
  ∃ target',
    removeNonCommonColumns Demo.header_abc Demo.header_dba = Some target'
    ∧ target' `sublist_of` Demo.header_dba
    ∧ (∀ c, c ∈ target' ↔ c ∈ Demo.header_dba ∧ has Demo.header_abc (name c) = true)
    ∧ NoDup (getNames target')
    ∧ ((∀ c, c ∈ Demo.header_dba → has Demo.header_abc (name c) = true)
       → target' = Demo.header_dba)
    ∧ removeNonCommonColumns Demo.header_abc target' = Some target'
    ∧ ∃ src',
        reconcile_headers Demo.header_abc Demo.header_dba = Some (src', target')
        ∧ src' `sublist_of` Demo.header_abc
        ∧ reconcile_headers src' target' = Some (src', target').
Proof.
  apply (removeNonCommonColumns_stable Demo.header_abc Demo.header_dba);
    apply (bool_decide_unpack _); reflexivity.
Defined.

(** The inner tables are not in the catalog: nothing is dropped. *)
Lemma dropInnerTableIfAny_drops_inner_tables_only_witness :
  dropInnerTableIfAny (env := Demo.env) true
    (mkState Demo.empty_world [] Demo.refreshable_view)
  = (Ok tt, mkState Demo.empty_world [] Demo.refreshable_view).
Proof.
  destruct (dropInnerTableIfAny_drops_inner_tables_only (env := Demo.env) true
              (mkState Demo.empty_world [] Demo.refreshable_view))
    as (r & st' & events & Hrun & _ & _ & _ & _ & Hnone).
  rewrite Hrun. destruct Hnone as [-> ->]; [|reflexivity].
  intros id Hid. repeat (apply elem_of_cons in Hid as [->|Hid]; [reflexivity|]).
  by apply elem_of_nil in Hid.
Defined.

(** They are in the catalog: the target, then the scratch table. *)
Example dropInnerTableIfAny_demo :
  dropInnerTableIfAny (env := Demo.env) true Demo.before_prepare
  = (Ok tt,
     mkState Demo.empty_world
       [EvExecuteDropQuery Drop Demo.target_id true (Some true) (Some false);
        EvExecuteDropQuery Drop Demo.scratch_id true (Some true) (Some false)]
       Demo.refreshable_view).
Proof. vm_compute. reflexivity. Qed.

Lemma renameInMemory_keeps_inner_names_minted_witness :
  getStorageID DemoLifecycle.renamed_view = StorageID.make "other" "w"
  ∧ inner_names_minted (decls := Demo.decls) DemoLifecycle.renamed_view.
Proof.
  destruct (renameInMemory_keeps_inner_names_minted (decls := Demo.decls)
              (env := Demo.env) (lifecycle := DemoLifecycle.lifecycle)
              (mkState DemoLifecycle.named_world [] DemoLifecycle.named_view)
              (StorageID.make "other" "w")
              (mkState DemoLifecycle.renamed_world [] DemoLifecycle.renamed_view))
    as (Hid & Hminted & _).
  - split; intros _; split; reflexivity.
  - reflexivity.
  - intros _. by eexists.
  - vm_compute. reflexivity.
  - split; [exact Hid|exact Hminted].
Defined.

Lemma renameInMemory_missing_target_keeps_old_identity_witness :
  ∃ st',
    renameInMemory (decls := Demo.decls) (env := Demo.env)
      (lifecycle := DemoLifecycle.lifecycle) (StorageID.make "other" "w")
      (mkState DemoLifecycle.world_without_target [] DemoLifecycle.named_view)
    = (Ok tt, st')
    ∧ target_table_id (local st') = StorageID.mk "db" ".inner.w" 8
    ∧ StorageID.database_name (scratch_table_id (local st')) = "other".
Proof.
  eexists. split; [vm_compute; reflexivity|].
  destruct (renameInMemory_missing_target_keeps_old_identity (decls := Demo.decls)
              (env := Demo.env) (lifecycle := DemoLifecycle.lifecycle)
              (mkState DemoLifecycle.world_without_target [] DemoLifecycle.named_view)
              (StorageID.make "other" "w") _
              eq_refl eq_refl eq_refl ltac:(vm_compute; reflexivity))
    as (Htarget & Hscratch & _).
  split; [exact Htarget|exact (proj1 (Hscratch eq_refl))].
Defined.

Lemma refresh_cycle_truncates_only_after_failure_witness :
  log (prepareRefresh (env := Demo.env) Demo.context
         (mkState Demo.refreshable_world
            (log Demo.after_prepare ++ [EvTransferAllDataFrom 0 1 true true])
            (set_scratch_table_is_known_to_be_empty Demo.refreshable_view true))).2
  = (log Demo.after_prepare ++ [EvTransferAllDataFrom 0 1 true true])
    ++ [EvGetSampleBlock true Demo.select_text].
Proof.
  destruct (refresh_cycle_truncates_only_after_failure (env := Demo.env) Demo.context
              Demo.before_prepare Demo.insert_query Demo.after_prepare
              eq_refl ltac:(vm_compute; reflexivity))
    as [_ Hafter_transfer].
  exact (Hafter_transfer Demo.refreshable_world
           (mkState Demo.refreshable_world
              (log Demo.after_prepare ++ [EvTransferAllDataFrom 0 1 true true])
              (set_scratch_table_is_known_to_be_empty Demo.refreshable_view true))
           Demo.refreshable_world Demo.context
           ltac:(vm_compute; reflexivity)).
Defined.

Lemma first_refresh_after_creation_does_not_truncate_witness :
  log (prepareRefresh (env := Demo.env) Demo.context
         (mkState Demo.refreshable_world (log DemoLifecycle.created_state)
            DemoLifecycle.created_view)).2
  = log DemoLifecycle.created_state ++ [EvGetSampleBlock true Demo.select_text].
Proof.
  exact (first_refresh_after_creation_does_not_truncate (decls := Demo.decls)
           (env := Demo.env) Demo.view_id Demo.refreshable_query Demo.header_ab ""
           (mkState Demo.empty_world [] [])
           DemoLifecycle.created_view DemoLifecycle.created_state
           Demo.refreshable_world Demo.context ltac:(vm_compute; reflexivity)).
Defined.

Lemma drop_after_creation_drops_created_tables_witness :
  ∃ r st' events,
    dropInnerTableIfAny (env := Demo.env) false
      (mkState Demo.refreshable_world (log DemoLifecycle.created_state)
         DemoLifecycle.created_view)
    = (r, st')
    ∧ log st' = log DemoLifecycle.created_state ++ events
    ∧ dropped_by events `sublist_of` [Demo.target_id; Demo.scratch_id]
    ∧ Forall (is_inner_drop false) events.
Proof.
  exact (drop_after_creation_drops_created_tables (decls := Demo.decls)
           (env := Demo.env) Demo.view_id Demo.refreshable_query Demo.header_ab ""
           (mkState Demo.empty_world [] [])
           DemoLifecycle.created_view DemoLifecycle.created_state
           Demo.refreshable_world false ltac:(vm_compute; reflexivity)).
Defined.

(** A statement to forward, on the view over db.dst and on the refreshable
    view. *)
Example forwarded_statements_demo :
  (∃ e, code e = INCORRECT_QUERY
        ∧ mutate (env := Demo.env) (lifecycle := DemoLifecycle.lifecycle)
            "DELETE WHERE a = 1" (mkState Demo.world_to [] Demo.view_to)
          = (Throw e, mkState Demo.world_to [] Demo.view_to))
  ∧ mutate (env := Demo.env) (lifecycle := DemoLifecycle.lifecycle)
      "DELETE WHERE a = 1" Demo.before_prepare
    = (Ok tt, Demo.before_prepare)
  ∧ mutate (env := Demo.env) (lifecycle := DemoLifecycle.lifecycle)
      "DELETE WHERE a = 1" (mkState Demo.empty_world [] Demo.refreshable_view)
    = (Throw Demo.unknown_table_error, mkState Demo.empty_world [] Demo.refreshable_view).
Proof. split_and!; [eexists; split; [|vm_compute; reflexivity]; reflexivity|reflexivity..]. Qed.

(** ** Lists of alter commands *)

Section alter_lists.
Context {decls : Decls}.

(** Checking a list of commands is checking its parts in order: the
    exception is the one of the first part that is refused, and a later
    part is only looked at when the earlier one is accepted. *)
Theorem checkAlterIsPossible_app (this : StorageMaterializedView)
    (commands commands' : list AlterCommand.t) :
  checkAlterIsPossible this (commands ++ commands')
  = match checkAlterIsPossible this commands with
    | Ok _ => checkAlterIsPossible this commands'
    | Throw e => Throw e
    end.
Proof.
  induction commands as [|command rest IH]; [done|]. simpl.
  destruct (isCommentAlter command); [exact IH|].
  destruct (bool_decide (AlterCommand.type command = MODIFY_QUERY)); [exact IH|].
  destruct (bool_decide (AlterCommand.type command = MODIFY_REFRESH)); [|done].
  destruct (negb (bool_decide (is_Some (refresher this)))); [done|].
  destruct (negb (eqb _ _)); [done|exact IH].
Qed.
End alter_lists.
